(** * ai-powered-fix.py: the scanner, the context extractor and the run

    A shallow embedding of [.github/scripts/ai-powered-fix.py].

    - Text is [string]; a character is an 8-bit code point (the Latin-1
      range of Python's [str]).  A file's content is the text that
      [f.read()] returns, after decoding and newline translation.
    - Integers are [Z]; indexing and slicing follow Python (a negative
      index counts from the end, an index out of range raises
      [IndexError], a slice clamps).
    - The three [re.match] patterns and the six [re.search] patterns are
      regular expressions without look-around or back-references, so
      whether they match is decided by their language; they are embedded
      as terms of [re] and matched by derivatives.
    - The methods run in a small state-and-exception monad [M] whose
      state holds the fixer object ([self.violations], [self.fixes]) and
      the trace of what the process did to the outside: console prints,
      files opened for reading, files written, service requests. *)

From Stdlib Require Import String Ascii List ZArith Lia Bool Arith Sorted.
Import ListNotations.
Open Scope string_scope.
Open Scope list_scope.
Open Scope Z_scope.

(* ================================================================== *)
(** ** Characters and strings, as Python sees them *)

Module Py.

(** [str.isspace] on a single character, which is also what [\s] and
    [str.strip()] use: U+0009..U+000D, U+001C..U+0020, U+0085, U+00A0. *)
Definition isspace (c : ascii) : bool :=
  let n := nat_of_ascii c in
  ((9 <=? n) && (n <=? 13) || (28 <=? n) && (n <=? 32)
   || (n =? 133) || (n =? 160))%nat.

(** [\w] of a [str] pattern: alphanumeric (Unicode) or underscore. *)
Definition isword (c : ascii) : bool :=
  let n := nat_of_ascii c in
  ((48 <=? n) && (n <=? 57) || (65 <=? n) && (n <=? 90)
   || (97 <=? n) && (n <=? 122) || (n =? 95)
   || (n =? 170) || (n =? 178) || (n =? 179) || (n =? 181)
   || (n =? 185) || (n =? 186) || (188 <=? n) && (n <=? 190)
   || (192 <=? n) && (n <=? 214) || (216 <=? n) && (n <=? 246)
   || (248 <=? n) && (n <=? 255))%nat.

Definition newline : ascii := "010"%char.
Definition nl : string := String newline "".

(** [s.lstrip()] *)
Fixpoint lstrip (s : string) : string :=
  match s with
  | EmptyString => EmptyString
  | String c t => if isspace c then lstrip t else s
  end.

(** [s.rstrip()] *)
Fixpoint rstrip (s : string) : string :=
  match s with
  | EmptyString => EmptyString
  | String c t =>
      match rstrip t with
      | EmptyString => if isspace c then EmptyString else String c EmptyString
      | t' => String c t'
      end
  end.

(** [s.strip()] *)
Definition strip (s : string) : string := rstrip (lstrip s).

(** [a in s] for strings: substring test. *)
Fixpoint contains (a s : string) : bool :=
  prefix a s
  || match s with
     | EmptyString => false
     | String _ t => contains a t
     end.

(** [s.endswith(a)] *)
Definition endswith (s a : string) : bool :=
  let n := String.length s in
  let k := String.length a in
  (k <=? n)%nat && String.eqb (substring (n - k) k s) a.

(** [f.readlines()]: the lines of a text, each with its terminator; the
    last one has none when the text does not end in a newline. *)
Fixpoint readlines (s : string) : list string :=
  match s with
  | EmptyString => []
  | String c t =>
      if Ascii.eqb c newline then String c EmptyString :: readlines t
      else match readlines t with
           | [] => [String c EmptyString]
           | l :: ls => String c l :: ls
           end
  end.

(** [s.split('\n')]: the pieces between newlines; never empty. *)
Fixpoint split_nl (s : string) : list string :=
  match s with
  | EmptyString => [EmptyString]
  | String c t =>
      if Ascii.eqb c newline then EmptyString :: split_nl t
      else match split_nl t with
           | [] => [String c EmptyString]
           | l :: ls => String c l :: ls
           end
  end.

(** [''.join(l)] *)
Definition join (l : list string) : string :=
  fold_right String.append EmptyString l.

(** [l[i]]: [None] stands for [IndexError]. *)
Definition index {A} (l : list A) (i : Z) : option A :=
  let n := Z.of_nat (List.length l) in
  let j := if i <? 0 then i + n else i in
  if (0 <=? j) && (j <? n) then nth_error l (Z.to_nat j) else None.

(** The bound of a slice, as [PySlice_AdjustIndices] computes it for a
    step of 1. *)
Definition slice_bound (n i : Z) : Z :=
  if i <? 0 then Z.max 0 (i + n) else Z.min i n.

(** [l[start:stop]] *)
Definition slice {A} (l : list A) (start stop : Z) : list A :=
  let n := Z.of_nat (List.length l) in
  let a := slice_bound n start in
  let b := slice_bound n stop in
  firstn (Z.to_nat (b - a)) (skipn (Z.to_nat a) l).

(** [list(range(start, stop, -1))] *)
Definition range_down (start stop : Z) : list Z :=
  map (fun k => start - Z.of_nat k) (seq 0 (Z.to_nat (start - stop))).

(** [os.path.join(a, b)] for two components, POSIX. *)
Definition path_join (a b : string) : string :=
  if prefix "/" b then b
  else if String.eqb a "" || endswith a "/" then (a ++ b)%string
  else (a ++ "/" ++ b)%string.

End Py.

(* ================================================================== *)
(** ** Regular expressions *)

Module Re.

(** The fragment of Python's [re] syntax the script uses.  [Class p] is
    one character satisfying [p]: a literal, [\s], [\w] or [.]. *)
Inductive re : Type :=
| Void : re
| Eps : re
| Class : (ascii -> bool) -> re
| Seq : re -> re -> re
| Alt : re -> re -> re
| Star : re -> re.

Definition chr (c : ascii) : re := Class (Ascii.eqb c).
Definition space : re := Class Py.isspace.               (* \s *)
Definition word : re := Class Py.isword.                 (* \w *)
Definition dot : re :=                                   (* .  *)
  Class (fun c => negb (Ascii.eqb c Py.newline)).
Definition plus (r : re) : re := Seq r (Star r).         (* r+ *)

(** A literal run of characters. *)
Fixpoint lit (s : string) : re :=
  match s with
  | EmptyString => Eps
  | String c EmptyString => chr c
  | String c t => Seq (chr c) (lit t)
  end.

Fixpoint seqs (l : list re) : re :=
  match l with
  | [] => Eps
  | [r] => r
  | r :: rs => Seq r (seqs rs)
  end.

Fixpoint alts (l : list re) : re :=
  match l with
  | [] => Void
  | [r] => r
  | r :: rs => Alt r (alts rs)
  end.

(** The words of a regular expression. *)
Inductive lang : re -> string -> Prop :=
| L_eps : lang Eps ""
| L_class p c : p c = true -> lang (Class p) (String c "")
| L_seq r1 r2 s1 s2 : lang r1 s1 -> lang r2 s2 -> lang (Seq r1 r2) (s1 ++ s2)
| L_alt_l r1 r2 s : lang r1 s -> lang (Alt r1 r2) s
| L_alt_r r1 r2 s : lang r2 s -> lang (Alt r1 r2) s
| L_star_nil r : lang (Star r) ""
| L_star_cons r s1 s2 :
    lang r s1 -> lang (Star r) s2 -> lang (Star r) (s1 ++ s2).

Fixpoint nullable (r : re) : bool :=
  match r with
  | Void => false
  | Eps => true
  | Class _ => false
  | Seq a b => nullable a && nullable b
  | Alt a b => nullable a || nullable b
  | Star _ => true
  end.

(** Constructors that drop [Void] and [Eps], to keep derivatives small. *)
Definition mkSeq (a b : re) : re :=
  match a, b with
  | Void, _ => Void
  | _, Void => Void
  | Eps, _ => b
  | _, Eps => a
  | _, _ => Seq a b
  end.

Definition mkAlt (a b : re) : re :=
  match a, b with
  | Void, _ => b
  | _, Void => a
  | _, _ => Alt a b
  end.

(** Brzozowski derivative. *)
Fixpoint deriv (c : ascii) (r : re) : re :=
  match r with
  | Void => Void
  | Eps => Void
  | Class p => if p c then Eps else Void
  | Seq a b =>
      if nullable a then mkAlt (mkSeq (deriv c a) b) (deriv c b)
      else mkSeq (deriv c a) b
  | Alt a b => mkAlt (deriv c a) (deriv c b)
  | Star a => mkSeq (deriv c a) (Star a)
  end.

(** [s] is a word of [r]. *)
Fixpoint fullmatch (r : re) (s : string) : bool :=
  match s with
  | EmptyString => nullable r
  | String c t => fullmatch (deriv c r) t
  end.

(** [re.match(r, s) is not None]: some prefix of [s] is a word of [r]. *)
Fixpoint match_ (r : re) (s : string) : bool :=
  nullable r
  || match s with
     | EmptyString => false
     | String c t => match_ (deriv c r) t
     end.

(** [re.search(r, s) is not None]: a match starts at some position. *)
Fixpoint search (r : re) (s : string) : bool :=
  match_ r s
  || match s with
     | EmptyString => false
     | String _ t => search r t
     end.

End Re.

(* ================================================================== *)
(** ** The patterns of the script *)

Module Patterns.
Import Re.

Definition dquote : ascii := "034"%char.

(** [r'return\s+0\.5f\s*;.*placeholder'] *)
Definition hardcoded_placeholder : re :=
  seqs [lit "return"; plus space; lit "0.5f"; Star space; lit ";";
        Star dot; lit "placeholder"].

(** [r'throw\s+.*Error.*not implemented'] *)
Definition not_implemented_error : re :=
  seqs [lit "throw"; plus space; Star dot; lit "Error"; Star dot;
        lit "not implemented"].

(** [r'return\s+"(Contemporary|Neutral|2010s)"'] *)
Definition hardcoded_string : re :=
  seqs [lit "return"; plus space; chr dquote;
        alts [lit "Contemporary"; lit "Neutral"; lit "2010s"]; chr dquote].

(** [r'//\s*(TODO|FIXME|HACK):'] *)
Definition todo_comment : re :=
  seqs [lit "//"; Star space; alts [lit "TODO"; lit "FIXME"; lit "HACK"];
        lit ":"].

(** [r'simplified|Simplified|SIMPLIFIED'] *)
Definition simplified_implementation : re :=
  alts [lit "simplified"; lit "Simplified"; lit "SIMPLIFIED"].

(** [r'Math\.random\(\)'] *)
Definition random_data_generation : re := lit "Math.random()".

(** The ordered list [patterns] of [find_violations]. *)
Definition patterns : list (re * string) :=
  [ (hardcoded_placeholder, "hardcoded_placeholder");
    (not_implemented_error, "not_implemented_error");
    (hardcoded_string, "hardcoded_string");
    (todo_comment, "todo_comment");
    (simplified_implementation, "simplified_implementation");
    (random_data_generation, "random_data_generation") ].

(** [r'^\s*\w+\s+\w+::\w+\s*\('].  Under [re.match] the leading [^]
    holds at the start of the line and nowhere else. *)
Definition class_method : re :=
  seqs [Star space; plus word; plus space; plus word; lit "::"; plus word;
        Star space; lit "("].

(** [r'^\s*function\s+\w+\s*\('] *)
Definition plain_function : re :=
  seqs [Star space; lit "function"; plus space; plus word; Star space;
        lit "("].

(** [r'^\s*async\s+function\s+\w+\s*\('] *)
Definition async_function : re :=
  seqs [Star space; lit "async"; plus space; lit "function"; plus space;
        plus word; Star space; lit "("].

(** The condition of the [if] in [extract_function_name]. *)
Definition is_declaration (line : string) : bool :=
  match_ class_method line || match_ plain_function line
  || match_ async_function line.

End Patterns.

(* ================================================================== *)
(** ** Data model *)

(** A violation: the dict appended by [find_violations]. *)
Record Violation : Type := mkViolation {
  v_file : string;
  v_line : Z;
  v_type : string;
  v_content : string
}.

(** A context: the dict returned by [analyze_code_context]. *)
Record Context : Type := mkContext {
  c_file : string;
  c_line : Z;
  c_context : string;
  c_function : string;
  c_violation_line : string
}.

(** A fix: the dict appended by [apply_fix]. *)
Record Fix : Type := mkFix {
  f_file : string;
  f_line : Z;
  f_original : string;
  f_fixed : string
}.

(** The dict dumped to [ai_fix_report.json]. *)
Record Report : Type := mkReport {
  violations_found : nat;
  fixes_applied : nat;
  r_violations : list Violation;
  r_fixes : list Fix
}.

(** What varies in the text of [generate_pr_description]: the three
    numbers of the summary and, per file in order of first fix, the fixes
    listed under it.  The fixed prose around them is not modelled. *)
Record PrDescription : Type := mkPr {
  pr_violations_found : nat;
  pr_fixes_applied : nat;
  pr_files_modified : nat;
  pr_changes : list (string * list Fix)
}.

Inductive document : Type :=
| DocReport : Report -> document
| DocPr : PrDescription -> document.

(** Exceptions the run can raise. *)
Inductive exn : Type :=
| OSError : string -> exn          (* a file could not be opened or read *)
| IndexError : exn
| ServiceError : string -> exn     (* anything raised by the service call *)
| SystemExit : Z -> exn.           (* [sys.exit(code)] *)

(** [isinstance(e, Exception)]: [SystemExit] derives from
    [BaseException] only. *)
Definition is_Exception (e : exn) : bool :=
  match e with
  | SystemExit _ => false
  | _ => true
  end.

(** The lines printed by [main], one constructor per [print]. *)
Inductive message : Type :=
| MsgMissingKey : message
| MsgScanning : message
| MsgFound : nat -> message
| MsgProcessing : nat -> nat -> message
| MsgFile : string -> Z -> message
| MsgType : string -> message
| MsgGenerating : message
| MsgFixOk : message
| MsgFixError : exn -> message
| MsgCompleted : nat -> message
| MsgReports : message.

(** The text printed for [MsgMissingKey]. *)
Definition missing_key_text : string :=
  "Error: ANTHROPIC_API_KEY environment variable not set".

(** What the process does to the outside, in order. *)
Inductive event : Type :=
| EvPrint : message -> event
| EvOpenRead : string -> event            (* [open(path, 'r')] *)
| EvWrite : string -> document -> event   (* [open(path, 'w')] and write *)
| EvRequest : string -> event.            (* [client.messages.create] *)

(** The outside of the process during one run. *)
Record World : Type := mkWorld {
  (** [os.getenv('ANTHROPIC_API_KEY')] *)
  env_api_key : option string;
  (** [os.walk(directory)]: the triples (root, dirs, files), top-down *)
  os_walk : string -> list (string * list string * list string);
  (** the text of a file; [None] when it cannot be opened or read.
      The tree is the same throughout the run: the script writes only
      its two output files, at the end. *)
  fs : string -> option string;
  (** whether a file can be opened for writing *)
  can_write : string -> bool;
  (** the answer to the k-th request (from 0) with the given prompt:
      the text of the response, or the error raised *)
  service : nat -> string -> string + string
}.

(** The fixer object and the trace of the run. *)
Record State : Type := mkState {
  fixer_violations : list Violation;   (* [self.violations] *)
  fixer_fixes : list Fix;              (* [self.fixes] *)
  requests : nat;                      (* requests sent so far *)
  trace : list event
}.

(* ================================================================== *)
(** ** The monad of the run *)

Definition M (A : Type) : Type := State -> State * (exn + A).

Definition ret {A} (a : A) : M A := fun st => (st, inr a).

Definition raise {A} (e : exn) : M A := fun st => (st, inl e).

Definition bind {A B} (m : M A) (k : A -> M B) : M B :=
  fun st =>
    match m st with
    | (st', inl e) => (st', inl e)
    | (st', inr a) => k a st'
    end.

Declare Scope run_scope.
Delimit Scope run_scope with run.
Notation "x <- m ;; k" := (bind m (fun x => k))
  (at level 100, m at next level, right associativity) : run_scope.
Notation "m ;; k" := (bind m (fun _ => k))
  (at level 100, right associativity) : run_scope.
Open Scope run_scope.

(** [try: body except Exception as e: handler(e)] *)
Definition try_except {A} (body : M A) (handler : exn -> M A) : M A :=
  fun st =>
    match body st with
    | (st', inl e) => if is_Exception e then handler e st' else (st', inl e)
    | r => r
    end.

Definition add_events (evs : list event) (st : State) : State :=
  mkState (fixer_violations st) (fixer_fixes st) (requests st)
          (trace st ++ evs).

Definition emit (e : event) : M unit := fun st => (add_events [e] st, inr tt).

Definition print (m : message) : M unit := emit (EvPrint m).

Definition get_fixes : M (list Fix) := fun st => (st, inr (fixer_fixes st)).

Definition get_violations : M (list Violation) :=
  fun st => (st, inr (fixer_violations st)).

(** [x = option] or raise. *)
Definition or_raise {A} (o : option A) (e : exn) : M A :=
  match o with
  | Some a => ret a
  | None => raise e
  end.

Definition lift {A} (r : exn + A) : M A := fun st => (st, r).

(** The exit status of the process. *)
Definition exit_code {A} (r : exn + A) : Z :=
  match r with
  | inr _ => 0
  | inl (SystemExit n) => n
  | inl _ => 1
  end.

(* ================================================================== *)
(** ** The methods of [AICodeFixer] and [main] *)

(** [extract_function_name]: the indices its [for] visits, in order. *)
Definition scan_indices (line_num : Z) : list Z :=
  Py.range_down (line_num - 1) (Z.max 0 (line_num - 50)).

(** The body of the [for] of [extract_function_name], over the indices
    still to visit. *)
Fixpoint scan_back (lines : list string) (idxs : list Z) : exn + string :=
  match idxs with
  | [] => inr "Unknown function"
  | i :: rest =>
      match Py.index lines i with
      | None => inl IndexError
      | Some l =>
          if Patterns.is_declaration l then inr (Py.strip l)
          else scan_back lines rest
      end
  end.

Definition extract_function_name (lines : list string) (line_num : Z)
  : exn + string :=
  scan_back lines (scan_indices line_num).

(** The prompt of [generate_fix_with_ai]. *)
Definition prompt_of (context : Context) : string :=
  let nl := Py.nl in
  ("You are fixing placeholder/mock code in a music analysis application."
  ++ nl ++ nl
  ++ "File: " ++ c_file context ++ nl
  ++ "Function: " ++ c_function context ++ nl
  ++ "Violation: " ++ c_violation_line context ++ nl
  ++ nl
  ++ "Context:" ++ nl
  ++ "```" ++ nl
  ++ c_context context ++ nl
  ++ "```" ++ nl
  ++ nl
  ++ "The current implementation is a placeholder that returns a hardcoded value or throws an error."
  ++ nl
  ++ "Generate a REAL implementation that:" ++ nl
  ++ "1. Performs actual calculations based on the input data" ++ nl
  ++ "2. Uses proper algorithms for music analysis" ++ nl
  ++ "3. Returns meaningful results, not hardcoded values" ++ nl
  ++ "4. Is production-ready code" ++ nl
  ++ nl
  ++ "Provide ONLY the fixed function implementation, no explanations.")%string.

(** The violations of one line: one per pattern that is found in it, in
    the order of [patterns]. *)
Definition scan_line (filepath : string) (i : nat) (line : string)
  : list Violation :=
  flat_map
    (fun pt : Re.re * string =>
       if Re.search (fst pt) line
       then [mkViolation filepath (Z.of_nat i + 1) (snd pt) (Py.strip line)]
       else [])
    Patterns.patterns.

(** [for i, line in enumerate(lines)], from index [i] on. *)
Fixpoint scan_lines (filepath : string) (i : nat) (lines : list string)
  : list Violation :=
  match lines with
  | [] => []
  | line :: rest => scan_line filepath i line ++ scan_lines filepath (S i) rest
  end.

(** [file.endswith(('.cpp', '.h', '.js', '.ts'))] *)
Definition qualifies (file : string) : bool :=
  Py.endswith file ".cpp" || Py.endswith file ".h"
  || Py.endswith file ".js" || Py.endswith file ".ts".

(** ['node_modules' in root or '.git' in root or 'build' in root] *)
Definition skipped (root : string) : bool :=
  Py.contains "node_modules" root || Py.contains ".git" root
  || Py.contains "build" root.

(** Fixes grouped by file, files in order of their first fix: the dict
    [fixes_by_file]. *)
Fixpoint group_add (f : Fix) (groups : list (string * list Fix))
  : list (string * list Fix) :=
  match groups with
  | [] => [(f_file f, [f])]
  | (k, fs) :: rest =>
      if String.eqb k (f_file f) then (k, fs ++ [f]) :: rest
      else (k, fs) :: group_add f rest
  end.

Definition fixes_by_file (fixes : list Fix) : list (string * list Fix) :=
  fold_left (fun groups f => group_add f groups) fixes [].

Definition max_fixes : nat := 5.

Section Run.

Variable w : World.

(** [with open(filepath, 'r') as f: f.read()] *)
Definition read_file (filepath : string) : M string :=
  emit (EvOpenRead filepath) ;;
  or_raise (fs w filepath) (OSError filepath).

(** [with open(path, 'w') as f: ...] *)
Definition write_file (path : string) (d : document) : M unit :=
  if can_write w path then emit (EvWrite path d) else raise (OSError path).

Definition analyze_code_context (filepath : string) (line_num : Z)
  : M Context :=
  content <- read_file filepath ;;
  let lines := Py.readlines content in
  let start := Z.max 0 (line_num - 20) in
  let end_ := Z.min (Z.of_nat (List.length lines)) (line_num + 20) in
  let context := Py.join (Py.slice lines start end_) in
  function <- lift (extract_function_name lines line_num) ;;
  violation_line <- or_raise (Py.index lines (line_num - 1)) IndexError ;;
  ret (mkContext filepath line_num context function
                 (Py.strip violation_line)).

Definition generate_fix_with_ai (context : Context) : M string :=
  fun st =>
    let prompt := prompt_of context in
    let st' := mkState (fixer_violations st) (fixer_fixes st)
                       (S (requests st)) (trace st ++ [EvRequest prompt]) in
    match service w (requests st) prompt with
    | inl msg => (st', inl (ServiceError msg))
    | inr text => (st', inr text)
    end.

(** The walk of [find_violations] over the files of one directory. *)
Fixpoint scan_files (root : string) (files : list string)
  : M (list Violation) :=
  match files with
  | [] => ret []
  | file :: rest =>
      found <- (if qualifies file then
                  let filepath := Py.path_join root file in
                  content <- read_file filepath ;;
                  ret (scan_lines filepath 0 (Py.readlines content))
                else ret []) ;;
      more <- scan_files root rest ;;
      ret (found ++ more)
  end.

(** The walk of [find_violations] over the directories. *)
Fixpoint scan_dirs (dirs : list (string * list string * list string))
  : M (list Violation) :=
  match dirs with
  | [] => ret []
  | (root, _, files) :: rest =>
      found <- (if skipped root then ret [] else scan_files root files) ;;
      more <- scan_dirs rest ;;
      ret (found ++ more)
  end.

Definition find_violations (directory : string) : M (list Violation) :=
  scan_dirs (os_walk w directory).

Definition apply_fix (filepath : string) (line_num : Z)
  (new_implementation : string) : M bool :=
  content <- read_file filepath ;;
  original <- or_raise (Py.index (Py.split_nl content) (line_num - 1))
                       IndexError ;;
  (fun st =>
     (mkState (fixer_violations st)
              (fixer_fixes st
               ++ [mkFix filepath line_num original new_implementation])
              (requests st) (trace st),
      inr tt)) ;;
  ret true.

Definition generate_pr_description : M PrDescription :=
  violations <- get_violations ;;
  fixes <- get_fixes ;;
  ret (mkPr (List.length violations) (List.length fixes)
            (List.length (nodup string_dec (map f_file fixes)))
            (fixes_by_file fixes)).

(** The body of the [for] of [main] for the violation of index [i]. *)
Definition process_violation (total i : nat) (violation : Violation)
  : M unit :=
  print (MsgProcessing (S i) total) ;;
  print (MsgFile (v_file violation) (v_line violation)) ;;
  print (MsgType (v_type violation)) ;;
  context <- analyze_code_context (v_file violation) (v_line violation) ;;
  try_except
    (print MsgGenerating ;;
     fix_ <- generate_fix_with_ai context ;;
     apply_fix (v_file violation) (v_line violation) fix_ ;;
     print MsgFixOk)
    (fun e => print (MsgFixError e)).

(** [for i, violation in enumerate(...)], from index [i] on. *)
Fixpoint process_violations (total i : nat) (vs : list Violation) : M unit :=
  match vs with
  | [] => ret tt
  | violation :: rest =>
      process_violation total i violation ;;
      process_violations total (S i) rest
  end.

(** [if not api_key] *)
Definition key_missing (api_key : option string) : bool :=
  match api_key with
  | None => true
  | Some k => String.eqb k ""
  end.

(** [AICodeFixer(api_key)]: a fixer with empty lists. *)
Definition new_fixer : M unit :=
  fun st => (mkState [] [] (requests st) (trace st), inr tt).

Definition main : M unit :=
  if key_missing (env_api_key w) then
    print MsgMissingKey ;;
    raise (SystemExit 1)
  else
    new_fixer ;;
    print MsgScanning ;;
    violations <- find_violations "." ;;
    print (MsgFound (List.length violations)) ;;
    process_violations (Nat.min max_fixes (List.length violations)) 0
                       (firstn max_fixes violations) ;;
    fixes <- get_fixes ;;
    let report := mkReport (List.length violations) (List.length fixes)
                           violations fixes in
    write_file "ai_fix_report.json" (DocReport report) ;;
    pr_description <- generate_pr_description ;;
    write_file "pr_description.md" (DocPr pr_description) ;;
    fixes' <- get_fixes ;;
    print (MsgCompleted (List.length fixes')) ;;
    print MsgReports.

End Run.

(** The state of a process that has done nothing yet. *)
Definition initial : State := mkState [] [] 0 [].

(** Observations on a trace. *)
Definition is_write (e : event) : bool :=
  match e with EvWrite _ _ => true | _ => false end.

Definition is_request (e : event) : bool :=
  match e with EvRequest _ => true | _ => false end.

Definition is_open_read (e : event) : bool :=
  match e with EvOpenRead _ => true | _ => false end.

Definition writes (tr : list event) : list event := filter is_write tr.

Definition fix_attempts (tr : list event) : nat :=
  List.length (filter is_request tr).

(** The files that the walk opens: the source files listed under a
    directory that is not skipped. *)
Definition scanned_file (dirs : list (string * list string * list string))
  (path : string) : Prop :=
  exists root ds files file,
    In (root, ds, files) dirs /\ skipped root = false /\
    In file files /\ qualifies file = true /\
    path = Py.path_join root file.

(** The outcome of the scan of [main]: what [find_violations()] returns
    or raises.  It does not depend on the state it starts in. *)
Definition scan_result (w : World) : exn + list Violation :=
  snd (find_violations w "." initial).

(** What [analyze_code_context] returns or raises for a file and a line;
    it does not depend on the state. *)
Definition context_of (w : World) (filepath : string) (line_num : Z)
  : exn + Context :=
  snd (analyze_code_context w filepath line_num initial).

(** The state once the request for [context] has been sent. *)
Definition requested (total i : nat) (violation : Violation)
  (context : Context) (st : State) : State :=
  mkState (fixer_violations st) (fixer_fixes st) (S (requests st))
    (trace st
     ++ [EvPrint (MsgProcessing (S i) total);
         EvPrint (MsgFile (v_file violation) (v_line violation));
         EvPrint (MsgType (v_type violation));
         EvOpenRead (v_file violation);
         EvPrint MsgGenerating;
         EvRequest (prompt_of context)]).

(** A run of whitespace, such as the indentation of a line. *)
Fixpoint all_space (s : string) : bool :=
  match s with
  | EmptyString => true
  | String c t => Py.isspace c && all_space t
  end.

(* ================================================================== *)
(** ** Runs on small trees *)

Module Examples.

(** The window as the comment of [analyze_code_context] words it: the
    20 lines before the target, the target, and the 20 lines after it,
    as far as the file has them. *)
Definition window_as_specified (lines : list string) (line_num : Z)
  : list string :=
  let t := Z.to_nat (line_num - 1) in
  skipn (t - 20) (firstn t lines) ++ firstn 21 (skipn t lines).

Definition lookup (files : list (string * string)) (path : string)
  : option string :=
  match find (fun kv => String.eqb (fst kv) path) files with
  | Some kv => Some (snd kv)
  | None => None
  end.

(** The text of a file given by its lines. *)
Definition text_of (lines : list string) : string :=
  Py.join (map (fun l => (l ++ Py.nl)%string) lines).

(** A tree with one directory [src] and the given files in it; every
    file listed in [files] is readable, the others are not. *)
Definition tree (key : option string) (names : list string)
  (files : list (string * string)) (service : nat -> string -> string + string)
  : World :=
  mkWorld key
          (fun _ => [(".", ["src"], []); ("./src", [], names)])
          (lookup files)
          (fun _ => true)
          service.

Definition always (text : string) : nat -> string -> string + string :=
  fun _ _ => inr text.

Definition analyzer_cpp : string :=
  text_of ["float Analyzer::energy(Track t) {";
           "  return 0.5f; // placeholder";
           "}"].

Definition analyzer_violation : Violation :=
  mkViolation "./src/analyzer.cpp" 2 "hardcoded_placeholder"
              "return 0.5f; // placeholder".

Definition analyzer_context : Context :=
  mkContext "./src/analyzer.cpp" 2 analyzer_cpp "Unknown function"
            "return 0.5f; // placeholder".

(** One source file with one placeholder; the service answers. *)
Definition w_analyzer : World :=
  tree (Some "sk-test") ["analyzer.cpp"; "README.md"]
       [("./src/analyzer.cpp", analyzer_cpp)] (always "return rms(t);").

(** The same tree; the service refuses every request. *)
Definition w_refused : World :=
  tree (Some "sk-test") ["analyzer.cpp"; "README.md"]
       [("./src/analyzer.cpp", analyzer_cpp)] (fun _ _ => inl "overloaded").

(** The same tree, with the credential set to the empty string. *)
Definition w_empty_key : World :=
  tree (Some "") ["analyzer.cpp"; "README.md"]
       [("./src/analyzer.cpp", analyzer_cpp)] (always "return rms(t);").

(** The same tree, without the credential. *)
Definition w_no_key : World :=
  tree None ["analyzer.cpp"; "README.md"]
       [("./src/analyzer.cpp", analyzer_cpp)] (always "return rms(t);").

(** A tree with a second source file that cannot be read. *)
Definition w_unreadable : World :=
  tree (Some "sk-test") ["analyzer.cpp"; "locked.cpp"]
       [("./src/analyzer.cpp", analyzer_cpp)] (always "return rms(t);").

(** A file whose whole text is the bare return, next to the first. *)
Definition w_bare : World :=
  tree (Some "sk-test") ["analyzer.cpp"; "bare.cpp"]
       [("./src/analyzer.cpp", analyzer_cpp);
        ("./src/bare.cpp", "return 0.5f;")] (always "return rms(t);").

Definition todo_js : string :=
  text_of ["// TODO: one"; "// TODO: two"; "// TODO: three";
           "// TODO: four"; "// TODO: five"; "// TODO: six"].

Definition todo_violations : list Violation :=
  [mkViolation "./src/todo.js" 1 "todo_comment" "// TODO: one";
   mkViolation "./src/todo.js" 2 "todo_comment" "// TODO: two";
   mkViolation "./src/todo.js" 3 "todo_comment" "// TODO: three";
   mkViolation "./src/todo.js" 4 "todo_comment" "// TODO: four";
   mkViolation "./src/todo.js" 5 "todo_comment" "// TODO: five";
   mkViolation "./src/todo.js" 6 "todo_comment" "// TODO: six"].

(** Six violations; the service answers every other request. *)
Definition w_todo : World :=
  tree (Some "sk-test") ["todo.js"] [("./src/todo.js", todo_js)]
       (fun k _ => if Nat.even k then inr "done" else inl "overloaded").

Definition numbered : list string :=
  ["L01"; "L02"; "L03"; "L04"; "L05"; "L06"; "L07"; "L08"; "L09"; "L10";
   "L11"; "L12"; "L13"; "L14"; "L15"; "L16"; "L17"; "L18"; "L19"; "L20";
   "L21"; "L22"; "L23"; "L24"; "L25"].

(** A file of 25 lines. *)
Definition w_numbered : World :=
  tree (Some "sk-test") ["numbered.h"]
       [("./src/numbered.h", text_of numbered)] (always "done").

End Examples.

(* ================================================================== *)
(** ** Further observations on the scanner and the run *)

(** The paths that the walk of [find_violations] joins and opens, in
    order: for each directory that is not skipped, its files with a
    source extension. *)
Definition scanned_paths (dirs : list (string * list string * list string))
  : list string :=
  flat_map
    (fun d : string * list string * list string =>
       let '(root, _, files) := d in
       if skipped root then []
       else map (Py.path_join root) (filter qualifies files))
    dirs.

(** The violations of the file at a path, as its text stands. *)
Definition violations_of (w : World) (path : string) : list Violation :=
  match fs w path with
  | Some content => scan_lines path 0 (Py.readlines content)
  | None => []
  end.

(** Reading the files of a list in order: the paths opened and the
    violations gathered, or the error at the first file that cannot be
    read. *)
Fixpoint read_all (w : World) (paths : list string)
  : list string * (exn + list Violation) :=
  match paths with
  | [] => ([], inr [])
  | p :: rest =>
      match fs w p with
      | None => ([p], inl (OSError p))
      | Some content =>
          let '(opened, r) := read_all w rest in
          (p :: opened,
           match r with
           | inl e => inl e
           | inr vs => inr (scan_lines p 0 (Py.readlines content) ++ vs)
           end)
      end
  end.

Definition is_fix_ok (e : event) : bool :=
  match e with EvPrint MsgFixOk => true | _ => false end.

Definition is_fix_error (e : event) : bool :=
  match e with EvPrint (MsgFixError _) => true | _ => false end.

(** The turns of the loop that ended with a fix recorded, and those that
    ended with an error printed. *)
Definition fixes_ok (tr : list event) : nat :=
  List.length (filter is_fix_ok tr).

Definition fixes_failed (tr : list event) : nat :=
  List.length (filter is_fix_error tr).

(** The state of [main] when its loop starts: a new fixer, the scan
    announced, the files opened and the count printed. *)
Definition before_loop (opened : list string) (found : nat) (st : State)
  : State :=
  mkState [] [] (requests st)
    (trace st ++ EvPrint MsgScanning :: map EvOpenRead opened
     ++ [EvPrint (MsgFound found)]).

(** What [main] writes and prints once its loop has ended in [st]. *)
Definition report_of (vs : list Violation) (st : State) : Report :=
  mkReport (List.length vs) (List.length (fixer_fixes st)) vs
           (fixer_fixes st).

Definition description_of (st : State) : PrDescription :=
  mkPr (List.length (fixer_violations st)) (List.length (fixer_fixes st))
       (List.length (nodup string_dec (map f_file (fixer_fixes st))))
       (fixes_by_file (fixer_fixes st)).

(** The fixes of a list that are for the file [k], in order. *)
Definition fixes_for (k : string) (fixes : list Fix) : list Fix :=
  filter (fun f => String.eqb (f_file f) k) fixes.

(** What the groups hold once the fixes [processed] have been added:
    one group per file that has a fix, holding the fixes of that file. *)
Definition grouped (groups : list (string * list Fix))
  (processed : list Fix) : Prop :=
  NoDup (map fst groups) /\
  forall k fs,
    In (k, fs) groups <-> fs = fixes_for k processed /\ fs <> [].

(** A text without a newline, such as a stretch of one line. *)
Fixpoint no_newline (s : string) : bool :=
  match s with
  | EmptyString => true
  | String c t => negb (Ascii.eqb c Py.newline) && no_newline t
  end.

Module Trees.
Import Examples.

(** A tree without a source file outside the skipped directories. *)
Definition w_docs : World :=
  mkWorld (Some "sk-test")
          (fun _ => [(".", [".github"; "docs"], ["README.md"]);
                     ("./.github", [], ["hook.js"]);
                     ("./docs", [], ["guide.txt"])])
          (lookup [("./.github/hook.js", "// TODO: x")])
          (fun _ => true)
          (always "done").

(** The tree of [w_todo] in a directory where nothing can be written. *)
Definition w_readonly : World :=
  mkWorld (Some "sk-test") (os_walk w_todo) (fs w_todo) (fun _ => false)
          (service w_todo).

(** The same, where only the report can be written. *)
Definition w_half : World :=
  mkWorld (Some "sk-test") (os_walk w_todo) (fs w_todo)
          (fun path => String.eqb path "ai_fix_report.json")
          (service w_todo).

Definition main_ts : string := text_of ["// FIXME: wire up"].

Definition rand_js : string :=
  text_of ["// simplified helpers";
           "function pick(xs) {";
           "  return xs[Math.random() * xs.length | 0];";
           "}"].

(** A violation that names a file that cannot be read. *)
Definition locked_violation : Violation :=
  mkViolation "./src/locked.cpp" 1 "todo_comment" "// TODO: unlock".

(** Two source directories and a build directory. *)
Definition w_two : World :=
  mkWorld (Some "sk-test")
          (fun _ => [(".", ["src"; "lib"; "rebuild"], ["main.ts"]);
                     ("./src", [], ["analyzer.cpp"; "notes.txt"]);
                     ("./lib", [], ["rand.js"]);
                     ("./rebuild", [], ["gen.js"])])
          (lookup [("./main.ts", main_ts);
                   ("./src/analyzer.cpp", analyzer_cpp);
                   ("./lib/rand.js", rand_js);
                   ("./rebuild/gen.js", "// TODO: never seen")])
          (fun _ => true)
          (always "done").

Definition quote : string := String Patterns.dquote "".

Definition mood_js : string :=
  text_of ["function mood(t) {";
           "  if (!t) throw new Error('mood: not implemented');";
           ("  return " ++ quote ++ "Neutral" ++ quote ++ ";")%string;
           "}"].

(** A tree with the two idioms of an error thrown and of a fixed
    string returned. *)
Definition w_mood : World :=
  tree (Some "sk-test") ["mood.js"] [("./src/mood.js", mood_js)]
       (always "return classify(t);").

Definition fix_a1 : Fix := mkFix "a.cpp" 1 "x" "p".
Definition fix_b7 : Fix := mkFix "b.cpp" 7 "y" "q".
Definition fix_a9 : Fix := mkFix "a.cpp" 9 "z" "r".

End Trees.

(* ================================================================== *)
(** ** Facts about the Python operations *)

Module PyFacts.
Import Py.

Lemma join_app (l1 l2 : list string) :
  join (l1 ++ l2) = (join l1 ++ join l2)%string.
Proof.
  induction l1 as [|x l1 IH]; simpl; [reflexivity|].
  unfold join in *; simpl. rewrite IH.
  clear IH. induction x as [|c x IHx]; simpl; [reflexivity|].
  now rewrite IHx.
Qed.

(** [readlines] loses nothing: the lines put together are the text. *)
Lemma join_readlines (s : string) : join (readlines s) = s.
Proof.
  induction s as [|c t IH]; simpl; [reflexivity|].
  destruct (Ascii.eqb c newline).
  - unfold join in *; simpl. now rewrite IH.
  - destruct (readlines t) as [|l ls].
    + unfold join in *; simpl in *. now rewrite <- IH.
    + unfold join in *; simpl in *. now rewrite IH.
Qed.

Lemma split_nl_nonempty (s : string) : split_nl s <> [].
Proof.
  destruct s as [|c t]; simpl; [discriminate|].
  destruct (Ascii.eqb c newline); [discriminate|].
  destruct (split_nl t); discriminate.
Qed.

(** [split('\n')] has at least as many pieces as [readlines] has lines. *)
Lemma readlines_le_split (s : string) :
  (List.length (readlines s) <= List.length (split_nl s))%nat.
Proof.
  induction s as [|c t IH]; simpl; [lia|].
  destruct (Ascii.eqb c newline); simpl; [lia|].
  pose proof (split_nl_nonempty t) as Hne.
  destruct (readlines t), (split_nl t); simpl in *; try lia; congruence.
Qed.

(** A valid non-negative index is a plain lookup. *)
Lemma index_nth {A} (l : list A) (i : Z) :
  0 <= i < Z.of_nat (List.length l) ->
  index l i = nth_error l (Z.to_nat i).
Proof.
  intros H. unfold index.
  destruct (Z.ltb_spec i 0); [lia|].
  destruct (Z.leb_spec 0 i); [|lia].
  destruct (Z.ltb_spec i (Z.of_nat (List.length l))); [|lia].
  reflexivity.
Qed.

Lemma index_some {A} (l : list A) (i : Z) :
  0 <= i < Z.of_nat (List.length l) -> exists x, index l i = Some x.
Proof.
  intros H. rewrite index_nth by assumption.
  destruct (nth_error l (Z.to_nat i)) eqn:E; [eauto|].
  apply nth_error_None in E. lia.
Qed.

(** Past the first element, a lookup does not see the first element. *)
Lemma index_tail {A} (x y : A) (l : list A) (i : Z) :
  1 <= i -> index (x :: l) i = index (y :: l) i.
Proof.
  intros H. unfold index. simpl List.length.
  destruct (Z.ltb_spec i 0); [lia|].
  destruct ((0 <=? i) && (i <? Z.of_nat (S (List.length l)))); [|reflexivity].
  replace (Z.to_nat i) with (S (Z.to_nat (i - 1))) by lia.
  reflexivity.
Qed.

(** [range(start, stop, -1)] holds the integers from [start] down to
    [stop + 1]. *)
Lemma in_range_down (start stop i : Z) :
  In i (range_down start stop) <-> stop < i <= start.
Proof.
  unfold range_down. rewrite in_map_iff. split.
  - intros (k & <- & Hk). apply in_seq in Hk. lia.
  - intros H. exists (Z.to_nat (start - i)). split; [lia|].
    apply in_seq. lia.
Qed.

Lemma range_down_head (start stop : Z) :
  stop < start ->
  exists rest, range_down start stop = start :: rest.
Proof.
  intros H. unfold range_down.
  destruct (Z.to_nat (start - stop)) as [|k] eqn:E; [lia|].
  simpl. rewrite Z.sub_0_r. eauto.
Qed.

Lemma range_down_length (start stop : Z) :
  Z.of_nat (List.length (range_down start stop)) = Z.max 0 (start - stop).
Proof.
  unfold range_down. rewrite length_map, length_seq. lia.
Qed.

(** A slice with bounds inside the list, in order. *)
Lemma slice_inside {A} (l : list A) (a b : Z) :
  0 <= a -> 0 <= b ->  b <= Z.of_nat (List.length l) ->
  slice l a b = firstn (Z.to_nat (b - a)) (skipn (Z.to_nat a) l).
Proof.
  intros Ha Hb Hbl. unfold slice, slice_bound.
  destruct (Z.ltb_spec a 0); [lia|].
  destruct (Z.ltb_spec b 0); [lia|].
  destruct (Z.le_gt_cases a (Z.of_nat (List.length l))).
  - now rewrite !Z.min_l by lia.
  - rewrite (Z.min_r a) by lia. rewrite (Z.min_l b) by lia.
    replace (Z.to_nat (b - a)) with 0%nat by lia.
    replace (Z.to_nat (b - Z.of_nat (List.length l))) with 0%nat by lia.
    reflexivity.
Qed.

Lemma firstn_plus {A} (n m : nat) (l : list A) :
  firstn (n + m) l = firstn n l ++ firstn m (skipn n l).
Proof.
  revert l. induction n as [|n IH]; intros [|x l]; simpl;
    try reflexivity.
  - now rewrite firstn_nil.
  - now rewrite IH.
Qed.

(** A stretch of a list from [a] to [b], cut at [t] in between. *)
Lemma firstn_skipn_cut {A} (l : list A) (a t b : nat) :
  (a <= t <= b)%nat ->
  firstn (b - a) (skipn a l)
  = firstn (t - a) (skipn a l) ++ firstn (b - t) (skipn t l).
Proof.
  intros H.
  replace (b - a)%nat with ((t - a) + (b - t))%nat by lia.
  rewrite firstn_plus. f_equal.
  rewrite skipn_skipn. do 2 f_equal. lia.
Qed.

Lemma skipn_cons_nth {A} (l : list A) (t : nat) (x : A) :
  nth_error l t = Some x -> skipn t l = x :: skipn (S t) l.
Proof.
  revert l. induction t as [|t IH]; intros [|y l] H; simpl in *;
    try discriminate.
  - now inversion H.
  - now apply IH.
Qed.

End PyFacts.

(* ================================================================== *)
(** ** The matcher decides the language *)

Module ReFacts.
Import Re.

Lemma append_nil_r (s : string) : (s ++ "")%string = s.
Proof. induction s as [|c s IH]; simpl; [reflexivity|now rewrite IH]. Qed.

Lemma append_assoc (s1 s2 s3 : string) :
  ((s1 ++ s2) ++ s3)%string = (s1 ++ s2 ++ s3)%string.
Proof. induction s1 as [|c s1 IH]; simpl; [reflexivity|now rewrite IH]. Qed.

Lemma append_eq_nil (s1 s2 : string) :
  (s1 ++ s2)%string = "" -> s1 = "" /\ s2 = "".
Proof. destruct s1; simpl; [now split|discriminate]. Qed.

Lemma lang_void (s : string) : ~ lang Void s.
Proof. intros H. inversion H. Qed.

Lemma lang_eps (s : string) : lang Eps s <-> s = "".
Proof. split; [intros H; now inversion H|intros ->; constructor]. Qed.

Lemma lang_class (p : ascii -> bool) (s : string) :
  lang (Class p) s <-> exists c, s = String c "" /\ p c = true.
Proof.
  split.
  - intros H. inversion H; subst. eauto.
  - intros (c & -> & Hc). now constructor.
Qed.

Lemma lang_seq (a b : re) (s : string) :
  lang (Seq a b) s <->
  exists s1 s2, s = (s1 ++ s2)%string /\ lang a s1 /\ lang b s2.
Proof.
  split.
  - intros H. inversion H; subst. eauto.
  - intros (s1 & s2 & -> & H1 & H2). now constructor.
Qed.

Lemma lang_alt (a b : re) (s : string) :
  lang (Alt a b) s <-> lang a s \/ lang b s.
Proof.
  split.
  - intros H. inversion H; subst; auto.
  - intros [H|H]; [now apply L_alt_l|now apply L_alt_r].
Qed.

(** A non-empty word of [Star a] starts with a non-empty word of [a]. *)
Lemma lang_star_cons (a : re) (c : ascii) (s : string) :
  lang (Star a) (String c s) <->
  exists s1 s2,
    s = (s1 ++ s2)%string /\ lang a (String c s1) /\ lang (Star a) s2.
Proof.
  split.
  - intros H. remember (Star a) as r eqn:Er.
    remember (String c s) as u eqn:Eu. revert c s Eu.
    induction H as [ | | | | | |r s1 s2 H1 _ H2 IH2]; intros c' s' Eu;
      try discriminate.
    inversion Er; subst r. destruct s1 as [|c1 s1]; simpl in Eu.
    + now apply IH2.
    + inversion Eu; subst. eauto.
  - intros (s1 & s2 & -> & H1 & H2).
    change (String c (s1 ++ s2)) with (String c s1 ++ s2)%string.
    now constructor.
Qed.

Lemma nullable_spec (r : re) : nullable r = true <-> lang r "".
Proof.
  induction r as [ | |p|a IHa b IHb|a IHa b IHb|a IHa]; simpl.
  - split; [discriminate|intros H; now apply lang_void in H].
  - split; [constructor|reflexivity].
  - split; [discriminate|].
    intros H. apply lang_class in H. destruct H as (c & H & _).
    discriminate.
  - rewrite andb_true_iff, IHa, IHb, lang_seq. split.
    + intros [Ha Hb]. now exists "", "".
    + intros (s1 & s2 & E & Ha & Hb). symmetry in E.
      apply append_eq_nil in E. destruct E; subst. now split.
  - now rewrite orb_true_iff, IHa, IHb, lang_alt.
  - split; [constructor|reflexivity].
Qed.

Lemma mkSeq_spec (a b : re) (s : string) :
  lang (mkSeq a b) s <-> lang (Seq a b) s.
Proof.
  assert (Hvl : forall x, lang (Seq Void x) s <-> lang Void s).
  { intros x. rewrite lang_seq. split.
    - intros (s1 & s2 & _ & H & _). now apply lang_void in H.
    - intros H. now apply lang_void in H. }
  assert (Hvr : forall x, lang (Seq x Void) s <-> lang Void s).
  { intros x. rewrite lang_seq. split.
    - intros (s1 & s2 & _ & _ & H). now apply lang_void in H.
    - intros H. now apply lang_void in H. }
  assert (Hel : forall x, lang (Seq Eps x) s <-> lang x s).
  { intros x. rewrite lang_seq. split.
    - intros (s1 & s2 & -> & H1 & H2). apply lang_eps in H1. now subst.
    - intros H. exists "", s. repeat split; [constructor|exact H]. }
  assert (Her : forall x, lang (Seq x Eps) s <-> lang x s).
  { intros x. rewrite lang_seq. split.
    - intros (s1 & s2 & -> & H1 & H2). apply lang_eps in H2. subst.
      now rewrite append_nil_r.
    - intros H. exists s, "". rewrite append_nil_r.
      repeat split; [exact H|constructor]. }
  destruct a; destruct b; simpl;
    rewrite ?Hvl, ?Hvr, ?Hel, ?Her; reflexivity.
Qed.

Lemma mkAlt_spec (a b : re) (s : string) :
  lang (mkAlt a b) s <-> lang (Alt a b) s.
Proof.
  assert (Hl : forall x, lang (Alt Void x) s <-> lang x s).
  { intros x. rewrite lang_alt. split; [|auto].
    intros [H|H]; [now apply lang_void in H|exact H]. }
  assert (Hr : forall x, lang (Alt x Void) s <-> lang x s).
  { intros x. rewrite lang_alt. split; [|auto].
    intros [H|H]; [exact H|now apply lang_void in H]. }
  destruct a; destruct b; simpl; rewrite ?Hl, ?Hr; reflexivity.
Qed.

(** The derivative by [c] holds the words that follow a leading [c]. *)
Lemma deriv_spec (r : re) (c : ascii) (s : string) :
  lang (deriv c r) s <-> lang r (String c s).
Proof.
  revert s.
  induction r as [ | |p|a IHa b IHb|a IHa b IHb|a IHa]; intros s; simpl.
  - split; intros H; now apply lang_void in H.
  - split; intros H; [now apply lang_void in H|].
    apply lang_eps in H. discriminate.
  - rewrite lang_class. split.
    + destruct (p c) eqn:Hc; intros H; [|now apply lang_void in H].
      apply lang_eps in H. subst. eauto.
    + intros (c' & E & Hc). inversion E; subst. rewrite Hc. constructor.
  - assert (Hleft : lang (mkSeq (deriv c a) b) s <->
                    exists s1 s2, s = (s1 ++ s2)%string /\
                                  lang a (String c s1) /\ lang b s2).
    { rewrite mkSeq_spec, lang_seq. split;
        intros (s1 & s2 & E & H1 & H2); exists s1, s2;
        (split; [exact E|]); (split; [|exact H2]); now apply IHa. }
    assert (Hseq : lang (Seq a b) (String c s) <->
                   (exists s1 s2, s = (s1 ++ s2)%string /\
                                  lang a (String c s1) /\ lang b s2)
                   \/ (lang a "" /\ lang b (String c s))).
    { rewrite lang_seq. split.
      - intros (s1 & s2 & E & H1 & H2). destruct s1 as [|c1 s1].
        + right. simpl in E. subst s2. now split.
        + left. inversion E; subst. eauto.
      - intros [(s1 & s2 & -> & H1 & H2) | [H1 H2]].
        + now exists (String c s1), s2.
        + now exists "", (String c s). }
    rewrite Hseq. destruct (nullable a) eqn:Hn.
    + rewrite mkAlt_spec, lang_alt, Hleft, IHb.
      apply nullable_spec in Hn. tauto.
    + rewrite Hleft. split; [auto|]. intros [H | [H _]]; [exact H|].
      apply nullable_spec in H. congruence.
  - now rewrite mkAlt_spec, !lang_alt, IHa, IHb.
  - rewrite mkSeq_spec, lang_seq, lang_star_cons. split;
      intros (s1 & s2 & E & H1 & H2); exists s1, s2;
      (split; [exact E|]); (split; [|exact H2]); now apply IHa.
Qed.

Lemma fullmatch_spec (s : string) (r : re) :
  fullmatch r s = true <-> lang r s.
Proof.
  revert r. induction s as [|c s IH]; intros r; simpl.
  - apply nullable_spec.
  - now rewrite IH, deriv_spec.
Qed.

(** [match_] holds exactly when a prefix of the text is a word. *)
Lemma match_spec (s : string) (r : re) :
  match_ r s = true <->
  exists s1 s2, s = (s1 ++ s2)%string /\ lang r s1.
Proof.
  revert r. induction s as [|c s IH]; intros r; simpl;
    rewrite orb_true_iff, nullable_spec.
  - split.
    + intros [H|H]; [|discriminate]. now exists "", "".
    + intros (s1 & s2 & E & H). symmetry in E.
      apply append_eq_nil in E. destruct E; subst. now left.
  - rewrite IH. split.
    + intros [H | (s1 & s2 & -> & H)].
      * now exists "", (String c s).
      * exists (String c s1), s2. split; [reflexivity|].
        now apply deriv_spec.
    + intros (s1 & s2 & E & H). destruct s1 as [|c1 s1].
      * now left.
      * right. inversion E; subst. exists s1, s2.
        split; [reflexivity|]. now apply deriv_spec.
Qed.

(** [search] holds exactly when a stretch of the text is a word. *)
Lemma search_spec (s : string) (r : re) :
  search r s = true <->
  exists s0 s1 s2, s = (s0 ++ s1 ++ s2)%string /\ lang r s1.
Proof.
  induction s as [|c s IH];
    [change (search r "") with (match_ r "" || false)
    |change (search r (String c s))
       with (match_ r (String c s) || search r s)];
    rewrite orb_true_iff, match_spec.
  - split.
    + intros [(s1 & s2 & E & H) | H]; [|discriminate].
      now exists "", s1, s2.
    + intros (s0 & s1 & s2 & E & H). left.
      symmetry in E. apply append_eq_nil in E. destruct E as [-> E].
      now exists s1, s2.
  - rewrite IH. split.
    + intros [(s1 & s2 & E & H) | (s0 & s1 & s2 & -> & H)].
      * now exists "", s1, s2.
      * now exists (String c s0), s1, s2.
    + intros (s0 & s1 & s2 & E & H). destruct s0 as [|c0 s0].
      * left. now exists s1, s2.
      * right. inversion E; subst. now exists s0, s1, s2.
Qed.

End ReFacts.

(* ================================================================== *)
(** ** The context extractor *)

Section Extractor.

Variable w : World.

Lemma read_file_run (filepath : string) (st : State) :
  read_file w filepath st
  = (add_events [EvOpenRead filepath] st,
     match fs w filepath with
     | Some content => inr content
     | None => inl (OSError filepath)
     end).
Proof.
  unfold read_file, bind, emit, or_raise, ret, raise.
  now destruct (fs w filepath).
Qed.

(** The backward scan raises only on an index outside the file. *)
Lemma scan_back_total (lines : list string) (idxs : list Z) :
  (forall i, In i idxs -> 0 <= i < Z.of_nat (List.length lines)) ->
  exists name, scan_back lines idxs = inr name.
Proof.
  induction idxs as [|i rest IH]; intros H; simpl; [eauto|].
  destruct (PyFacts.index_some lines i) as [l Hl]; [apply H; now left|].
  rewrite Hl. destruct (Patterns.is_declaration l); [eauto|].
  apply IH. intros j Hj. apply H. now right.
Qed.

Lemma scan_indices_bounds (line_num i : Z) :
  In i (scan_indices line_num) <->
  Z.max 0 (line_num - 50) < i <= line_num - 1.
Proof. unfold scan_indices. apply PyFacts.in_range_down. Qed.

Lemma extract_function_name_total (lines : list string) (line_num : Z) :
  line_num <= Z.of_nat (List.length lines) ->
  exists name, extract_function_name lines line_num = inr name.
Proof.
  intros H. apply scan_back_total. intros i Hi.
  apply scan_indices_bounds in Hi. lia.
Qed.

(** [analyze_code_context] opens the file for reading and does nothing
    else to the state; its result is that of its three lookups. *)
Lemma analyze_code_context_run (filepath : string) (line_num : Z)
  (st : State) :
  analyze_code_context w filepath line_num st
  = (add_events [EvOpenRead filepath] st,
     match fs w filepath with
     | None => inl (OSError filepath)
     | Some content =>
         let lines := Py.readlines content in
         match extract_function_name lines line_num with
         | inl e => inl e
         | inr name =>
             match Py.index lines (line_num - 1) with
             | None => inl IndexError
             | Some l =>
                 inr (mkContext filepath line_num
                        (Py.join
                           (Py.slice lines (Z.max 0 (line_num - 20))
                              (Z.min (Z.of_nat (List.length lines))
                                     (line_num + 20))))
                        name (Py.strip l))
             end
         end
     end).
Proof.
  unfold analyze_code_context, bind. rewrite read_file_run.
  destruct (fs w filepath) as [content|]; [|reflexivity].
  unfold lift.
  destruct (extract_function_name (Py.readlines content) line_num);
    [reflexivity|].
  unfold or_raise.
  destruct (Py.index (Py.readlines content) (line_num - 1)); reflexivity.
Qed.

(** On a readable file and a line number of the file, the extraction
    returns a context. *)
Lemma analyze_code_context_ok (filepath content : string) (line_num : Z)
  (st : State) :
  fs w filepath = Some content ->
  1 <= line_num <= Z.of_nat (List.length (Py.readlines content)) ->
  exists name l,
    extract_function_name (Py.readlines content) line_num = inr name /\
    nth_error (Py.readlines content) (Z.to_nat (line_num - 1)) = Some l /\
    analyze_code_context w filepath line_num st
    = (add_events [EvOpenRead filepath] st,
       inr (mkContext filepath line_num
              (Py.join
                 (Py.slice (Py.readlines content) (Z.max 0 (line_num - 20))
                    (Z.min (Z.of_nat (List.length (Py.readlines content)))
                           (line_num + 20))))
              name (Py.strip l))).
Proof.
  intros Hfs Hn.
  destruct (extract_function_name_total (Py.readlines content) line_num)
    as [name Hname]; [lia|].
  destruct (PyFacts.index_some (Py.readlines content) (line_num - 1))
    as [l Hl]; [lia|].
  exists name, l. split; [assumption|]. split.
  - now rewrite <- PyFacts.index_nth by lia.
  - rewrite analyze_code_context_run, Hfs. cbv zeta.
    now rewrite Hname, Hl.
Qed.

End Extractor.

(** The window the slice of [analyze_code_context] cuts around a line of
    the file: the 19 lines before the target (or all of them when there
    are fewer), the target, and the 20 lines after it (or all of them). *)
Lemma window_shape (lines : list string) (line_num : Z) :
  1 <= line_num <= Z.of_nat (List.length lines) ->
  exists pre before target after post,
    lines = pre ++ before ++ target :: after ++ post /\
    Z.of_nat (List.length pre) + Z.of_nat (List.length before)
    = line_num - 1 /\
    Z.of_nat (List.length before) = Z.min 19 (line_num - 1) /\
    Z.of_nat (List.length after)
    = Z.min 20 (Z.of_nat (List.length lines) - line_num) /\
    Py.slice lines (Z.max 0 (line_num - 20))
             (Z.min (Z.of_nat (List.length lines)) (line_num + 20))
    = before ++ target :: after.
Proof.
  intros H.
  set (n := List.length lines) in *.
  set (a := Z.to_nat (Z.max 0 (line_num - 20))).
  set (t := Z.to_nat (line_num - 1)).
  set (b := Z.to_nat (Z.min (Z.of_nat n) (line_num + 20))).
  assert (Hat : (a <= t)%nat) by lia.
  assert (Htb : (S t <= b)%nat) by lia.
  assert (Hbn : (b <= n)%nat) by lia.
  destruct (nth_error lines t) as [target|] eqn:Ht;
    [|apply nth_error_None in Ht; fold n in Ht; lia].
  exists (firstn a lines), (firstn (t - a) (skipn a lines)), target,
         (firstn (b - S t) (skipn (S t) lines)), (skipn b lines).
  assert (Hcut : firstn (b - a) (skipn a lines)
                 = firstn (t - a) (skipn a lines)
                   ++ target :: firstn (b - S t) (skipn (S t) lines)).
  { rewrite (PyFacts.firstn_skipn_cut lines a t b) by lia.
    f_equal. rewrite (PyFacts.skipn_cons_nth _ _ _ Ht).
    replace (b - t)%nat with (S (b - S t)) by lia. reflexivity. }
  split; [|split; [|split; [|split]]].
  - rewrite <- (firstn_skipn a lines) at 1. f_equal.
    rewrite <- (firstn_skipn (b - a) (skipn a lines)) at 1.
    rewrite Hcut, <- !app_assoc. simpl. do 3 f_equal.
    rewrite skipn_skipn. f_equal. lia.
  - rewrite !length_firstn, length_skipn. fold n. lia.
  - rewrite length_firstn, length_skipn. fold n. lia.
  - rewrite length_firstn, length_skipn. fold n. lia.
  - rewrite PyFacts.slice_inside by (fold n; lia).
    fold n. rewrite <- Hcut. f_equal. lia.
Qed.

(** C9.  When fewer than 20 lines come before the target line of a
    readable file, the extraction succeeds; the start of its slice is 0
    and the end lies between 0 and the number of lines; the window is the
    first lines of the file up to that end, joined as they are: a prefix
    of the file's text, with nothing added. *)
Theorem context_window_starts_at_first_line
  (w : World) (filepath content : string) (line_num : Z) (st : State) :
  fs w filepath = Some content ->
  1 <= line_num <= Z.of_nat (List.length (Py.readlines content)) ->
  line_num - 1 < 20 ->
  let lines := Py.readlines content in
  let start := Z.max 0 (line_num - 20) in
  let end_ := Z.min (Z.of_nat (List.length lines)) (line_num + 20) in
  exists context,
    analyze_code_context w filepath line_num st
    = (add_events [EvOpenRead filepath] st, inr context) /\
    start = 0 /\
    0 <= end_ <= Z.of_nat (List.length lines) /\
    Py.slice lines start end_ = firstn (Z.to_nat end_) lines /\
    c_context context = Py.join (firstn (Z.to_nat end_) lines) /\
    exists rest, content = (c_context context ++ rest)%string.
Proof.
  intros Hfs Hn Hlt lines start end_.
  destruct (analyze_code_context_ok w filepath content line_num st Hfs Hn)
    as (name & l & _ & _ & Hrun).
  assert (Hstart : start = 0) by (unfold start; lia).
  assert (Hslice : Py.slice lines start end_ = firstn (Z.to_nat end_) lines).
  { rewrite PyFacts.slice_inside by (unfold start, end_; lia).
    rewrite Hstart. simpl skipn. now rewrite Z.sub_0_r. }
  eexists. split; [exact Hrun|]. simpl c_context.
  fold lines. fold start. fold end_.
  split; [assumption|]. split; [unfold end_; lia|].
  split; [assumption|]. split; [now rewrite Hslice|].
  exists (Py.join (skipn (Z.to_nat end_) lines)).
  rewrite Hslice, <- PyFacts.join_app, firstn_skipn.
  unfold lines. now rewrite PyFacts.join_readlines.
Qed.

(* ================================================================== *)
(** ** The function-name heuristic *)

(** Over indices from 1 on, the scan does not see the first line. *)
Lemma scan_back_tail (first first' : string) (rest : list string)
  (idxs : list Z) :
  (forall i, In i idxs -> 1 <= i) ->
  scan_back (first :: rest) idxs = scan_back (first' :: rest) idxs.
Proof.
  induction idxs as [|i idxs IH]; intros H; simpl; [reflexivity|].
  rewrite (PyFacts.index_tail first first' rest i) by (apply H; now left).
  destruct (Py.index (first' :: rest) i) as [l|]; [|reflexivity].
  destruct (Patterns.is_declaration l); [reflexivity|].
  apply IH. intros j Hj. apply H. now right.
Qed.

(** A scan over lines none of which is a declaration finds nothing. *)
Lemma scan_back_unknown (lines : list string) (idxs : list Z) :
  (forall i, In i idxs ->
     exists l, Py.index lines i = Some l /\
               Patterns.is_declaration l = false) ->
  scan_back lines idxs = inr "Unknown function".
Proof.
  induction idxs as [|i idxs IH]; intros H; simpl; [reflexivity|].
  destruct (H i) as (l & Hl & Hd); [now left|].
  rewrite Hl, Hd. apply IH. intros j Hj. apply H. now right.
Qed.

(** What the scan returns when it does not raise: the stripped text of
    the first line, in the order of the visit, that is a declaration, or
    ["Unknown function"] when no visited line is one. *)
Lemma scan_back_first_match (lines : list string) (idxs : list Z)
  (name : string) :
  scan_back lines idxs = inr name ->
  (name = "Unknown function" /\
   forall i, In i idxs ->
     exists l, Py.index lines i = Some l /\
               Patterns.is_declaration l = false)
  \/
  (exists visited i rest l,
     idxs = visited ++ i :: rest /\
     Py.index lines i = Some l /\
     Patterns.is_declaration l = true /\
     name = Py.strip l /\
     forall j, In j visited ->
       exists l', Py.index lines j = Some l' /\
                  Patterns.is_declaration l' = false).
Proof.
  induction idxs as [|i idxs IH]; simpl.
  - intros H. left. inversion H. split; [reflexivity|]. intros i [].
  - destruct (Py.index lines i) as [l|] eqn:Hl; [|discriminate].
    destruct (Patterns.is_declaration l) eqn:Hd.
    + intros H. inversion H. right. exists [], i, idxs, l.
      repeat split; try assumption. intros j [].
    + intros H. destruct (IH H) as [[Hn Hall] | Hfound].
      * left. split; [exact Hn|]. intros j [<- | Hj]; [eauto|now apply Hall].
      * right. destruct Hfound as (vis & k & rest & l' & -> & Hk & Hdk & Hn & Hvis).
        exists (i :: vis), k, rest, l'. repeat split; try assumption.
        intros j [<- | Hj]; [eauto|now apply Hvis].
Qed.

(** C10.  The indices that the backward scan of [extract_function_name]
    visits lie strictly above [max(0, line_num - 50)] and at most at
    [line_num - 1], so none is 0; the scan starts at the target line;
    the result does not depend on the first line of the file; and when
    no line after the first is a declaration the result is
    ["Unknown function"], whatever the first line is. *)
Theorem first_line_never_examined
  (first : string) (rest : list string) (line_num : Z) :
  (forall i, In i (scan_indices line_num) ->
     Z.max 0 (line_num - 50) < i <= line_num - 1 /\ i <> 0) /\
  (2 <= line_num -> hd_error (scan_indices line_num) = Some (line_num - 1)) /\
  (forall first',
     extract_function_name (first :: rest) line_num
     = extract_function_name (first' :: rest) line_num) /\
  (line_num <= Z.of_nat (List.length (first :: rest)) ->
   (forall l, In l rest -> Patterns.is_declaration l = false) ->
   extract_function_name (first :: rest) line_num = inr "Unknown function").
Proof.
  split; [|split; [|split]].
  - intros i Hi. apply scan_indices_bounds in Hi. lia.
  - intros H. unfold scan_indices.
    destruct (PyFacts.range_down_head (line_num - 1)
                (Z.max 0 (line_num - 50))) as [tl ->]; [lia|reflexivity].
  - intros first'. apply scan_back_tail.
    intros i Hi. apply scan_indices_bounds in Hi. lia.
  - intros Hlen Hrest. apply scan_back_unknown.
    intros i Hi. apply scan_indices_bounds in Hi.
    simpl List.length in Hlen.
    destruct (nth_error rest (Z.to_nat (i - 1))) as [l|] eqn:E;
      [|apply nth_error_None in E; lia].
    exists l. split; [|apply Hrest; eapply nth_error_In; eassumption].
    rewrite PyFacts.index_nth by (simpl List.length; lia).
    replace (Z.to_nat i) with (S (Z.to_nat (i - 1))) by lia.
    exact E.
Qed.

(* ================================================================== *)
(** ** The scanner *)

Lemma add_events_nil (st : State) : add_events [] st = st.
Proof. destruct st. unfold add_events. simpl. now rewrite app_nil_r. Qed.

Lemma add_events_app (e1 e2 : list event) (st : State) :
  add_events e2 (add_events e1 st) = add_events (e1 ++ e2) st.
Proof. unfold add_events. simpl. now rewrite app_assoc. Qed.

(** The violations of a file's lines: one for each line and each pattern
    found in it. *)
Lemma in_scan_lines (filepath : string) (lines : list string) (i0 : nat)
  (v : Violation) :
  In v (scan_lines filepath i0 lines) <->
  exists k line pt,
    nth_error lines k = Some line /\
    In pt Patterns.patterns /\
    Re.search (fst pt) line = true /\
    v = mkViolation filepath (Z.of_nat (i0 + k) + 1) (snd pt)
                    (Py.strip line).
Proof.
  revert i0. induction lines as [|l lines IH]; intros i0; simpl.
  - split; [tauto|]. intros (k & line & pt & H & _).
    destruct k; discriminate.
  - rewrite in_app_iff, IH. unfold scan_line. rewrite in_flat_map. split.
    + intros [(pt & Hpt & Hv) | (k & line & pt & Hk & Hpt & Hs & Hv)].
      * destruct (Re.search (fst pt) l) eqn:Hs; [|contradiction].
        destruct Hv as [Hv|[]]. exists 0%nat, l, pt.
        rewrite Nat.add_0_r. now repeat split.
      * exists (S k), line, pt.
        replace (i0 + S k)%nat with (S i0 + k)%nat by lia.
        now repeat split.
    + intros (k & line & pt & Hk & Hpt & Hs & Hv). destruct k as [|k].
      * left. simpl in Hk. inversion Hk; subst l. exists pt.
        split; [assumption|]. rewrite Hs. left.
        now rewrite Nat.add_0_r in Hv.
      * right. exists k, line, pt.
        replace (S i0 + k)%nat with (i0 + S k)%nat by lia.
        now repeat split.
Qed.

Section Scanner.

Variable w : World.

(** What the walk over one directory's files does: it only opens files
    for reading; it returns the violations of the qualifying files, all
    of which it could read, or raises at one it could not. *)
Lemma scan_files_run (root : string) (files : list string) :
  exists evs r,
    (forall st, scan_files w root files st = (add_events evs st, r)) /\
    forallb is_open_read evs = true /\
    match r with
    | inr vs =>
        (forall v, In v vs <->
           exists file content,
             In file files /\ qualifies file = true /\
             fs w (Py.path_join root file) = Some content /\
             In v (scan_lines (Py.path_join root file) 0
                              (Py.readlines content))) /\
        (forall file, In file files -> qualifies file = true ->
           fs w (Py.path_join root file) <> None)
    | inl e =>
        exists file,
          In file files /\ qualifies file = true /\
          fs w (Py.path_join root file) = None /\
          e = OSError (Py.path_join root file)
    end.
Proof.
  induction files as [|file files (evs & r & Hrun & Hev & Hr)].
  - exists [], (inr []). split; [|split; [reflexivity|split]].
    + intros st. now rewrite add_events_nil.
    + intros v. split; [intros []|]. now intros (f & c & [] & _).
    + intros f [].
  - simpl scan_files. destruct (qualifies file) eqn:Hq.
    + destruct (fs w (Py.path_join root file)) as [content|] eqn:Hfs.
      * (* the file is read, the walk goes on *)
        destruct r as [e|vs].
        -- exists (EvOpenRead (Py.path_join root file) :: evs), (inl e).
           split; [|split; [exact Hev|]].
           ++ intros st. unfold bind. rewrite read_file_run, Hfs.
              unfold ret. rewrite Hrun, add_events_app. reflexivity.
           ++ destruct Hr as (f & Hf & Hrest). exists f.
              split; [now right|exact Hrest].
        -- exists (EvOpenRead (Py.path_join root file) :: evs),
             (inr (scan_lines (Py.path_join root file) 0
                              (Py.readlines content) ++ vs)).
           split; [|split; [exact Hev|split]].
           ++ intros st. unfold bind. rewrite read_file_run, Hfs.
              unfold ret. rewrite Hrun, add_events_app. reflexivity.
           ++ intros v. rewrite in_app_iff, (proj1 Hr v). split.
              ** intros [Hv | (f & c & Hf & Hrest)].
                 --- exists file, content. now repeat split; try left.
                 --- exists f, c. split; [now right|exact Hrest].
              ** intros (f & c & [<- | Hf] & Hqf & Hc & Hv).
                 --- left. rewrite Hfs in Hc. inversion Hc; subst c.
                     exact Hv.
                 --- right. exists f, c. now repeat split.
           ++ intros f [<- | Hf] Hqf; [congruence|].
              now apply (proj2 Hr).
      * (* the file cannot be read: the walk stops here *)
        exists [EvOpenRead (Py.path_join root file)],
          (inl (OSError (Py.path_join root file))).
        split; [|split; [reflexivity|]].
        -- intros st. unfold bind. now rewrite read_file_run, Hfs.
        -- exists file. split; [now left|]. now repeat split.
    + (* not a source file: skipped without being opened *)
      exists evs, r. split; [|split; [exact Hev|]].
      * intros st. unfold bind, ret. rewrite Hrun.
        destruct r; reflexivity.
      * destruct r as [e|vs].
        -- destruct Hr as (f & Hf & Hrest). exists f.
           split; [now right|exact Hrest].
        -- split.
           ++ intros v. rewrite (proj1 Hr v). split.
              ** intros (f & c & Hf & Hrest). exists f, c.
                 split; [now right|exact Hrest].
              ** intros (f & c & [<- | Hf] & Hqf & Hrest);
                   [congruence|]. exists f, c. now repeat split.
           ++ intros f [<- | Hf] Hqf; [congruence|].
              now apply (proj2 Hr).
Qed.

End Scanner.

Lemma scanned_file_cons_skip dirs root ds files path :
  skipped root = true ->
  scanned_file ((root, ds, files) :: dirs) path <-> scanned_file dirs path.
Proof.
  intros Hs. split.
  - intros (r & d & fl & f & [E | Hin] & Hr & Hrest).
    + inversion E; subst. congruence.
    + exists r, d, fl, f. now split.
  - intros (r & d & fl & f & Hin & Hrest).
    exists r, d, fl, f. split; [now right|exact Hrest].
Qed.

Lemma scanned_file_cons dirs root ds files path :
  skipped root = false ->
  scanned_file ((root, ds, files) :: dirs) path <->
  (exists file, In file files /\ qualifies file = true /\
                path = Py.path_join root file)
  \/ scanned_file dirs path.
Proof.
  intros Hs. split.
  - intros (r & d & fl & f & [E | Hin] & Hr & Hrest).
    + inversion E; subst. left. now exists f.
    + right. exists r, d, fl, f. now split.
  - intros [(f & Hf & Hq & Hp) | (r & d & fl & f & Hin & Hrest)].
    + exists root, ds, files, f. split; [now left|]. now repeat split.
    + exists r, d, fl, f. split; [now right|exact Hrest].
Qed.

Section Walk.

Variable w : World.

(** What the walk does: it only opens files for reading; it returns the
    violations of the files it scans, all of which it could read, or
    raises at one it could not. *)
Lemma scan_dirs_run (dirs : list (string * list string * list string)) :
  exists evs r,
    (forall st, scan_dirs w dirs st = (add_events evs st, r)) /\
    forallb is_open_read evs = true /\
    match r with
    | inr vs =>
        (forall v, In v vs <->
           exists path content,
             scanned_file dirs path /\ fs w path = Some content /\
             In v (scan_lines path 0 (Py.readlines content))) /\
        (forall path, scanned_file dirs path -> fs w path <> None)
    | inl e =>
        exists path,
          scanned_file dirs path /\ fs w path = None /\ e = OSError path
    end.
Proof.
  induction dirs as [|[[root ds] files] dirs (evs & r & Hrun & Hev & Hr)].
  - exists [], (inr []). split; [|split; [reflexivity|split]].
    + intros st. now rewrite add_events_nil.
    + intros v. split; [intros []|].
      now intros (p & c & (r & d & fl & f & [] & _) & _).
    + now intros p (r & d & fl & f & [] & _).
  - simpl scan_dirs. destruct (skipped root) eqn:Hskip.
    + (* a skipped directory: nothing is opened *)
      exists evs, r. split; [|split; [exact Hev|]].
      * intros st. unfold bind, ret. rewrite Hrun. destruct r; reflexivity.
      * destruct r as [e|vs].
        -- destruct Hr as (p & Hp & Hrest). exists p.
           split; [now apply scanned_file_cons_skip|exact Hrest].
        -- split.
           ++ intros v. rewrite (proj1 Hr v).
              split; intros (p & c & Hp & Hrest); exists p, c;
                (split; [now apply (scanned_file_cons_skip dirs root ds files)
                        |exact Hrest]).
           ++ intros p Hp. apply (proj2 Hr).
              now apply (scanned_file_cons_skip dirs root ds files).
    + destruct (scan_files_run w root files) as (evs1 & r1 & Hrun1 & Hev1 & Hr1).
      destruct r1 as [e1|vs1].
      * (* a file of this directory cannot be read *)
        exists evs1, (inl e1). split; [|split; [exact Hev1|]].
        -- intros st. unfold bind. now rewrite Hrun1.
        -- destruct Hr1 as (f & Hf & Hq & Hnone & He).
           exists (Py.path_join root f). split; [|now split].
           apply scanned_file_cons; [assumption|]. left. now exists f.
      * destruct r as [e|vs].
        -- exists (evs1 ++ evs), (inl e). split; [|split].
           ++ intros st. unfold bind. rewrite Hrun1, Hrun, add_events_app.
              reflexivity.
           ++ rewrite forallb_app, Hev1, Hev. reflexivity.
           ++ destruct Hr as (p & Hp & Hrest). exists p.
              split; [|exact Hrest].
              apply scanned_file_cons; [assumption|]. now right.
        -- exists (evs1 ++ evs), (inr (vs1 ++ vs)). split; [|split; [|split]].
           ++ intros st. unfold bind. rewrite Hrun1, Hrun, add_events_app.
              reflexivity.
           ++ rewrite forallb_app, Hev1, Hev. reflexivity.
           ++ intros v. rewrite in_app_iff, (proj1 Hr1 v), (proj1 Hr v).
              split.
              ** intros [(f & c & Hf & Hq & Hc & Hv) | (p & c & Hp & Hrest)].
                 --- exists (Py.path_join root f), c. split; [|now split].
                     apply scanned_file_cons; [assumption|]. left.
                     now exists f.
                 --- exists p, c. split; [|exact Hrest].
                     apply scanned_file_cons; [assumption|]. now right.
              ** intros (p & c & Hp & Hc & Hv).
                 apply scanned_file_cons in Hp; [|assumption].
                 destruct Hp as [(f & Hf & Hq & ->) | Hp].
                 --- left. now exists f, c.
                 --- right. now exists p, c.
           ++ intros p Hp. apply scanned_file_cons in Hp; [|assumption].
              destruct Hp as [(f & Hf & Hq & ->) | Hp].
              ** now apply (proj2 Hr1).
              ** now apply (proj2 Hr).
Qed.

Lemma find_violations_run :
  exists evs,
    (forall st,
       find_violations w "." st = (add_events evs st, scan_result w)) /\
    forallb is_open_read evs = true.
Proof.
  destruct (scan_dirs_run (os_walk w ".")) as (evs & r & Hrun & Hev & _).
  exists evs. split; [|exact Hev]. intros st.
  unfold scan_result, find_violations. now rewrite !Hrun.
Qed.

(** The violations returned are exactly those of the scanned files. *)
Lemma scan_result_ok (vs : list Violation) :
  scan_result w = inr vs ->
  (forall v, In v vs <->
     exists path content,
       scanned_file (os_walk w ".") path /\ fs w path = Some content /\
       In v (scan_lines path 0 (Py.readlines content))) /\
  (forall path, scanned_file (os_walk w ".") path -> fs w path <> None).
Proof.
  destruct (scan_dirs_run (os_walk w ".")) as (evs & r & Hrun & _ & Hr).
  unfold scan_result, find_violations. rewrite Hrun. simpl.
  intros ->. exact Hr.
Qed.

(** The scan raises exactly when a scanned file cannot be read. *)
Lemma scan_result_error :
  (exists path, scanned_file (os_walk w ".") path /\ fs w path = None) <->
  exists path, scanned_file (os_walk w ".") path /\ fs w path = None /\
               scan_result w = inl (OSError path).
Proof.
  destruct (scan_dirs_run (os_walk w ".")) as (evs & r & Hrun & _ & Hr).
  unfold scan_result, find_violations. rewrite Hrun. simpl. split.
  - intros (p & Hp & Hnone). destruct r as [e|vs].
    + destruct Hr as (q & Hq & Hqn & ->). now exists q.
    + exfalso. now apply (proj2 Hr p).
  - intros (p & Hp & Hnone & _). now exists p.
Qed.

(** A violation of the scan names a readable file and one of its lines. *)
Lemma scan_result_valid (vs : list Violation) (v : Violation) :
  scan_result w = inr vs -> In v vs ->
  exists content,
    fs w (v_file v) = Some content /\
    1 <= v_line v <= Z.of_nat (List.length (Py.readlines content)).
Proof.
  intros Hvs Hv. apply (proj1 (scan_result_ok vs Hvs)) in Hv.
  destruct Hv as (p & c & _ & Hc & Hv). apply in_scan_lines in Hv.
  destruct Hv as (k & line & pt & Hk & _ & _ & ->). simpl.
  exists c. split; [assumption|].
  assert (k < List.length (Py.readlines c))%nat
    by (apply nth_error_Some; congruence).
  lia.
Qed.

End Walk.

(* ================================================================== *)
(** ** The fix recorder and the loop of [main] *)

Lemma writes_app (t1 t2 : list event) :
  writes (t1 ++ t2) = writes t1 ++ writes t2.
Proof. apply filter_app. Qed.

Lemma fix_attempts_app (t1 t2 : list event) :
  fix_attempts (t1 ++ t2) = (fix_attempts t1 + fix_attempts t2)%nat.
Proof. unfold fix_attempts. now rewrite filter_app, length_app. Qed.

(** Opening files for reading is neither a write nor a request. *)
Lemma open_reads_no_write (evs : list event) :
  forallb is_open_read evs = true -> writes evs = [].
Proof.
  induction evs as [|e evs IH]; simpl; [reflexivity|].
  intros H. apply andb_prop in H. destruct H as [He Hevs].
  destruct e; try discriminate. simpl. now apply IH.
Qed.

Lemma open_reads_no_request (evs : list event) :
  forallb is_open_read evs = true -> fix_attempts evs = 0%nat.
Proof.
  induction evs as [|e evs IH]; simpl; [reflexivity|].
  intros H. apply andb_prop in H. destruct H as [He Hevs].
  destruct e; try discriminate. unfold fix_attempts in *. simpl.
  now apply IH.
Qed.

Section Recorder.

Variable w : World.

(** [apply_fix], case by case. *)
Lemma apply_fix_run (filepath : string) (line_num : Z) (text : string)
  (st : State) :
  apply_fix w filepath line_num text st
  = match fs w filepath with
    | None => (add_events [EvOpenRead filepath] st, inl (OSError filepath))
    | Some content =>
        match Py.index (Py.split_nl content) (line_num - 1) with
        | None => (add_events [EvOpenRead filepath] st, inl IndexError)
        | Some original =>
            (mkState (fixer_violations st)
                     (fixer_fixes st
                      ++ [mkFix filepath line_num original text])
                     (requests st)
                     (trace st ++ [EvOpenRead filepath]),
             inr true)
        end
    end.
Proof.
  unfold apply_fix, bind. rewrite read_file_run.
  destruct (fs w filepath) as [content|]; [|reflexivity].
  unfold or_raise.
  destruct (Py.index (Py.split_nl content) (line_num - 1)); reflexivity.
Qed.

(** A negative index within the list counts from its end, and an index
    outside the list on either side is an error. *)
Lemma index_from_end {A} (l : list A) (i : Z) :
  - Z.of_nat (List.length l) <= i < 0 ->
  Py.index l i = nth_error l (Z.to_nat (Z.of_nat (List.length l) + i)).
Proof.
  intros H. unfold Py.index.
  destruct (Z.ltb_spec i 0); [|lia].
  destruct (Z.leb_spec 0 (i + Z.of_nat (List.length l))); [|lia].
  destruct (Z.ltb_spec (i + Z.of_nat (List.length l))
              (Z.of_nat (List.length l))); [|lia].
  cbn [andb]. do 2 f_equal. lia.
Qed.

Lemma index_outside {A} (l : list A) (i : Z) :
  i < - Z.of_nat (List.length l) \/ Z.of_nat (List.length l) <= i ->
  Py.index l i = None.
Proof.
  intros H. unfold Py.index.
  destruct (Z.ltb_spec i 0).
  - destruct (Z.leb_spec 0 (i + Z.of_nat (List.length l)));
      [lia|reflexivity].
  - destruct (Z.ltb_spec i (Z.of_nat (List.length l))); [lia|].
    now rewrite andb_false_r.
Qed.

(** C4, as amended.  Whatever its arguments, [apply_fix] opens the file
    for reading and does nothing else to the outside: it writes no file.
    On a file that can be read, whose text splits at newlines into [n]
    pieces: for a line number from 1 to [n] it returns [True] and appends
    to the list of fixes the record of the file, the line number, the
    piece of that number and the generated text; for a line number from
    [1 - n] to 0 it does the same with the piece counted from the end
    (the index [line_num - 1] is negative); for any other line number it
    raises [IndexError].  On a file that cannot be read it raises
    [OSError].  When it raises, the list of fixes is unchanged; when it
    appends, the fixes recorded before are kept. *)
Theorem apply_fix_records_without_writing
  (filepath : string) (line_num : Z) (text : string) (st : State) :
  (trace (fst (apply_fix w filepath line_num text st))
   = trace st ++ [EvOpenRead filepath] /\
   writes (trace (fst (apply_fix w filepath line_num text st)))
   = writes (trace st)) /\
  (forall content,
     fs w filepath = Some content ->
     1 <= line_num <= Z.of_nat (List.length (Py.split_nl content)) ->
     exists original,
       nth_error (Py.split_nl content) (Z.to_nat (line_num - 1))
       = Some original /\
       apply_fix w filepath line_num text st
       = (mkState (fixer_violations st)
                  (fixer_fixes st ++ [mkFix filepath line_num original text])
                  (requests st)
                  (trace st ++ [EvOpenRead filepath]),
          inr true)) /\
  (forall content,
     fs w filepath = Some content ->
     1 - Z.of_nat (List.length (Py.split_nl content)) <= line_num <= 0 ->
     exists original,
       nth_error (Py.split_nl content)
         (Z.to_nat (Z.of_nat (List.length (Py.split_nl content))
                    + (line_num - 1)))
       = Some original /\
       apply_fix w filepath line_num text st
       = (mkState (fixer_violations st)
                  (fixer_fixes st ++ [mkFix filepath line_num original text])
                  (requests st)
                  (trace st ++ [EvOpenRead filepath]),
          inr true)) /\
  (forall content,
     fs w filepath = Some content ->
     line_num < 1 - Z.of_nat (List.length (Py.split_nl content)) \/
     Z.of_nat (List.length (Py.split_nl content)) < line_num ->
     apply_fix w filepath line_num text st
     = (add_events [EvOpenRead filepath] st, inl IndexError)) /\
  (fs w filepath = None ->
   apply_fix w filepath line_num text st
   = (add_events [EvOpenRead filepath] st, inl (OSError filepath))) /\
  (forall e,
     snd (apply_fix w filepath line_num text st) = inl e ->
     fixer_fixes (fst (apply_fix w filepath line_num text st))
     = fixer_fixes st).
Proof.
  rewrite apply_fix_run. split; [|split; [|split; [|split; [|split]]]].
  - destruct (fs w filepath) as [content|];
      [destruct (Py.index (Py.split_nl content) (line_num - 1))|];
      simpl; (split; [reflexivity|]);
      rewrite writes_app; simpl; now rewrite app_nil_r.
  - intros content Hfs Hn. rewrite Hfs.
    destruct (PyFacts.index_some (Py.split_nl content) (line_num - 1))
      as [original Ho]; [lia|].
    exists original. rewrite Ho. split; [|reflexivity].
    now rewrite <- PyFacts.index_nth by lia.
  - intros content Hfs Hn. rewrite Hfs.
    rewrite (index_from_end (Py.split_nl content) (line_num - 1)) by lia.
    destruct (nth_error (Py.split_nl content)
                (Z.to_nat (Z.of_nat (List.length (Py.split_nl content))
                           + (line_num - 1)))) as [original|] eqn:Ho.
    + exists original. now split.
    + apply nth_error_None in Ho. lia.
  - intros content Hfs Hn. rewrite Hfs.
    rewrite (index_outside (Py.split_nl content) (line_num - 1)) by lia.
    reflexivity.
  - intros Hfs. now rewrite Hfs.
  - destruct (fs w filepath) as [content|];
      [destruct (Py.index (Py.split_nl content) (line_num - 1))|];
      simpl; intros e He; try reflexivity; discriminate.
Qed.

Lemma analyze_context_of (filepath : string) (line_num : Z) (st : State) :
  analyze_code_context w filepath line_num st
  = (add_events [EvOpenRead filepath] st, context_of w filepath line_num).
Proof.
  unfold context_of. now rewrite !analyze_code_context_run.
Qed.

(** One turn of the loop, once the context has been extracted. *)
Lemma process_violation_run (total i : nat) (violation : Violation)
  (context : Context) (st : State) :
  context_of w (v_file violation) (v_line violation) = inr context ->
  process_violation w total i violation st
  = let st1 := requested total i violation context st in
    match service w (requests st) (prompt_of context) with
    | inl msg =>
        (add_events [EvPrint (MsgFixError (ServiceError msg))] st1, inr tt)
    | inr text =>
        match fs w (v_file violation) with
        | None =>
            (add_events [EvOpenRead (v_file violation);
                         EvPrint (MsgFixError (OSError (v_file violation)))]
                        st1, inr tt)
        | Some content =>
            match Py.index (Py.split_nl content) (v_line violation - 1) with
            | None =>
                (add_events [EvOpenRead (v_file violation);
                             EvPrint (MsgFixError IndexError)] st1, inr tt)
            | Some original =>
                (mkState (fixer_violations st)
                   (fixer_fixes st
                    ++ [mkFix (v_file violation) (v_line violation)
                              original text])
                   (S (requests st))
                   (trace st1 ++ [EvOpenRead (v_file violation);
                                  EvPrint MsgFixOk]),
                 inr tt)
            end
        end
    end.
Proof.
  intros Hctx.
  unfold process_violation, bind, print, emit, try_except, requested.
  rewrite analyze_context_of, Hctx.
  unfold generate_fix_with_ai. cbv zeta.
  generalize (prompt_of context) as prompt. intros prompt.
  cbn [fixer_violations fixer_fixes requests trace add_events].
  destruct (service w (requests st) prompt) as [msg|text].
  - unfold add_events. cbn. rewrite <- !app_assoc. reflexivity.
  - rewrite apply_fix_run.
    cbn [fixer_violations fixer_fixes requests trace add_events].
    destruct (fs w (v_file violation)) as [content|].
    + destruct (Py.index (Py.split_nl content) (v_line violation - 1));
        unfold add_events; cbn; rewrite <- !app_assoc; reflexivity.
    + unfold add_events. cbn. rewrite <- !app_assoc. reflexivity.
Qed.

End Recorder.

Section Loop.

Variable w : World.

(** C5.  When the context of a violation has been extracted and the
    request sent for it raises an error, the turn of the loop ends
    normally: the error is printed, last of all; the list of fixes is the
    one before the turn (no fix is recorded for this violation); nothing
    is written; and the loop goes on with the violations that follow. *)
Theorem service_error_skips_violation
  (total i : nat) (violation : Violation) (rest : list Violation)
  (context : Context) (msg : string) (st : State) :
  context_of w (v_file violation) (v_line violation) = inr context ->
  service w (requests st) (prompt_of context) = inl msg ->
  let st' :=
    add_events [EvPrint (MsgFixError (ServiceError msg))]
               (requested total i violation context st) in
  process_violation w total i violation st = (st', inr tt) /\
  fixer_fixes st' = fixer_fixes st /\
  writes (trace st') = writes (trace st) /\
  process_violations w total i (violation :: rest) st
  = process_violations w total (S i) rest st'.
Proof.
  intros Hctx Hsvc st'.
  assert (Hrun : process_violation w total i violation st = (st', inr tt)).
  { rewrite (process_violation_run w total i violation context st Hctx).
    cbv zeta. now rewrite Hsvc. }
  split; [exact Hrun|]. split; [reflexivity|]. split.
  - unfold st', requested, add_events. simpl trace.
    rewrite !writes_app. simpl. now rewrite !app_nil_r.
  - simpl process_violations. unfold bind at 1. now rewrite Hrun.
Qed.

(** One turn of the loop on a violation that names a line of a readable
    file: one request is sent, nothing is written, and at most one fix,
    for that file and line, is recorded. *)
Lemma process_violation_effect (total i : nat) (violation : Violation)
  (content : string) (st : State) :
  fs w (v_file violation) = Some content ->
  1 <= v_line violation <= Z.of_nat (List.length (Py.readlines content)) ->
  exists st' new,
    process_violation w total i violation st = (st', inr tt) /\
    fix_attempts (trace st') = S (fix_attempts (trace st)) /\
    writes (trace st') = writes (trace st) /\
    (exists evs, trace st' = trace st ++ evs) /\
    fixer_violations st' = fixer_violations st /\
    fixer_fixes st' = fixer_fixes st ++ new /\
    (List.length new <= 1)%nat /\
    (forall f, In f new ->
       f_file f = v_file violation /\ f_line f = v_line violation).
Proof.
  intros Hfs Hn.
  destruct (analyze_code_context_ok w (v_file violation) content
              (v_line violation) initial Hfs Hn)
    as (name & l & _ & _ & Hrun).
  assert (Hctx : exists context,
             context_of w (v_file violation) (v_line violation)
             = inr context).
  { unfold context_of. rewrite Hrun. simpl. eauto. }
  destruct Hctx as [context Hctx].
  rewrite (process_violation_run w total i violation context st Hctx).
  cbv zeta. rewrite Hfs. unfold requested, add_events.
  generalize (prompt_of context) as prompt. intros prompt.
  destruct (service w (requests st) prompt) as [msg|text];
    [|destruct (Py.index (Py.split_nl content) (v_line violation - 1))
        as [original|]];
    eexists; [exists [] | eexists [_] | exists []];
    (split; [reflexivity|]); cbn [trace fixer_fixes fixer_violations];
    rewrite <- ?app_assoc, ?fix_attempts_app, ?writes_app;
    cbn [app]; unfold fix_attempts; simpl;
    rewrite ?app_nil_r;
    (split; [lia|]); (split; [reflexivity|]); (split; [eauto|]);
    (split; [reflexivity|]); (split; [reflexivity|]);
    (split; [lia|]); intros f Hf; simpl in Hf;
    try contradiction; destruct Hf as [<- | []]; now split.
Qed.

Lemma in_firstn {A} (n : nat) (l : list A) (x : A) :
  In x (firstn n l) -> In x l.
Proof.
  intros H. rewrite <- (firstn_skipn n l). apply in_or_app. now left.
Qed.

(** The loop over violations that each name a line of a readable file:
    it ends normally after one request per violation, writes nothing and
    records at most one fix per violation, each for one of them. *)
Lemma process_violations_run (total : nat) (vs : list Violation) :
  (forall v, In v vs ->
     exists content,
       fs w (v_file v) = Some content /\
       1 <= v_line v <= Z.of_nat (List.length (Py.readlines content))) ->
  forall (i : nat) (st : State),
  exists st' new,
    process_violations w total i vs st = (st', inr tt) /\
    fix_attempts (trace st')
    = (fix_attempts (trace st) + List.length vs)%nat /\
    writes (trace st') = writes (trace st) /\
    (exists evs, trace st' = trace st ++ evs) /\
    fixer_violations st' = fixer_violations st /\
    fixer_fixes st' = fixer_fixes st ++ new /\
    (List.length new <= List.length vs)%nat /\
    (forall f, In f new ->
       exists v, In v vs /\ f_file f = v_file v /\ f_line f = v_line v).
Proof.
  induction vs as [|v vs IH]; intros Hvalid i st.
  - exists st, []. simpl. rewrite app_nil_r, Nat.add_0_r.
    split; [reflexivity|]. split; [reflexivity|]. split; [reflexivity|].
    split; [exists []; now rewrite app_nil_r|].
    split; [reflexivity|]. split; [reflexivity|]. split; [lia|].
    intros f [].
  - destruct (Hvalid v) as (content & Hfs & Hn); [now left|].
    destruct (process_violation_effect total i v content st Hfs Hn)
      as (st1 & new1 & Hrun1 & Hreq1 & Hw1 & (evs1 & Ht1) & Hv1 & Hf1
          & Hlen1 & Hin1).
    destruct (IH (fun v' H => Hvalid v' (or_intror H)) (S i) st1)
      as (st2 & new2 & Hrun2 & Hreq2 & Hw2 & (evs2 & Ht2) & Hv2 & Hf2
          & Hlen2 & Hin2).
    exists st2, (new1 ++ new2). simpl process_violations.
    unfold bind at 1. rewrite Hrun1, Hrun2.
    split; [reflexivity|]. split; [simpl; lia|].
    split; [congruence|]. split.
    { exists (evs1 ++ evs2). rewrite Ht2, Ht1. now rewrite app_assoc. }
    split; [congruence|]. split; [now rewrite Hf2, Hf1, app_assoc|].
    split; [rewrite length_app; simpl; lia|].
    intros f Hf. apply in_app_or in Hf. destruct Hf as [Hf|Hf].
    + exists v. split; [now left|]. now apply Hin1.
    + destruct (Hin2 f Hf) as (v' & Hv' & Hrest). exists v'.
      split; [now right|exact Hrest].
Qed.

End Loop.

(* ================================================================== *)
(** ** The run *)

Section Main.

Variable w : World.

(** [not api_key] holds for an unset variable and for an empty one. *)
Lemma key_missing_iff :
  key_missing (env_api_key w) = true <->
  env_api_key w = None \/ env_api_key w = Some "".
Proof.
  unfold key_missing. destruct (env_api_key w) as [k|].
  - rewrite String.eqb_eq. split.
    + intros ->. now right.
    + intros [H|H]; [discriminate|now inversion H].
  - split; [now left|reflexivity].
Qed.

(** Without a credential, [main] prints its error and exits; it does
    nothing else. *)
Lemma main_missing_key (st : State) :
  key_missing (env_api_key w) = true ->
  main w st = (add_events [EvPrint MsgMissingKey] st, inl (SystemExit 1)).
Proof. intros H. unfold main. now rewrite H. Qed.

(** When the scan raises, [main] raises the same error, having only
    printed its first line and opened files for reading. *)
Lemma main_scan_fails (e : exn) (st : State) :
  key_missing (env_api_key w) = false ->
  scan_result w = inl e ->
  exists evs,
    forallb is_open_read evs = true /\
    main w st
    = (mkState [] [] (requests st)
               (trace st ++ EvPrint MsgScanning :: evs),
       inl e).
Proof.
  intros Hkey He. destruct (find_violations_run w) as (evs & Hrun & Hev).
  exists evs. split; [exact Hev|].
  unfold main. rewrite Hkey.
  unfold bind, new_fixer, print, emit. rewrite Hrun, He.
  unfold add_events. simpl. now rewrite <- app_assoc.
Qed.

(** When the scan returns and the two output files can be written,
    [main] returns: it has sent one request for each of the first
    [max_fixes] violations, and written the report and the description,
    in this order, and nothing else. *)
Lemma main_completes (vs : list Violation) (st : State) :
  key_missing (env_api_key w) = false ->
  scan_result w = inr vs ->
  can_write w "ai_fix_report.json" = true ->
  can_write w "pr_description.md" = true ->
  exists st' fixes pr,
    main w st = (st', inr tt) /\
    fix_attempts (trace st')
    = (fix_attempts (trace st) + Nat.min max_fixes (List.length vs))%nat /\
    writes (trace st')
    = writes (trace st)
      ++ [EvWrite "ai_fix_report.json"
            (DocReport (mkReport (List.length vs) (List.length fixes)
                                 vs fixes));
          EvWrite "pr_description.md" (DocPr pr)] /\
    (exists tail, trace st' = trace st ++ EvPrint MsgScanning :: tail) /\
    fixer_fixes st' = fixes /\
    (List.length fixes <= Nat.min max_fixes (List.length vs))%nat /\
    (forall f, In f fixes ->
       exists v, In v (firstn max_fixes vs) /\
                 f_file f = v_file v /\ f_line f = v_line v).
Proof.
  intros Hkey Hvs Hw1 Hw2.
  destruct (find_violations_run w) as (evs & Hscan & Hev).
  set (st1 := add_events evs
                (add_events [EvPrint MsgScanning]
                   (mkState [] [] (requests st) (trace st)))).
  set (st2 := add_events [EvPrint (MsgFound (List.length vs))] st1).
  destruct (process_violations_run w
              (Nat.min max_fixes (List.length vs)) (firstn max_fixes vs))
    with (i := 0%nat) (st := st2)
    as (st3 & new & Hloop & Hreq & Hwr & (evs3 & Htr) & _ & Hfix & Hlen & Hin).
  { intros v Hv. apply (scan_result_valid w vs v Hvs).
    now apply in_firstn in Hv. }
  simpl in Hfix.
  exists (add_events
            [EvWrite "ai_fix_report.json"
               (DocReport (mkReport (List.length vs) (List.length new)
                                    vs new));
             EvWrite "pr_description.md"
               (DocPr (mkPr (List.length (fixer_violations st3))
                            (List.length new)
                            (List.length (nodup string_dec (map f_file new)))
                            (fixes_by_file new)));
             EvPrint (MsgCompleted (List.length new));
             EvPrint MsgReports] st3),
    new,
    (mkPr (List.length (fixer_violations st3)) (List.length new)
          (List.length (nodup string_dec (map f_file new)))
          (fixes_by_file new)).
  split; [|split; [|split; [|split; [|split; [|split]]]]].
  - unfold main. rewrite Hkey.
    unfold bind at 1. unfold new_fixer.
    unfold bind at 1. unfold print at 1, emit at 1.
    unfold bind at 1. rewrite Hscan, Hvs. fold st1.
    unfold bind at 1. unfold print at 1, emit at 1. fold st2.
    unfold bind at 1. rewrite Hloop.
    unfold bind, get_fixes, write_file, generate_pr_description,
      get_violations, ret, print, emit.
    rewrite Hw1. cbn [fixer_fixes fixer_violations add_events].
    rewrite Hw2. cbn [fixer_fixes fixer_violations add_events].
    unfold add_events. cbn. rewrite <- ?app_assoc, ?Hfix. reflexivity.
  - unfold add_events. cbn [trace]. rewrite fix_attempts_app, Hreq.
    rewrite length_firstn. unfold st2, st1, add_events. cbn [trace].
    rewrite !fix_attempts_app, (open_reads_no_request evs Hev).
    unfold fix_attempts. simpl. lia.
  - unfold add_events. cbn [trace]. rewrite writes_app, Hwr.
    unfold st2, st1, add_events. cbn [trace].
    rewrite !writes_app, (open_reads_no_write evs Hev). simpl.
    now rewrite !app_nil_r.
  - unfold add_events. cbn [trace]. rewrite Htr.
    unfold st2, st1, add_events. cbn [trace].
    rewrite <- !app_assoc. simpl. eauto.
  - unfold add_events. cbn [fixer_fixes]. exact Hfix.
  - rewrite length_firstn in Hlen. exact Hlen.
  - exact Hin.
Qed.

End Main.

(* ================================================================== *)
(** ** Properties of the run *)

(** C6.  When the credential is set and a file that the scan opens
    cannot be read, [find_violations] raises at the first such file and
    returns no violation, of that file or of any other; [main] raises the
    same error, writes no file and sends no request, and the process
    ends with status 1. *)
Theorem unreadable_file_aborts_run
  (w : World) (path : string) (st : State) :
  key_missing (env_api_key w) = false ->
  scanned_file (os_walk w ".") path ->
  fs w path = None ->
  exists culprit,
    scanned_file (os_walk w ".") culprit /\
    fs w culprit = None /\
    scan_result w = inl (OSError culprit) /\
    snd (main w st) = inl (OSError culprit) /\
    writes (trace (fst (main w st))) = writes (trace st) /\
    fix_attempts (trace (fst (main w st))) = fix_attempts (trace st) /\
    exit_code (snd (main w st)) = 1.
Proof.
  intros Hkey Hscanned Hnone.
  destruct (proj1 (scan_result_error w)) as (p & Hp & Hpn & Hres);
    [now exists path|].
  destruct (main_scan_fails w (OSError p) st Hkey Hres)
    as (evs & Hev & Hmain).
  exists p. rewrite Hmain. simpl.
  split; [exact Hp|]. split; [exact Hpn|]. split; [exact Hres|].
  split; [reflexivity|].
  replace (trace st ++ EvPrint MsgScanning :: evs)
    with (trace st ++ [EvPrint MsgScanning] ++ evs) by reflexivity.
  rewrite !writes_app, !fix_attempts_app.
  rewrite (open_reads_no_write evs Hev), (open_reads_no_request evs Hev).
  simpl. unfold fix_attempts. simpl.
  rewrite app_nil_r, !Nat.add_0_r. repeat split.
Qed.

(** C7, as amended.  When [ANTHROPIC_API_KEY] is unset or empty, [main]
    prints its error message and exits with status 1, and that message
    is all it does: no file is opened, no request sent.  When it is set
    to a non-empty value, the first thing [main] does is announce the
    scan, and when the scan returns and the two output files can be
    written, [main] returns and the status is 0. *)
Theorem credential_gate (w : World) :
  (env_api_key w = None \/ env_api_key w = Some "" ->
   main w initial = (add_events [EvPrint MsgMissingKey] initial,
                     inl (SystemExit 1)) /\
   trace (fst (main w initial)) = [EvPrint MsgMissingKey] /\
   exit_code (snd (main w initial)) = 1) /\
  (forall k, env_api_key w = Some k -> k <> "" ->
   (exists tail,
      trace (fst (main w initial)) = EvPrint MsgScanning :: tail) /\
   (forall vs,
      scan_result w = inr vs ->
      can_write w "ai_fix_report.json" = true ->
      can_write w "pr_description.md" = true ->
      snd (main w initial) = inr tt /\
      exit_code (snd (main w initial)) = 0)).
Proof.
  split.
  - intros H. apply key_missing_iff in H.
    rewrite (main_missing_key w initial H). now repeat split.
  - intros k Hk Hne.
    assert (Hkey : key_missing (env_api_key w) = false).
    { rewrite Hk. simpl. now apply String.eqb_neq. }
    split.
    + destruct (scan_result w) as [e|vs] eqn:Hres.
      * destruct (main_scan_fails w e initial Hkey Hres)
          as (evs & _ & Hmain).
        rewrite Hmain. simpl. eauto.
      * unfold main. rewrite Hkey.
        destruct (find_violations_run w) as (evs & Hscan & _).
        unfold bind at 1. unfold new_fixer.
        unfold bind at 1. unfold print at 1, emit at 1.
        unfold bind at 1. rewrite Hscan, Hres.
        unfold bind at 1. unfold print at 1, emit at 1.
        set (st2 := add_events _ (add_events evs _)).
        destruct (process_violations_run w
                    (Nat.min max_fixes (List.length vs))
                    (firstn max_fixes vs))
          with (i := 0%nat) (st := st2)
          as (st3 & new & Hloop & _ & _ & (evs3 & Htr) & _).
        { intros v Hv. apply (scan_result_valid w vs v Hres).
          now apply in_firstn in Hv. }
        unfold bind at 1. rewrite Hloop.
        assert (Hext : forall (m : M unit) st,
                   (forall s, exists evs', trace (fst (m s))
                                           = trace s ++ evs') ->
                   exists evs', trace (fst (m st)) = trace st ++ evs').
        { intros m s H. apply H. }
        assert (Hrest : exists evs4,
                   trace (fst
                     ((fixes <- get_fixes ;;
                       write_file w "ai_fix_report.json"
                         (DocReport (mkReport (List.length vs)
                                       (List.length fixes) vs fixes)) ;;
                       pr_description <- generate_pr_description ;;
                       write_file w "pr_description.md"
                                  (DocPr pr_description) ;;
                       fixes' <- get_fixes ;;
                       print (MsgCompleted (List.length fixes')) ;;
                       print MsgReports) st3))
                   = trace st3 ++ evs4).
        { unfold bind, get_fixes, write_file, generate_pr_description,
            get_violations, ret, raise, print, emit, add_events.
          destruct (can_write w "ai_fix_report.json");
            [destruct (can_write w "pr_description.md")|]; cbn;
            rewrite <- ?app_assoc; eauto.
          exists []. now rewrite app_nil_r. }
        destruct Hrest as [evs4 Hrest]. rewrite Hrest, Htr.
        unfold st2, add_events. cbn [trace]. simpl.
        rewrite <- !app_assoc. simpl. eauto.
    + intros vs Hres Hw1 Hw2.
      destruct (main_completes w vs initial Hkey Hres Hw1 Hw2)
        as (st' & fixes & pr & Hrun & _).
      rewrite Hrun. now split.
Qed.

(* ================================================================== *)
(** ** The scanner on the placeholder idiom *)

Lemma search_skip (r : Re.re) (pre s : string) :
  Re.search r s = true -> Re.search r (pre ++ s) = true.
Proof.
  intros H. induction pre as [|c pre IH]; simpl; [exact H|].
  rewrite IH. apply orb_true_r.
Qed.

Lemma lstrip_indent (indent s : string) :
  all_space indent = true ->
  Py.lstrip (indent ++ s) = Py.lstrip s.
Proof.
  induction indent as [|c indent IH]; simpl; [reflexivity|].
  intros H. apply andb_prop in H. destruct H as [Hc Hi].
  rewrite Hc. now apply IH.
Qed.

(** C8.  In the result of a scan, every scanned file that has a line
    made of [return 0.5f; // placeholder], possibly indented, yields a
    violation of type ["hardcoded_placeholder"] with the number of that
    line; and a scanned file whose whole text is [return 0.5f;] yields no
    violation at all. *)
Theorem placeholder_return_detected (w : World) (vs : list Violation) :
  scan_result w = inr vs ->
  (forall path content i indent eol,
     scanned_file (os_walk w ".") path ->
     fs w path = Some content ->
     all_space indent = true ->
     eol = "" \/ eol = Py.nl ->
     nth_error (Py.readlines content) i
     = Some (indent ++ "return 0.5f; // placeholder" ++ eol)%string ->
     In (mkViolation path (Z.of_nat i + 1) "hardcoded_placeholder"
                     "return 0.5f; // placeholder") vs) /\
  (forall path eol,
     scanned_file (os_walk w ".") path ->
     eol = "" \/ eol = Py.nl ->
     fs w path = Some ("return 0.5f;" ++ eol)%string ->
     forall v, In v vs -> v_file v <> path).
Proof.
  intros Hvs. destruct (scan_result_ok w vs Hvs) as [Hin _]. split.
  - intros path content i indent eol Hp Hc Hind Heol Hline.
    apply Hin. exists path, content. split; [exact Hp|].
    split; [exact Hc|]. apply in_scan_lines.
    exists i, (indent ++ "return 0.5f; // placeholder" ++ eol)%string,
      (Patterns.hardcoded_placeholder, "hardcoded_placeholder").
    split; [exact Hline|]. split; [now left|]. split.
    + apply search_skip. destruct Heol as [-> | ->]; now vm_compute.
    + simpl. unfold Py.strip. rewrite lstrip_indent by assumption.
      destruct Heol as [-> | ->]; now vm_compute.
  - intros path eol Hp Heol Hc v Hv Hfile.
    apply Hin in Hv. destruct Hv as (p & c & _ & Hpc & Hv).
    apply in_scan_lines in Hv.
    destruct Hv as (k & line & pt & Hk & Hpt & Hs & ->).
    simpl in Hfile. subst p. rewrite Hc in Hpc. inversion Hpc; subst c.
    assert (Hnone : scan_lines path 0
                      (Py.readlines ("return 0.5f;" ++ eol)) = []).
    { destruct Heol as [-> | ->]; now vm_compute. }
    assert (Hmem : In (mkViolation path (Z.of_nat (0 + k) + 1) (snd pt)
                                   (Py.strip line))
                      (scan_lines path 0
                         (Py.readlines ("return 0.5f;" ++ eol)))).
    { apply in_scan_lines. now exists k, line, pt. }
    rewrite Hnone in Hmem. exact Hmem.
Qed.

Import Examples.

(** C1.  On a file of 25 lines and the target line 21, which has 20
    lines before it, the context returned starts at line 2: it holds the
    19 lines before the target, the target and the 4 lines after it.
    The window of 20 lines before and 20 after, clipped to the file, is
    the whole file, from line 1 on. *)
Theorem context_window_misses_twentieth_line_before :
  exists context,
    analyze_code_context w_numbered "./src/numbered.h" 21 initial
    = (add_events [EvOpenRead "./src/numbered.h"] initial, inr context) /\
    c_context context = text_of (skipn 1 numbered) /\
    Py.join (window_as_specified (Py.readlines (text_of numbered)) 21)
    = text_of numbered /\
    c_context context
    <> Py.join (window_as_specified (Py.readlines (text_of numbered)) 21).
Proof.
  eexists. split; [vm_compute; reflexivity|].
  split; [vm_compute; reflexivity|].
  split; [vm_compute; reflexivity|].
  vm_compute. discriminate.
Qed.

(** C2.  In a file whose first line declares [Analyzer::energy] and
    whose second line is the violation, the first line matches the
    class-method pattern and lies one line above the target, and
    [extract_function_name] for line 2 returns ["Unknown function"]. *)
Theorem declaration_on_first_line_not_found :
  let lines := Py.readlines analyzer_cpp in
  nth_error lines 0
  = Some ("float Analyzer::energy(Track t) {" ++ Py.nl)%string /\
  Re.match_ Patterns.class_method
            ("float Analyzer::energy(Track t) {" ++ Py.nl) = true /\
  scan_indices 2 = [1] /\
  extract_function_name lines 2 = inr "Unknown function".
Proof. vm_compute. repeat split. Qed.

(** C4, the claim as stated fails: [analyzer.cpp] splits into four
    pieces, and [apply_fix] for its line 5 raises [IndexError] and
    leaves the list of fixes empty. *)
Lemma apply_fix_line_out_of_range :
  List.length (Py.split_nl analyzer_cpp) = 4%nat /\
  apply_fix w_analyzer "./src/analyzer.cpp" 5 "return rms(t);" initial
  = (add_events [EvOpenRead "./src/analyzer.cpp"] initial, inl IndexError) /\
  fixer_fixes
    (fst (apply_fix w_analyzer "./src/analyzer.cpp" 5 "return rms(t);"
                    initial))
  = [].
Proof. vm_compute. repeat split. Qed.

Lemma apply_fix_records_without_writing_witness :
  fs w_analyzer "./src/analyzer.cpp" = Some analyzer_cpp /\
  List.length (Py.split_nl analyzer_cpp) = 4%nat /\
  apply_fix w_analyzer "./src/analyzer.cpp" 2 "return rms(t);" initial
  = (mkState [] [mkFix "./src/analyzer.cpp" 2
                       "  return 0.5f; // placeholder" "return rms(t);"]
             0 [EvOpenRead "./src/analyzer.cpp"],
     inr true) /\
  apply_fix w_analyzer "./src/analyzer.cpp" 0 "return rms(t);" initial
  = (mkState [] [mkFix "./src/analyzer.cpp" 0 "" "return rms(t);"]
             0 [EvOpenRead "./src/analyzer.cpp"],
     inr true) /\
  apply_fix w_analyzer "./src/analyzer.cpp" (-4) "return rms(t);" initial
  = (add_events [EvOpenRead "./src/analyzer.cpp"] initial, inl IndexError) /\
  apply_fix w_unreadable "./src/locked.cpp" 1 "return rms(t);" initial
  = (add_events [EvOpenRead "./src/locked.cpp"] initial,
     inl (OSError "./src/locked.cpp")) /\
  writes (trace (fst (apply_fix w_analyzer "./src/analyzer.cpp" 2
                                "return rms(t);" initial)))
  = [].
Proof.
  destruct (apply_fix_records_without_writing w_analyzer
              "./src/analyzer.cpp" 2 "return rms(t);" initial)
    as ((_ & Hw) & Hok & _).
  destruct (apply_fix_records_without_writing w_analyzer
              "./src/analyzer.cpp" 0 "return rms(t);" initial)
    as (_ & _ & Hend & _).
  destruct (apply_fix_records_without_writing w_analyzer
              "./src/analyzer.cpp" (-4) "return rms(t);" initial)
    as (_ & _ & _ & Hout & _).
  destruct (apply_fix_records_without_writing w_unreadable
              "./src/locked.cpp" 1 "return rms(t);" initial)
    as (_ & _ & _ & _ & Hos & _).
  assert (Hfs : fs w_analyzer "./src/analyzer.cpp" = Some analyzer_cpp)
    by reflexivity.
  assert (Hlen : List.length (Py.split_nl analyzer_cpp) = 4%nat)
    by (vm_compute; reflexivity).
  destruct (Hok analyzer_cpp Hfs) as (o2 & Ho2 & Hrun2);
    [rewrite Hlen; lia|].
  destruct (Hend analyzer_cpp Hfs) as (o0 & Ho0 & Hrun0);
    [rewrite Hlen; lia|].
  split; [exact Hfs|]. split; [exact Hlen|].
  split; [rewrite Hrun2; vm_compute in Ho2; inversion Ho2; reflexivity|].
  split; [rewrite Hrun0; vm_compute in Ho0; inversion Ho0; reflexivity|].
  split; [apply (Hout analyzer_cpp Hfs); rewrite Hlen; lia|].
  split; [apply Hos; reflexivity|exact Hw].
Defined.

(** C7, the claim as stated fails: with the variable present in the
    environment and empty, [main] prints its error and exits with
    status 1; it does not scan. *)
Lemma empty_credential_exits :
  env_api_key w_empty_key = Some "" /\
  main w_empty_key initial
  = (mkState [] [] 0 [EvPrint MsgMissingKey], inl (SystemExit 1)) /\
  exit_code (snd (main w_empty_key initial)) = 1.
Proof. vm_compute. repeat split. Qed.

Lemma credential_gate_witness :
  (env_api_key w_no_key = None /\
   trace (fst (main w_no_key initial)) = [EvPrint MsgMissingKey] /\
   exit_code (snd (main w_no_key initial)) = 1) /\
  (env_api_key w_analyzer = Some "sk-test" /\
   scan_result w_analyzer = inr [analyzer_violation] /\
   snd (main w_analyzer initial) = inr tt /\
   exit_code (snd (main w_analyzer initial)) = 0).
Proof.
  split.
  - destruct (proj1 (credential_gate w_no_key)) as (_ & Ht & He);
      [left; reflexivity|].
    split; [reflexivity|]. split; [exact Ht|exact He].
  - destruct (proj2 (credential_gate w_analyzer) "sk-test") as (_ & Hrun);
      [reflexivity|discriminate|].
    split; [reflexivity|]. split; [vm_compute; reflexivity|].
    apply (Hrun [analyzer_violation]); vm_compute; reflexivity.
Defined.

Lemma service_error_skips_violation_witness :
  context_of w_refused "./src/analyzer.cpp" 2 = inr analyzer_context /\
  service w_refused 0 (prompt_of analyzer_context) = inl "overloaded" /\
  exists st',
    process_violations w_refused 1 0 [analyzer_violation] initial
    = (st', inr tt) /\
    fixer_fixes st' = [] /\
    writes (trace st') = [].
Proof.
  assert (Hctx : context_of w_refused (v_file analyzer_violation)
                            (v_line analyzer_violation)
                 = inr analyzer_context) by (vm_compute; reflexivity).
  assert (Hsvc : service w_refused (requests initial)
                         (prompt_of analyzer_context) = inl "overloaded")
    by reflexivity.
  destruct (service_error_skips_violation w_refused 1 0 analyzer_violation
              [] analyzer_context "overloaded" initial Hctx Hsvc)
    as (_ & Hfix & Hwr & Hnext).
  split; [exact Hctx|]. split; [exact Hsvc|].
  eexists. split; [rewrite Hnext; reflexivity|].
  split; [exact Hfix|exact Hwr].
Defined.

Lemma unreadable_file_aborts_run_witness :
  key_missing (env_api_key w_unreadable) = false /\
  scanned_file (os_walk w_unreadable ".") "./src/locked.cpp" /\
  fs w_unreadable "./src/locked.cpp" = None /\
  scan_result w_unreadable = inl (OSError "./src/locked.cpp") /\
  snd (main w_unreadable initial) = inl (OSError "./src/locked.cpp") /\
  writes (trace (fst (main w_unreadable initial))) = [].
Proof.
  assert (Hs : scanned_file (os_walk w_unreadable ".") "./src/locked.cpp").
  { exists "./src", [], ["analyzer.cpp"; "locked.cpp"], "locked.cpp".
    split; [right; left; reflexivity|]. split; [reflexivity|].
    split; [right; left; reflexivity|]. split; reflexivity. }
  destruct (unreadable_file_aborts_run w_unreadable "./src/locked.cpp"
              initial eq_refl Hs eq_refl)
    as (culprit & _ & _ & Hres & Hmain & Hwr & _).
  assert (Hc : culprit = "./src/locked.cpp").
  { assert (H : scan_result w_unreadable = inl (OSError "./src/locked.cpp"))
      by (vm_compute; reflexivity).
    rewrite H in Hres. now inversion Hres. }
  subst culprit.
  split; [reflexivity|]. split; [exact Hs|]. split; [reflexivity|].
  split; [exact Hres|]. split; [exact Hmain|exact Hwr].
Defined.

Lemma placeholder_return_detected_witness :
  scan_result w_bare = inr [analyzer_violation] /\
  In analyzer_violation [analyzer_violation] /\
  (forall v, In v [analyzer_violation] -> v_file v <> "./src/bare.cpp").
Proof.
  assert (Hvs : scan_result w_bare = inr [analyzer_violation])
    by (vm_compute; reflexivity).
  destruct (placeholder_return_detected w_bare [analyzer_violation] Hvs)
    as (Hfound & Hnone).
  split; [exact Hvs|]. split.
  - apply (Hfound "./src/analyzer.cpp" analyzer_cpp 1%nat "  " Py.nl).
    + exists "./src", [], ["analyzer.cpp"; "bare.cpp"], "analyzer.cpp".
      split; [right; left; reflexivity|]. split; [reflexivity|].
      split; [left; reflexivity|]. split; reflexivity.
    + reflexivity.
    + reflexivity.
    + right. reflexivity.
    + vm_compute. reflexivity.
  - apply (Hnone "./src/bare.cpp" "").
    + exists "./src", [], ["analyzer.cpp"; "bare.cpp"], "bare.cpp".
      split; [right; left; reflexivity|]. split; [reflexivity|].
      split; [right; left; reflexivity|]. split; reflexivity.
    + left. reflexivity.
    + reflexivity.
Defined.

Lemma context_window_starts_at_first_line_witness :
  fs w_analyzer "./src/analyzer.cpp" = Some analyzer_cpp /\
  1 <= 2 <= Z.of_nat (List.length (Py.readlines analyzer_cpp)) /\
  2 - 1 < 20 /\
  exists context,
    analyze_code_context w_analyzer "./src/analyzer.cpp" 2 initial
    = (add_events [EvOpenRead "./src/analyzer.cpp"] initial, inr context) /\
    c_context context
    = Py.join (firstn 3 (Py.readlines analyzer_cpp)).
Proof.
  assert (Hn : 1 <= 2 <= Z.of_nat (List.length (Py.readlines analyzer_cpp)))
    by (vm_compute; split; discriminate).
  assert (Hlt : 2 - 1 < 20) by reflexivity.
  destruct (context_window_starts_at_first_line w_analyzer
              "./src/analyzer.cpp" analyzer_cpp 2 initial eq_refl Hn Hlt)
    as (context & Hrun & _ & _ & _ & Hc & _).
  split; [reflexivity|]. split; [exact Hn|]. split; [exact Hlt|].
  exists context. split; [exact Hrun|exact Hc].
Defined.

Lemma first_line_never_examined_witness :
  Patterns.is_declaration ("float Analyzer::energy(Track t) {" ++ Py.nl)
  = true /\
  2 <= Z.of_nat (List.length (Py.readlines analyzer_cpp)) /\
  hd_error (scan_indices 2) = Some 1 /\
  extract_function_name (Py.readlines analyzer_cpp) 2
  = inr "Unknown function".
Proof.
  destruct (first_line_never_examined
              ("float Analyzer::energy(Track t) {" ++ Py.nl)
              [("  return 0.5f; // placeholder" ++ Py.nl)%string;
               ("}" ++ Py.nl)%string] 2)
    as (_ & Hhd & _ & Hunknown).
  split; [vm_compute; reflexivity|].
  split; [vm_compute; discriminate|].
  split; [apply Hhd; vm_compute; discriminate|].
  apply Hunknown.
  - vm_compute. discriminate.
  - intros l [<- | [<- | []]]; vm_compute; reflexivity.
Defined.

(* ================================================================== *)
(** ** The scanner, file by file *)

Section ScanOrder.

Variable w : World.

Lemma read_all_app (p1 p2 : list string) :
  read_all w (p1 ++ p2)
  = match read_all w p1 with
    | (o1, inl e) => (o1, inl e)
    | (o1, inr v1) =>
        let '(o2, r2) := read_all w p2 in
        (o1 ++ o2,
         match r2 with
         | inl e => inl e
         | inr v2 => inr (v1 ++ v2)
         end)
    end.
Proof.
  induction p1 as [|p p1 IH]; simpl.
  - destruct (read_all w p2) as [o2 [e|v2]]; reflexivity.
  - destruct (fs w p) as [content|]; [|reflexivity].
    rewrite IH. destruct (read_all w p1) as [o1 [e|v1]]; [reflexivity|].
    destruct (read_all w p2) as [o2 [e|v2]]; [reflexivity|].
    now rewrite app_assoc.
Qed.

Lemma read_all_ok (paths : list string) :
  (forall p, In p paths -> fs w p <> None) ->
  read_all w paths = (paths, inr (flat_map (violations_of w) paths)).
Proof.
  induction paths as [|p paths IH]; intros H; simpl; [reflexivity|].
  unfold violations_of at 1.
  destruct (fs w p) as [content|] eqn:Hp;
    [|exfalso; apply (H p); [now left|assumption]].
  rewrite IH; [reflexivity|]. intros q Hq. apply H. now right.
Qed.

Lemma read_all_fail (before after : list string) (p : string) :
  (forall q, In q before -> fs w q <> None) ->
  fs w p = None ->
  read_all w (before ++ p :: after) = (before ++ [p], inl (OSError p)).
Proof.
  intros Hb Hp. induction before as [|q before IH]; simpl.
  - now rewrite Hp.
  - destruct (fs w q) as [content|] eqn:Hq;
      [|exfalso; apply (Hb q); [now left|assumption]].
    rewrite IH; [reflexivity|]. intros r Hr. apply Hb. now right.
Qed.

Lemma read_all_opened (paths : list string) (p : string) :
  In p (fst (read_all w paths)) -> In p paths.
Proof.
  induction paths as [|q paths IH]; simpl; [tauto|].
  destruct (fs w q) as [content|].
  - destruct (read_all w paths) as [opened r]. simpl in *.
    intros [H|H]; [now left|right; now apply IH].
  - simpl. intros [H|[]]. now left.
Qed.

(** The walk over the files of one directory reads its source files in
    order. *)
Lemma scan_files_read_all (root : string) (files : list string)
  (st : State) :
  scan_files w root files st
  = (add_events
       (map EvOpenRead
          (fst (read_all w (map (Py.path_join root)
                                (filter qualifies files))))) st,
     snd (read_all w (map (Py.path_join root) (filter qualifies files)))).
Proof.
  revert st. induction files as [|file files IH]; intros st; simpl.
  - now rewrite add_events_nil.
  - destruct (qualifies file); simpl.
    + unfold bind at 1. unfold bind at 1. rewrite read_file_run.
      destruct (fs w (Py.path_join root file)) as [content|];
        [|reflexivity].
      unfold ret at 1. unfold bind at 1. rewrite IH.
      destruct (read_all w (map (Py.path_join root)
                                (filter qualifies files)))
        as [opened [e|vs]]; simpl; now rewrite add_events_app.
    + unfold bind at 1. unfold ret at 1. unfold bind at 1. rewrite IH.
      destruct (read_all w (map (Py.path_join root)
                                (filter qualifies files)))
        as [opened [e|vs]]; reflexivity.
Qed.

(** The whole walk reads the scanned paths in order. *)
Lemma scan_dirs_read_all (dirs : list (string * list string * list string))
  (st : State) :
  scan_dirs w dirs st
  = (add_events (map EvOpenRead (fst (read_all w (scanned_paths dirs)))) st,
     snd (read_all w (scanned_paths dirs))).
Proof.
  revert st.
  induction dirs as [|[[root ds] files] dirs IH]; intros st.
  - simpl. now rewrite add_events_nil.
  - change (scanned_paths ((root, ds, files) :: dirs))
      with ((if skipped root then []
             else map (Py.path_join root) (filter qualifies files))
            ++ scanned_paths dirs).
    simpl scan_dirs. destruct (skipped root).
    + unfold bind at 1. unfold ret at 1. unfold bind at 1. rewrite IH.
      simpl app.
      destruct (read_all w (scanned_paths dirs)) as [opened [e|vs]];
        reflexivity.
    + rewrite read_all_app. unfold bind at 1.
      rewrite scan_files_read_all.
      destruct (read_all w (map (Py.path_join root)
                                (filter qualifies files)))
        as [o1 [e|v1]]; [reflexivity|].
      simpl fst. simpl snd. unfold bind at 1. rewrite IH.
      destruct (read_all w (scanned_paths dirs)) as [o2 [e|v2]];
        simpl; now rewrite add_events_app, map_app.
Qed.

Lemma in_scanned_paths (dirs : list (string * list string * list string))
  (p : string) :
  In p (scanned_paths dirs) <-> scanned_file dirs p.
Proof.
  unfold scanned_paths, scanned_file. rewrite in_flat_map. split.
  - intros ([[root ds] files] & Hd & Hp).
    destruct (skipped root) eqn:Hs; [contradiction|].
    apply in_map_iff in Hp. destruct Hp as (file & <- & Hf).
    apply filter_In in Hf. destruct Hf as [Hf Hq].
    exists root, ds, files, file. now repeat split.
  - intros (root & ds & files & file & Hd & Hs & Hf & Hq & ->).
    exists (root, ds, files). split; [exact Hd|]. rewrite Hs.
    apply in_map. apply filter_In. now split.
Qed.

(** X1.  When every source file of the tree can be read,
    [find_violations] opens each of them once, in the order of the walk
    and of the listing of each directory, opens nothing else, and returns
    the violations of the first file, then those of the second, and so
    on. *)
Theorem scan_reads_every_source_file_in_order (st : State) :
  (forall p, In p (scanned_paths (os_walk w ".")) -> fs w p <> None) ->
  find_violations w "." st
  = (add_events (map EvOpenRead (scanned_paths (os_walk w "."))) st,
     inr (flat_map (violations_of w) (scanned_paths (os_walk w ".")))).
Proof.
  intros H. unfold find_violations.
  now rewrite scan_dirs_read_all, read_all_ok.
Qed.

(** X2.  When a source file cannot be read and those before it in the
    order of the walk can, [find_violations] opens the files up to that
    one, raises [OSError] for it and opens none of the files after it:
    the violations already gathered are lost. *)
Theorem scan_stops_at_first_unreadable_file
  (before after : list string) (p : string) (st : State) :
  scanned_paths (os_walk w ".") = before ++ p :: after ->
  (forall q, In q before -> fs w q <> None) ->
  fs w p = None ->
  find_violations w "." st
  = (add_events (map EvOpenRead (before ++ [p])) st, inl (OSError p)).
Proof.
  intros Hpaths Hb Hp. unfold find_violations.
  now rewrite scan_dirs_read_all, Hpaths, read_all_fail.
Qed.

(** X3.  Whatever the tree, a file that [find_violations] opens is a
    file with one of the four source extensions, listed by the walk
    under a directory whose path contains none of [node_modules],
    [.git] and [build]. *)
Theorem scan_opens_only_source_files (st : State) (path : string) :
  In (EvOpenRead path) (trace (fst (find_violations w "." st))) ->
  In (EvOpenRead path) (trace st) \/
  exists root ds files file,
    In (root, ds, files) (os_walk w ".") /\
    Py.contains "node_modules" root = false /\
    Py.contains ".git" root = false /\
    Py.contains "build" root = false /\
    In file files /\
    (Py.endswith file ".cpp" = true \/ Py.endswith file ".h" = true \/
     Py.endswith file ".js" = true \/ Py.endswith file ".ts" = true) /\
    path = Py.path_join root file.
Proof.
  unfold find_violations. rewrite scan_dirs_read_all. simpl.
  rewrite in_app_iff. intros [H|H]; [now left|right].
  apply in_map_iff in H. destruct H as (p & E & Hp). inversion E; subst p.
  apply read_all_opened, in_scanned_paths in Hp.
  destruct Hp as (root & ds & files & file & Hd & Hs & Hf & Hq & ->).
  exists root, ds, files, file. unfold skipped in Hs.
  apply orb_false_iff in Hs. destruct Hs as [Hs Hb].
  apply orb_false_iff in Hs. destruct Hs as [Hn Hg].
  unfold qualifies in Hq. rewrite !orb_true_iff in Hq.
  repeat split; try assumption. tauto.
Qed.

End ScanOrder.

(* ================================================================== *)
(** ** Order of the violations of a file *)

Lemma strongly_sorted_app {A} (R : A -> A -> Prop) (l1 l2 : list A) :
  StronglySorted R l1 -> StronglySorted R l2 ->
  (forall a b, In a l1 -> In b l2 -> R a b) ->
  StronglySorted R (l1 ++ l2).
Proof.
  intros H1 H2 H. induction H1 as [|a l1 Hs IH Ha]; simpl; [exact H2|].
  constructor.
  - apply IH. intros x y Hx Hy. apply H; [now right|exact Hy].
  - apply Forall_app. split; [exact Ha|].
    apply Forall_forall. intros y Hy. apply H; [now left|exact Hy].
Qed.

Lemma scan_line_lines (filepath : string) (i : nat) (line : string)
  (v : Violation) :
  In v (scan_line filepath i line) ->
  v_file v = filepath /\ v_line v = Z.of_nat i + 1.
Proof.
  unfold scan_line. rewrite in_flat_map. intros (pt & _ & Hv).
  destruct (Re.search (fst pt) line); [|contradiction].
  destruct Hv as [<- | []]. now split.
Qed.

Lemma scan_lines_sorted (filepath : string) (lines : list string) (i : nat) :
  StronglySorted (fun a b => v_line a <= v_line b)
                 (scan_lines filepath i lines) /\
  Forall (fun v => v_file v = filepath /\
                   Z.of_nat i + 1 <= v_line v
                   <= Z.of_nat i + Z.of_nat (List.length lines))
         (scan_lines filepath i lines).
Proof.
  revert i. induction lines as [|l lines IH]; intros i; simpl.
  - split; constructor.
  - destruct (IH (S i)) as [Hs Hb]. rewrite Forall_forall in Hb. split.
    + apply strongly_sorted_app; [|exact Hs|].
      * assert (Hall : Forall (fun v => v_line v = Z.of_nat i + 1)
                              (scan_line filepath i l)).
        { apply Forall_forall. intros v Hv.
          now apply scan_line_lines in Hv. }
        induction Hall as [|a vs Ha Hvs IHvs]; constructor; [exact IHvs|].
        apply Forall_forall. intros b Hb'.
        rewrite Forall_forall in Hvs. rewrite Ha, (Hvs b Hb'). lia.
      * intros a b Ha Hb'. apply scan_line_lines in Ha.
        apply Hb in Hb'. destruct Ha as [_ Ha]. destruct Hb' as [_ Hb'].
        lia.
    + apply Forall_app. split; apply Forall_forall; intros v Hv.
      * apply scan_line_lines in Hv. destruct Hv as [Hf Hv].
        split; [exact Hf|]. simpl List.length. lia.
      * apply Hb in Hv. destruct Hv as [Hf Hv].
        split; [exact Hf|]. simpl List.length. lia.
Qed.

(** X4.  The violations of a file all name that file and a line of it,
    between 1 and the number of its lines, and come in the order of the
    lines: never a violation of a later line before one of an earlier
    line. *)
Theorem file_violations_in_line_order (w : World) (path content : string) :
  fs w path = Some content ->
  StronglySorted (fun a b => v_line a <= v_line b) (violations_of w path) /\
  Forall (fun v => v_file v = path /\
                   1 <= v_line v
                   <= Z.of_nat (List.length (Py.readlines content)))
         (violations_of w path).
Proof.
  intros Hfs. unfold violations_of. rewrite Hfs.
  exact (scan_lines_sorted path (Py.readlines content) 0).
Qed.

(* ================================================================== *)
(** ** The function-name heuristic, in full *)

Lemma range_down_cons (start stop : Z) :
  stop < start ->
  Py.range_down start stop = start :: Py.range_down (start - 1) stop.
Proof.
  intros H. unfold Py.range_down.
  replace (Z.to_nat (start - stop)) with (S (Z.to_nat (start - 1 - stop)))
    by lia.
  simpl seq. simpl map. rewrite Z.sub_0_r. f_equal.
  rewrite <- seq_shift, map_map. apply map_ext. intros k. lia.
Qed.

(** In a backward range, what comes before an element is what lies
    above it. *)
Lemma range_down_above (stop i : Z) (visited rest : list Z) (start : Z) :
  Py.range_down start stop = visited ++ i :: rest ->
  forall j, i < j <= start -> In j visited.
Proof.
  revert start. induction visited as [|v visited IH]; intros start E j Hj.
  - simpl in E. destruct (Z.le_gt_cases start stop) as [Hle|Hgt].
    + unfold Py.range_down in E.
      replace (Z.to_nat (start - stop)) with 0%nat in E by lia.
      discriminate.
    + rewrite range_down_cons in E by lia. inversion E. lia.
  - destruct (Z.le_gt_cases start stop) as [Hle|Hgt].
    + unfold Py.range_down in E.
      replace (Z.to_nat (start - stop)) with 0%nat in E by lia.
      discriminate.
    + rewrite range_down_cons in E by lia. inversion E; subst v.
      destruct (Z.eq_dec j start) as [->|Hne]; [now left|].
      right. apply (IH (start - 1)); [assumption|lia].
Qed.

(** X5.  For a line number not beyond the file, [extract_function_name]
    does not raise.  Among the lines from the target line up to 48 lines
    above it, the first line of the file left out, it returns the
    stripped text of the declaration closest to the target (the target
    itself if it is one), and ["Unknown function"] when none of them is
    a declaration. *)
Theorem extract_function_name_closest (lines : list string) (line_num : Z) :
  line_num <= Z.of_nat (List.length lines) ->
  (exists i l,
     Z.max 0 (line_num - 50) < i <= line_num - 1 /\
     Py.index lines i = Some l /\
     Patterns.is_declaration l = true /\
     (forall j l', i < j <= line_num - 1 ->
        Py.index lines j = Some l' ->
        Patterns.is_declaration l' = false) /\
     extract_function_name lines line_num = inr (Py.strip l))
  \/
  ((forall i l,
      Z.max 0 (line_num - 50) < i <= line_num - 1 ->
      Py.index lines i = Some l ->
      Patterns.is_declaration l = false) /\
   extract_function_name lines line_num = inr "Unknown function").
Proof.
  intros Hlen.
  destruct (extract_function_name_total lines line_num Hlen) as [name Hn].
  unfold extract_function_name in *.
  destruct (scan_back_first_match lines (scan_indices line_num) name Hn)
    as [[-> Hall] | (visited & i & rest & l & E & Hi & Hd & -> & Hvis)].
  - right. split; [|exact Hn]. intros i l Hi Hl.
    destruct (Hall i) as (l' & Hl' & Hd); [now apply scan_indices_bounds|].
    congruence.
  - left. exists i, l. split.
    + apply scan_indices_bounds. rewrite E. apply in_or_app.
      right. now left.
    + split; [exact Hi|]. split; [exact Hd|]. split; [|exact Hn].
      intros j l' Hj Hl'.
      destruct (Hvis j) as (l'' & Hl'' & Hd'').
      * exact (range_down_above _ i visited rest _ E j Hj).
      * congruence.
Qed.

(* ================================================================== *)
(** ** The context extractor, in full *)

(** X6.  For a line of a readable file, [analyze_code_context] returns a
    context whose window is made of the lines of the file as they are:
    the 19 lines before the target (all of them when there are fewer),
    the target and the 20 lines after it (all of them when there are
    fewer).  The window is a stretch of the file's text, the violating
    line is the target stripped, and the function label is the result of
    [extract_function_name]. *)
Theorem context_window_contents
  (w : World) (filepath content : string) (line_num : Z) (st : State) :
  fs w filepath = Some content ->
  1 <= line_num <= Z.of_nat (List.length (Py.readlines content)) ->
  exists context pre before target after post,
    analyze_code_context w filepath line_num st
    = (add_events [EvOpenRead filepath] st, inr context) /\
    Py.readlines content = pre ++ before ++ target :: after ++ post /\
    Z.of_nat (List.length pre) + Z.of_nat (List.length before)
    = line_num - 1 /\
    Z.of_nat (List.length before) = Z.min 19 (line_num - 1) /\
    Z.of_nat (List.length after)
    = Z.min 20 (Z.of_nat (List.length (Py.readlines content)) - line_num) /\
    c_file context = filepath /\
    c_line context = line_num /\
    c_context context = Py.join (before ++ target :: after) /\
    c_violation_line context = Py.strip target /\
    extract_function_name (Py.readlines content) line_num
    = inr (c_function context) /\
    content = (Py.join pre ++ c_context context ++ Py.join post)%string.
Proof.
  intros Hfs Hn.
  destruct (analyze_code_context_ok w filepath content line_num st Hfs Hn)
    as (name & l & Hname & Hl & Hrun).
  destruct (window_shape (Py.readlines content) line_num Hn)
    as (pre & before & target & after & post & Hlines & Hpos & Hb & Ha
        & Hslice).
  assert (Htarget : l = target).
  { rewrite Hlines in Hl.
    rewrite nth_error_app2 in Hl by lia.
    rewrite nth_error_app2 in Hl by lia.
    replace (Z.to_nat (line_num - 1) - List.length pre
             - List.length before)%nat with 0%nat in Hl by lia.
    simpl in Hl. now inversion Hl. }
  subst l. eexists. exists pre, before, target, after, post.
  split; [exact Hrun|]. cbn [c_file c_line c_context c_function
                              c_violation_line].
  rewrite Hslice.
  repeat (split; [first [assumption | reflexivity]|]).
  rewrite <- (PyFacts.join_readlines content) at 1.
  rewrite Hlines, PyFacts.join_app. f_equal.
  replace (before ++ target :: after ++ post)
    with ((before ++ target :: after) ++ post)
    by (rewrite <- app_assoc; reflexivity).
  apply PyFacts.join_app.
Qed.

Lemma nth_error_last {A} (l : list A) (d : A) :
  l <> [] -> nth_error l (List.length l - 1) = Some (last l d).
Proof.
  induction l as [|x l IH]; intros H; [congruence|].
  destruct l as [|y l]; [reflexivity|].
  change (last (x :: y :: l) d) with (last (y :: l) d).
  rewrite <- IH by discriminate. simpl. now rewrite Nat.sub_0_r.
Qed.

(** The index [-1] selects the last element. *)
Lemma index_minus_one {A} (l : list A) (d : A) :
  l <> [] -> Py.index l (-1) = Some (last l d).
Proof.
  intros H. unfold Py.index.
  assert (Hpos : (0 < List.length l)%nat)
    by (destruct l; [congruence|simpl; lia]).
  destruct (Z.ltb_spec (-1) 0); [|lia].
  destruct (Z.leb_spec 0 (-1 + Z.of_nat (List.length l))); [|lia].
  destruct (Z.ltb_spec (-1 + Z.of_nat (List.length l))
              (Z.of_nat (List.length l))); [|lia].
  cbn [andb].
  replace (Z.to_nat (-1 + Z.of_nat (List.length l)))
    with (List.length l - 1)%nat by lia.
  now apply nth_error_last.
Qed.

(** X7.  [analyze_code_context] raises [OSError] for a file that cannot
    be read and [IndexError] for a line number beyond the end of a
    readable file; in both cases it has opened the file and done nothing
    else.  For the line number 0 it does not raise on a file that has
    lines: the index [-1] selects the last line, which is returned as the
    violating line, with the first 20 lines as window and
    ["Unknown function"] as label. *)
Theorem analyze_code_context_edges
  (w : World) (filepath : string) (st : State) :
  (forall line_num,
     fs w filepath = None ->
     analyze_code_context w filepath line_num st
     = (add_events [EvOpenRead filepath] st, inl (OSError filepath))) /\
  (forall content line_num,
     fs w filepath = Some content ->
     Z.of_nat (List.length (Py.readlines content)) < line_num ->
     analyze_code_context w filepath line_num st
     = (add_events [EvOpenRead filepath] st, inl IndexError)) /\
  (forall content,
     fs w filepath = Some content ->
     Py.readlines content <> [] ->
     analyze_code_context w filepath 0 st
     = (add_events [EvOpenRead filepath] st,
        inr (mkContext filepath 0
               (Py.join (firstn 20 (Py.readlines content)))
               "Unknown function"
               (Py.strip (last (Py.readlines content) ""))))).
Proof.
  split; [|split].
  - intros line_num Hfs. now rewrite analyze_code_context_run, Hfs.
  - intros content line_num Hfs Hlen.
    rewrite analyze_code_context_run, Hfs. cbv zeta.
    assert (Hidx : Py.index (Py.readlines content) (line_num - 1) = None).
    { unfold Py.index.
      destruct (Z.ltb_spec (line_num - 1) 0); [lia|].
      destruct (Z.ltb_spec (line_num - 1)
                  (Z.of_nat (List.length (Py.readlines content))));
        [lia|].
      now rewrite andb_false_r. }
    unfold extract_function_name, scan_indices.
    destruct (Z.le_gt_cases line_num 1) as [Hone|Hmore].
    + unfold Py.range_down.
      replace (Z.to_nat (line_num - 1 - Z.max 0 (line_num - 50)))
        with 0%nat by lia.
      simpl. now rewrite Hidx.
    + rewrite range_down_cons by lia. simpl. now rewrite Hidx.
  - intros content Hfs Hne.
    rewrite analyze_code_context_run, Hfs. cbv zeta.
    set (lines := Py.readlines content) in *.
    change (0 - 1) with (-1).
    assert (Hidx : Py.index lines (-1) = Some (last lines ""))
      by now apply index_minus_one.
    rewrite Hidx.
    change (extract_function_name lines 0)
      with (inr "Unknown function" : exn + string).
    assert (Hslice :
              Py.slice lines (Z.max 0 (0 - 20))
                       (Z.min (Z.of_nat (List.length lines)) (0 + 20))
              = firstn 20 lines).
    { rewrite PyFacts.slice_inside by lia.
      change (Z.max 0 (0 - 20)) with 0. simpl skipn.
      destruct (Z.le_gt_cases (Z.of_nat (List.length lines)) 20)
        as [Hs|Hl].
      - rewrite Z.min_l by lia. rewrite Z.sub_0_r, Nat2Z.id.
        rewrite firstn_all. symmetry. apply firstn_all2. lia.
      - rewrite Z.min_r by lia. reflexivity. }
    now rewrite Hslice.
Qed.

(* ================================================================== *)
(** ** The grouping of fixes by file *)

Lemma group_add_nodup (f : Fix) (groups : list (string * list Fix)) :
  NoDup (map fst groups) -> NoDup (map fst (group_add f groups)) /\
  forall k, In k (map fst (group_add f groups)) <->
            k = f_file f \/ In k (map fst groups).
Proof.
  induction groups as [|[k0 fs0] groups IH]; intros Hnd; simpl.
  - split; [constructor; [intros []|constructor]|].
    intros k. split; [intros [<-|[]]; now left|].
    intros [->|[]]. now left.
  - inversion Hnd as [|? ? Hnotin Hnd']; subst.
    destruct (String.eqb_spec k0 (f_file f)) as [->|Hne]; simpl.
    + split; [exact Hnd|]. intros k. split.
      * intros [E|H]; [left; now symmetry|right; now right].
      * intros [E|[E|H]]; [left; now symmetry|now left|now right].
    + destruct (IH Hnd') as [IHnd IHin]. split.
      * constructor; [|exact IHnd]. rewrite IHin.
        intros [E|H]; [now apply Hne|contradiction].
      * intros k. rewrite IHin. tauto.
Qed.

Lemma group_add_in (f : Fix) (groups : list (string * list Fix))
  (k : string) (fs : list Fix) :
  NoDup (map fst groups) ->
  (In (k, fs) (group_add f groups) <->
   (k <> f_file f /\ In (k, fs) groups) \/
   (k = f_file f /\
    ((exists fs0, In (k, fs0) groups /\ fs = fs0 ++ [f]) \/
     (~ In k (map fst groups) /\ fs = [f])))).
Proof.
  induction groups as [|[k0 fs0] groups IH]; intros Hnd; simpl.
  - split.
    + intros [E|[]]. inversion E; subst. right. split; [reflexivity|].
      right. now split.
    + intros [[_ []] | [-> [(x & [] & _) | [_ ->]]]]. now left.
  - inversion Hnd as [|? ? Hnotin Hnd']; subst.
    destruct (String.eqb_spec k0 (f_file f)) as [->|Hne]; simpl.
    + split.
      * intros [E|H].
        -- inversion E; subst. right. split; [reflexivity|]. left.
           exists fs0. split; [now left|reflexivity].
        -- left. split; [|now right].
           intros ->. apply Hnotin.
           change (f_file f) with (fst (f_file f, fs)). now apply in_map.
      * intros [[Hk [E|H]] | [-> [(x & [E|H] & ->) | [Hn _]]]].
        -- inversion E; subst. congruence.
        -- now right.
        -- inversion E; subst. now left.
        -- exfalso. apply Hnotin.
           change (f_file f) with (fst (f_file f, x)). now apply in_map.
        -- exfalso. apply Hn. now left.
    + rewrite (IH Hnd'). split.
      * intros [E | [[Hk H] | [-> [(x & H & ->) | [Hn ->]]]]].
        -- inversion E; subst. left. split; [exact Hne|now left].
        -- left. split; [exact Hk|now right].
        -- right. split; [reflexivity|]. left. exists x.
           split; [now right|reflexivity].
        -- right. split; [reflexivity|]. right. split; [|reflexivity].
           intros [E|H]; [now apply Hne|now apply Hn].
      * intros [[Hk [E|H]] | [-> [(x & [E|H] & ->) | [Hn ->]]]].
        -- now left.
        -- right. left. now split.
        -- inversion E; subst. congruence.
        -- right. right. split; [reflexivity|]. left. now exists x.
        -- right. right. split; [reflexivity|]. right.
           split; [|reflexivity]. intros H. apply Hn. now right.
Qed.

Lemma fixes_for_app (k : string) (l1 l2 : list Fix) :
  fixes_for k (l1 ++ l2) = fixes_for k l1 ++ fixes_for k l2.
Proof. apply filter_app. Qed.

Lemma grouped_add (f : Fix) (groups : list (string * list Fix))
  (processed : list Fix) :
  grouped groups processed ->
  grouped (group_add f groups) (processed ++ [f]).
Proof.
  intros [Hnd Hin]. split; [now apply group_add_nodup|].
  intros k fs. rewrite (group_add_in f groups k fs Hnd), fixes_for_app.
  unfold fixes_for at 2. simpl.
  destruct (String.eqb_spec (f_file f) k) as [E|Hne].
  - subst k. split.
    + intros [[Hk _] | [_ [(fs0 & H0 & ->) | [Hn ->]]]]; [congruence| |].
      * apply Hin in H0. destruct H0 as [-> _].
        split; [reflexivity|]. now destruct (fixes_for (f_file f) processed).
      * assert (Hempty : fixes_for (f_file f) processed = []).
        { destruct (fixes_for (f_file f) processed) as [|x xs] eqn:E;
            [reflexivity|]. exfalso. apply Hn.
          change (f_file f) with (fst (f_file f, x :: xs)).
          apply in_map. apply Hin. rewrite E. now split. }
        rewrite Hempty. now split.
    + intros [-> _]. right. split; [reflexivity|].
      destruct (fixes_for (f_file f) processed) as [|x xs] eqn:E.
      * right. split; [|reflexivity]. intros Hk.
        apply in_map_iff in Hk. destruct Hk as ([k' fs'] & Ek & Hk).
        simpl in Ek. subst k'. apply Hin in Hk.
        destruct Hk as [-> Hne]. now apply Hne.
      * left. exists (x :: xs). split; [|reflexivity].
        apply Hin. rewrite E. now split.
  - rewrite app_nil_r, <- Hin. split.
    + intros [[_ H] | [-> _]]; [exact H|congruence].
    + intros H. left. split; [congruence|exact H].
Qed.

Lemma grouped_fold (rest : list Fix) (groups : list (string * list Fix))
  (processed : list Fix) :
  grouped groups processed ->
  grouped (fold_left (fun g f => group_add f g) rest groups)
          (processed ++ rest).
Proof.
  revert groups processed.
  induction rest as [|f rest IH]; intros groups processed H; simpl.
  - now rewrite app_nil_r.
  - replace (processed ++ f :: rest) with ((processed ++ [f]) ++ rest)
      by (rewrite <- app_assoc; reflexivity).
    apply IH. now apply grouped_add.
Qed.

Lemma fixes_by_file_grouped (fixes : list Fix) :
  grouped (fixes_by_file fixes) fixes.
Proof.
  apply (grouped_fold fixes [] []). split; [constructor|].
  intros k fs. simpl. split; [intros []|]. intros [-> H]. now apply H.
Qed.

(** The groups are as many as the distinct files of the fixes. *)
Lemma fixes_by_file_length (fixes : list Fix) :
  List.length (fixes_by_file fixes)
  = List.length (nodup string_dec (map f_file fixes)).
Proof.
  destruct (fixes_by_file_grouped fixes) as [Hnd Hin].
  rewrite <- (length_map fst (fixes_by_file fixes)).
  assert (Hkeys : forall k, In k (map fst (fixes_by_file fixes)) <->
                            In k (nodup string_dec (map f_file fixes))).
  { intros k. rewrite nodup_In, !in_map_iff. split.
    - intros ([k' fs] & E & H). simpl in E. subst k'.
      apply Hin in H. destruct H as [-> Hne].
      destruct (fixes_for k fixes) as [|f fs] eqn:E; [congruence|].
      assert (Hf : In f (fixes_for k fixes)) by (rewrite E; now left).
      apply filter_In in Hf. destruct Hf as [Hf Hk].
      apply String.eqb_eq in Hk. now exists f.
    - intros (f & <- & Hf). exists (f_file f, fixes_for (f_file f) fixes).
      split; [reflexivity|]. apply Hin. split; [reflexivity|].
      assert (Hin' : In f (fixes_for (f_file f) fixes)).
      { apply filter_In. split; [exact Hf|apply String.eqb_refl]. }
      intros E. now rewrite E in Hin'. }
  apply Nat.le_antisymm; apply NoDup_incl_length;
    try assumption; try apply NoDup_nodup; intros k Hk; now apply Hkeys.
Qed.

(** X12.  [fixes_by_file] makes one group per file that has a fix, no
    file twice; the group of a file holds the fixes of that file, all of
    them and no other, in the order in which they were recorded; the
    groups are as many as the files counted in the summary. *)
Theorem fixes_by_file_groups (fixes : list Fix) :
  NoDup (map fst (fixes_by_file fixes)) /\
  (forall k fs,
     In (k, fs) (fixes_by_file fixes) <->
     fs = filter (fun f => String.eqb (f_file f) k) fixes /\ fs <> []) /\
  (forall f, In f fixes ->
     exists fs, In (f_file f, fs) (fixes_by_file fixes) /\ In f fs) /\
  List.length (fixes_by_file fixes)
  = List.length (nodup string_dec (map f_file fixes)).
Proof.
  destruct (fixes_by_file_grouped fixes) as [Hnd Hin].
  split; [exact Hnd|]. split; [exact Hin|]. split.
  - intros f Hf.
    assert (Hin' : In f (fixes_for (f_file f) fixes)).
    { apply filter_In. split; [exact Hf|apply String.eqb_refl]. }
    exists (fixes_for (f_file f) fixes). split; [|exact Hin'].
    apply Hin. split; [reflexivity|]. intros E. now rewrite E in Hin'.
  - apply fixes_by_file_length.
Qed.

(* ================================================================== *)
(** ** The loop and the end of the run, in full *)

Lemma fixes_ok_app (t1 t2 : list event) :
  fixes_ok (t1 ++ t2) = (fixes_ok t1 + fixes_ok t2)%nat.
Proof. unfold fixes_ok. now rewrite filter_app, length_app. Qed.

Lemma fixes_failed_app (t1 t2 : list event) :
  fixes_failed (t1 ++ t2) = (fixes_failed t1 + fixes_failed t2)%nat.
Proof. unfold fixes_failed. now rewrite filter_app, length_app. Qed.

Section Account.

Variable w : World.

(** One turn of the loop on a violation that names a line of a readable
    file ends in one of two ways: a fix is recorded and the success is
    printed, or nothing is recorded and an error is printed. *)
Lemma process_violation_account (total i : nat) (violation : Violation)
  (content : string) (st : State) :
  fs w (v_file violation) = Some content ->
  1 <= v_line violation <= Z.of_nat (List.length (Py.readlines content)) ->
  exists st',
    process_violation w total i violation st = (st', inr tt) /\
    ((fixes_ok (trace st') = S (fixes_ok (trace st)) /\
      fixes_failed (trace st') = fixes_failed (trace st) /\
      List.length (fixer_fixes st') = S (List.length (fixer_fixes st)))
     \/
     (fixes_ok (trace st') = fixes_ok (trace st) /\
      fixes_failed (trace st') = S (fixes_failed (trace st)) /\
      fixer_fixes st' = fixer_fixes st)).
Proof.
  intros Hfs Hn.
  destruct (analyze_code_context_ok w (v_file violation) content
              (v_line violation) initial Hfs Hn)
    as (name & l & _ & _ & Hrun).
  assert (Hctx : exists context,
             context_of w (v_file violation) (v_line violation)
             = inr context).
  { unfold context_of. rewrite Hrun. simpl. eauto. }
  destruct Hctx as [context Hctx].
  pose proof (PyFacts.readlines_le_split content) as Hle.
  destruct (PyFacts.index_some (Py.split_nl content)
              (v_line violation - 1)) as [original Ho]; [lia|].
  rewrite (process_violation_run w total i violation context st Hctx).
  cbv zeta. rewrite Hfs, Ho. unfold requested, add_events.
  generalize (prompt_of context) as prompt. intros prompt.
  destruct (service w (requests st) prompt) as [msg|text];
    eexists; (split; [reflexivity|]); [right|left];
    cbn [trace fixer_fixes];
    rewrite ?fixes_ok_app, ?fixes_failed_app, ?length_app;
    unfold fixes_ok, fixes_failed; simpl;
    (split; [lia|]); (split; [lia|]); first [reflexivity | lia].
Qed.

(** The loop over such violations: every turn ends in one of the two
    ways, and the fixes recorded are as many as the successes printed. *)
Lemma process_violations_account (total : nat) (vs : list Violation) :
  (forall v, In v vs ->
     exists content,
       fs w (v_file v) = Some content /\
       1 <= v_line v <= Z.of_nat (List.length (Py.readlines content))) ->
  forall (i : nat) (st : State),
  exists st',
    process_violations w total i vs st = (st', inr tt) /\
    (fixes_ok (trace st') + fixes_failed (trace st')
     = fixes_ok (trace st) + fixes_failed (trace st) + List.length vs)%nat /\
    (List.length (fixer_fixes st') + fixes_ok (trace st)
     = List.length (fixer_fixes st) + fixes_ok (trace st'))%nat.
Proof.
  induction vs as [|v vs IH]; intros Hvalid i st.
  - exists st. simpl. repeat split; lia.
  - destruct (Hvalid v) as (content & Hfs & Hn); [now left|].
    destruct (process_violation_account total i v content st Hfs Hn)
      as (st1 & Hrun1 & Hcase).
    destruct (IH (fun v' H => Hvalid v' (or_intror H)) (S i) st1)
      as (st2 & Hrun2 & Hsum & Hfix).
    exists st2. simpl process_violations. unfold bind at 1.
    rewrite Hrun1, Hrun2. split; [reflexivity|].
    destruct Hcase as [(Hok & Hfail & Hlen) | (Hok & Hfail & Hsame)].
    + simpl List.length. split; lia.
    + rewrite Hsame in Hfix. simpl List.length. split; lia.
Qed.

(** The paths that the scan of [main] opens. *)
Lemma scan_result_read_all :
  scan_result w = snd (read_all w (scanned_paths (os_walk w "."))).
Proof.
  unfold scan_result, find_violations. now rewrite scan_dirs_read_all.
Qed.

(** [main] from the scan on: the loop ends normally, and the rest
    depends on whether the two output files can be written. *)
Lemma main_run_cases (vs : list Violation) (st : State) :
  key_missing (env_api_key w) = false ->
  scan_result w = inr vs ->
  exists st3,
    process_violations w (Nat.min max_fixes (List.length vs)) 0
      (firstn max_fixes vs)
      (before_loop (fst (read_all w (scanned_paths (os_walk w "."))))
                   (List.length vs) st)
    = (st3, inr tt) /\
    main w st
    = if can_write w "ai_fix_report.json" then
        if can_write w "pr_description.md" then
          (add_events
             [EvWrite "ai_fix_report.json" (DocReport (report_of vs st3));
              EvWrite "pr_description.md" (DocPr (description_of st3));
              EvPrint (MsgCompleted (List.length (fixer_fixes st3)));
              EvPrint MsgReports] st3, inr tt)
        else
          (add_events
             [EvWrite "ai_fix_report.json" (DocReport (report_of vs st3))]
             st3, inl (OSError "pr_description.md"))
      else (st3, inl (OSError "ai_fix_report.json")).
Proof.
  intros Hkey Hvs.
  set (opened := fst (read_all w (scanned_paths (os_walk w ".")))).
  destruct (process_violations_run w
              (Nat.min max_fixes (List.length vs)) (firstn max_fixes vs))
    with (i := 0%nat) (st := before_loop opened (List.length vs) st)
    as (st3 & new & Hloop & _).
  { intros v Hv. apply (scan_result_valid w vs v Hvs).
    now apply in_firstn in Hv. }
  exists st3. split; [exact Hloop|].
  unfold main. rewrite Hkey.
  unfold bind at 1. unfold new_fixer.
  unfold bind at 1. unfold print at 1, emit at 1.
  unfold bind at 1. unfold find_violations.
  rewrite scan_dirs_read_all. fold opened.
  rewrite <- scan_result_read_all, Hvs.
  unfold bind at 1. unfold print at 1, emit at 1.
  replace (add_events [EvPrint (MsgFound (List.length vs))]
             (add_events (map EvOpenRead opened)
                (add_events [EvPrint MsgScanning]
                   (mkState [] [] (requests st) (trace st)))))
    with (before_loop opened (List.length vs) st)
    by (unfold before_loop, add_events; cbn; now rewrite <- !app_assoc).
  unfold bind at 1. rewrite Hloop.
  unfold bind, get_fixes, write_file, generate_pr_description,
    get_violations, ret, raise, print, emit, report_of, description_of,
    add_events.
  destruct (can_write w "ai_fix_report.json");
    [destruct (can_write w "pr_description.md")|]; cbn;
    rewrite <- ?app_assoc; reflexivity.
Qed.

End Account.

Lemma open_reads_silent (paths : list string) :
  writes (map EvOpenRead paths) = [] /\
  fix_attempts (map EvOpenRead paths) = 0%nat /\
  fixes_ok (map EvOpenRead paths) = 0%nat /\
  fixes_failed (map EvOpenRead paths) = 0%nat.
Proof.
  unfold writes, fix_attempts, fixes_ok, fixes_failed.
  induction paths as [|p paths IH]; simpl; [now repeat split|exact IH].
Qed.

Section Ending.

Variable w : World.

(** The state in which the loop of [main] ends. *)
Lemma main_loop_facts (vs : list Violation) (st st3 : State) :
  scan_result w = inr vs ->
  process_violations w (Nat.min max_fixes (List.length vs)) 0
    (firstn max_fixes vs)
    (before_loop (fst (read_all w (scanned_paths (os_walk w "."))))
                 (List.length vs) st)
  = (st3, inr tt) ->
  fix_attempts (trace st3)
  = (fix_attempts (trace st) + Nat.min max_fixes (List.length vs))%nat /\
  writes (trace st3) = writes (trace st) /\
  fixer_violations st3 = [] /\
  (List.length (fixer_fixes st3) + fixes_ok (trace st)
   = fixes_ok (trace st3))%nat /\
  (fixes_ok (trace st3) + fixes_failed (trace st3)
   = fixes_ok (trace st) + fixes_failed (trace st)
     + Nat.min max_fixes (List.length vs))%nat.
Proof.
  intros Hvs Hloop.
  set (opened := fst (read_all w (scanned_paths (os_walk w ".")))) in *.
  assert (Hvalid : forall v, In v (firstn max_fixes vs) ->
            exists content,
              fs w (v_file v) = Some content /\
              1 <= v_line v
              <= Z.of_nat (List.length (Py.readlines content))).
  { intros v Hv. apply (scan_result_valid w vs v Hvs).
    now apply in_firstn in Hv. }
  destruct (process_violations_run w
              (Nat.min max_fixes (List.length vs)) (firstn max_fixes vs)
              Hvalid 0%nat (before_loop opened (List.length vs) st))
    as (sa & new & Hra & Hreq & Hwr & _ & Hviol & _).
  destruct (process_violations_account w
              (Nat.min max_fixes (List.length vs)) (firstn max_fixes vs)
              Hvalid 0%nat (before_loop opened (List.length vs) st))
    as (sb & Hrb & Hsum & Hfix).
  rewrite Hloop in Hra, Hrb. inversion Hra; subst sa.
  inversion Hrb; subst sb. clear Hra Hrb.
  destruct (open_reads_silent opened) as (Ho1 & Ho2 & Ho3 & Ho4).
  unfold before_loop in *. cbn [trace fixer_fixes fixer_violations] in *.
  replace (trace st ++ EvPrint MsgScanning :: map EvOpenRead opened
             ++ [EvPrint (MsgFound (List.length vs))])
    with (trace st ++ [EvPrint MsgScanning] ++ map EvOpenRead opened
            ++ [EvPrint (MsgFound (List.length vs))])
    in * by reflexivity.
  rewrite !fix_attempts_app, Ho2 in Hreq.
  rewrite !writes_app, Ho1 in Hwr.
  rewrite !fixes_ok_app, !fixes_failed_app, Ho3, Ho4 in Hsum.
  rewrite !fixes_ok_app, Ho3 in Hfix.
  rewrite length_firstn in Hreq, Hsum.
  change (fix_attempts [EvPrint MsgScanning]) with 0%nat in Hreq.
  change (fix_attempts [EvPrint (MsgFound (List.length vs))])
    with 0%nat in Hreq.
  change (writes [EvPrint MsgScanning]) with (@nil event) in Hwr.
  change (writes [EvPrint (MsgFound (List.length vs))])
    with (@nil event) in Hwr.
  change (fixes_ok [EvPrint MsgScanning]) with 0%nat in Hsum, Hfix.
  change (fixes_ok [EvPrint (MsgFound (List.length vs))])
    with 0%nat in Hsum, Hfix.
  change (fixes_failed [EvPrint MsgScanning]) with 0%nat in Hsum.
  change (fixes_failed [EvPrint (MsgFound (List.length vs))])
    with 0%nat in Hsum.
  rewrite !app_nil_r in Hwr. cbn [List.length] in Hfix.
  split; [lia|]. split; [exact Hwr|]. split; [exact Hviol|].
  split; lia.
Qed.

(** X8.  Whatever the environment, the tree and the answers of the
    service, a run of [main] sends at most [max_fixes] requests. *)
Theorem requests_never_exceed_cap :
  (fix_attempts (trace (fst (main w initial))) <= max_fixes)%nat.
Proof.
  destruct (key_missing (env_api_key w)) eqn:Hkey.
  - rewrite (main_missing_key w initial Hkey). simpl.
    unfold fix_attempts, max_fixes. simpl. lia.
  - destruct (scan_result w) as [e|vs] eqn:Hvs.
    + destruct (main_scan_fails w e initial Hkey Hvs) as (evs & Hev & ->).
      simpl fst. cbn [trace].
      change (EvPrint MsgScanning :: evs)
        with ([EvPrint MsgScanning] ++ evs).
      rewrite fix_attempts_app, (open_reads_no_request evs Hev).
      unfold fix_attempts, max_fixes. simpl. lia.
    + destruct (main_run_cases w vs initial Hkey Hvs) as (st3 & Hloop & ->).
      destruct (main_loop_facts vs initial st3 Hvs Hloop) as (Hreq & _).
      change (fix_attempts (trace initial)) with 0%nat in Hreq.
      destruct (can_write w "ai_fix_report.json");
        [destruct (can_write w "pr_description.md")|];
        unfold add_events; cbn [fst trace];
        rewrite ?fix_attempts_app, Hreq;
        unfold fix_attempts; cbn [filter is_request List.length]; lia.
Qed.

(** X9.  The output files are written after the loop, the report first.
    When the report cannot be written, [main] raises [OSError] for it
    once all the requests have been sent, and writes nothing; when only
    the description cannot be written, the report is written and [main]
    raises [OSError] for the description. *)
Theorem output_write_failures (vs : list Violation) :
  key_missing (env_api_key w) = false ->
  scan_result w = inr vs ->
  (can_write w "ai_fix_report.json" = false ->
   snd (main w initial) = inl (OSError "ai_fix_report.json") /\
   fix_attempts (trace (fst (main w initial)))
   = Nat.min max_fixes (List.length vs) /\
   writes (trace (fst (main w initial))) = []) /\
  (can_write w "ai_fix_report.json" = true ->
   can_write w "pr_description.md" = false ->
   snd (main w initial) = inl (OSError "pr_description.md") /\
   exists report,
     writes (trace (fst (main w initial)))
     = [EvWrite "ai_fix_report.json" (DocReport report)] /\
     violations_found report = List.length vs).
Proof.
  intros Hkey Hvs.
  destruct (main_run_cases w vs initial Hkey Hvs) as (st3 & Hloop & ->).
  destruct (main_loop_facts vs initial st3 Hvs Hloop)
    as (Hreq & Hwr & _).
  change (fix_attempts (trace initial)) with 0%nat in Hreq.
  change (writes (trace initial)) with (@nil event) in Hwr.
  split.
  - intros ->. cbn [fst snd]. split; [reflexivity|].
    split; [lia|exact Hwr].
  - intros -> ->. cbn [fst snd]. split; [reflexivity|].
    exists (report_of vs st3). unfold add_events. cbn [trace].
    rewrite writes_app, Hwr. split; reflexivity.
Qed.

(** X10.  In a run that completes, the fixes counted in the report are
    as many as the turns of the loop that printed a success, and every
    request ended in a success or in an error printed: successes and
    errors together are as many as the requests,
    [min(max_fixes, number of violations)]. *)
Theorem every_request_is_accounted_for (vs : list Violation) :
  key_missing (env_api_key w) = false ->
  scan_result w = inr vs ->
  can_write w "ai_fix_report.json" = true ->
  can_write w "pr_description.md" = true ->
  exists st' report pr,
    main w initial = (st', inr tt) /\
    writes (trace st')
    = [EvWrite "ai_fix_report.json" (DocReport report);
       EvWrite "pr_description.md" (DocPr pr)] /\
    fixes_applied report = fixes_ok (trace st') /\
    (fixes_ok (trace st') + fixes_failed (trace st'))%nat
    = fix_attempts (trace st') /\
    fix_attempts (trace st') = Nat.min max_fixes (List.length vs).
Proof.
  intros Hkey Hvs Hw1 Hw2.
  destruct (main_run_cases w vs initial Hkey Hvs) as (st3 & Hloop & Hmain).
  destruct (main_loop_facts vs initial st3 Hvs Hloop)
    as (Hreq & Hwr & _ & Hfix & Hsum).
  change (fix_attempts (trace initial)) with 0%nat in Hreq.
  change (writes (trace initial)) with (@nil event) in Hwr.
  change (fixes_ok (trace initial)) with 0%nat in Hfix, Hsum.
  change (fixes_failed (trace initial)) with 0%nat in Hsum.
  rewrite Hw1, Hw2 in Hmain.
  eexists. exists (report_of vs st3), (description_of st3).
  split; [exact Hmain|]. unfold add_events. cbn [trace].
  rewrite writes_app, fixes_ok_app, fixes_failed_app, fix_attempts_app,
    Hwr, Hreq.
  change (fixes_ok [_; _; _; _]) with 0%nat.
  change (fixes_failed [_; _; _; _]) with 0%nat.
  change (fix_attempts [_; _; _; _]) with 0%nat.
  cbn [fixes_applied report_of].
  split; [reflexivity|]. split; [lia|]. split; lia.
Qed.

(** X11.  In a run that completes, the description counts the fixes as
    the report does and counts as many files as it has sections, but its
    count of violations is 0 whatever the scan found: [main] keeps the
    violations in a local variable and the fixer's own list stays
    empty. *)
Theorem description_counts (vs : list Violation) :
  key_missing (env_api_key w) = false ->
  scan_result w = inr vs ->
  can_write w "ai_fix_report.json" = true ->
  can_write w "pr_description.md" = true ->
  exists st' report pr,
    main w initial = (st', inr tt) /\
    writes (trace st')
    = [EvWrite "ai_fix_report.json" (DocReport report);
       EvWrite "pr_description.md" (DocPr pr)] /\
    violations_found report = List.length vs /\
    pr_violations_found pr = 0%nat /\
    pr_fixes_applied pr = fixes_applied report /\
    pr_changes pr = fixes_by_file (r_fixes report) /\
    pr_files_modified pr = List.length (pr_changes pr).
Proof.
  intros Hkey Hvs Hw1 Hw2.
  destruct (main_run_cases w vs initial Hkey Hvs) as (st3 & Hloop & Hmain).
  destruct (main_loop_facts vs initial st3 Hvs Hloop)
    as (_ & Hwr & Hviol & _).
  change (writes (trace initial)) with (@nil event) in Hwr.
  rewrite Hw1, Hw2 in Hmain.
  eexists. exists (report_of vs st3), (description_of st3).
  split; [exact Hmain|]. unfold add_events. cbn [trace].
  rewrite writes_app, Hwr. unfold description_of, report_of.
  cbn [pr_violations_found pr_fixes_applied pr_changes pr_files_modified
       violations_found fixes_applied r_fixes].
  rewrite Hviol, fixes_by_file_length. repeat split.
Qed.

End Ending.

(* ================================================================== *)
(** ** The cap and the counts of the report *)

(** C3.  When the credential is set, the scan returns and the two output
    files can be written, [main] returns after exactly
    [min(max_fixes, number of violations)] requests, which is [max_fixes]
    when the scan found more than that.  The report it writes has
    [violations_found] equal to the number of violations of the whole
    scan, and [fixes_applied] equal to the number of fixes recorded,
    which is the number of turns of the loop that ended in success:
    every request ended in a success, with a fix recorded, or in an error
    printed, with none.  Each fix recorded is for one of the violations
    processed, the first [max_fixes] of the scan. *)
Theorem capped_fix_attempts_and_report_counts
  (w : World) (vs : list Violation) :
  key_missing (env_api_key w) = false ->
  scan_result w = inr vs ->
  can_write w "ai_fix_report.json" = true ->
  can_write w "pr_description.md" = true ->
  exists st' report pr,
    main w initial = (st', inr tt) /\
    fix_attempts (trace st') = Nat.min max_fixes (List.length vs) /\
    ((max_fixes < List.length vs)%nat ->
     fix_attempts (trace st') = max_fixes) /\
    writes (trace st')
    = [EvWrite "ai_fix_report.json" (DocReport report);
       EvWrite "pr_description.md" (DocPr pr)] /\
    violations_found report = List.length vs /\
    r_violations report = vs /\
    fixes_applied report = List.length (r_fixes report) /\
    r_fixes report = fixer_fixes st' /\
    fixes_applied report = fixes_ok (trace st') /\
    (fixes_ok (trace st') + fixes_failed (trace st'))%nat
    = fix_attempts (trace st') /\
    (fixes_applied report <= fix_attempts (trace st'))%nat /\
    (forall f, In f (r_fixes report) ->
       exists v, In v (firstn max_fixes vs) /\
                 f_file f = v_file v /\ f_line f = v_line v).
Proof.
  intros Hkey Hvs Hw1 Hw2.
  destruct (main_completes w vs initial Hkey Hvs Hw1 Hw2)
    as (st' & fixes & pr & Hrun & Hreq & Hwr & _ & Hfix & Hlen & Hin).
  destruct (main_run_cases w vs initial Hkey Hvs) as (st3 & Hloop & Hmain).
  destruct (main_loop_facts w vs initial st3 Hvs Hloop)
    as (_ & _ & _ & Hok & Hsum).
  rewrite Hw1, Hw2, Hrun in Hmain. inversion Hmain as [Hst']. clear Hmain.
  change (fix_attempts (trace initial)) with 0%nat in Hreq.
  rewrite Nat.add_0_l in Hreq.
  change (writes (trace initial)) with (@nil event) in Hwr.
  rewrite app_nil_l in Hwr.
  change (fixes_ok (trace initial)) with 0%nat in Hok, Hsum.
  change (fixes_failed (trace initial)) with 0%nat in Hsum.
  assert (Hfixes : fixes = fixer_fixes st3).
  { rewrite <- Hfix, Hst'. reflexivity. }
  assert (Hoks : fixes_ok (trace st') = fixes_ok (trace st3)).
  { rewrite Hst'. unfold add_events. cbn [trace].
    rewrite fixes_ok_app.
    change (fixes_ok [_; _; _; _]) with 0%nat. lia. }
  assert (Hfails : fixes_failed (trace st') = fixes_failed (trace st3)).
  { rewrite Hst'. unfold add_events. cbn [trace].
    rewrite fixes_failed_app.
    change (fixes_failed [_; _; _; _]) with 0%nat. lia. }
  exists st', (mkReport (List.length vs) (List.length fixes) vs fixes), pr.
  cbn [violations_found fixes_applied r_violations r_fixes].
  split; [exact Hrun|]. split; [exact Hreq|].
  split; [intros Hmore; rewrite Hreq; unfold max_fixes in *; lia|].
  split; [exact Hwr|]. split; [reflexivity|]. split; [reflexivity|].
  split; [reflexivity|]. split; [now rewrite Hfix|].
  split; [rewrite Hfixes; lia|].
  split; [rewrite Hreq; lia|].
  split; [rewrite Hreq; exact Hlen|exact Hin].
Qed.

Lemma capped_fix_attempts_and_report_counts_witness :
  key_missing (env_api_key w_todo) = false /\
  scan_result w_todo = inr todo_violations /\
  (max_fixes < List.length todo_violations)%nat /\
  exists st' report,
    main w_todo initial = (st', inr tt) /\
    fix_attempts (trace st') = 5%nat /\
    violations_found report = 6%nat /\
    fixes_applied report = 3%nat /\
    fixes_failed (trace st') = 2%nat /\
    In (EvWrite "ai_fix_report.json" (DocReport report)) (trace st').
Proof.
  assert (Hkey : key_missing (env_api_key w_todo) = false) by reflexivity.
  assert (Hvs : scan_result w_todo = inr todo_violations)
    by (vm_compute; reflexivity).
  assert (Hmore : (max_fixes < List.length todo_violations)%nat)
    by (vm_compute; repeat constructor).
  destruct (capped_fix_attempts_and_report_counts w_todo todo_violations
              Hkey Hvs eq_refl eq_refl)
    as (st' & report & pr & Hrun & _ & Hcap & Hwr & Hfound & _ & _
        & _ & Hok & Hsum & _).
  assert (Hst : st' = fst (main w_todo initial)) by (now rewrite Hrun).
  assert (Hthree : fixes_ok (trace st') = 3%nat)
    by (rewrite Hst; vm_compute; reflexivity).
  split; [exact Hkey|]. split; [exact Hvs|]. split; [exact Hmore|].
  exists st', report. split; [exact Hrun|].
  split; [exact (Hcap Hmore)|]. split; [exact Hfound|].
  split; [now rewrite Hok|].
  split; [rewrite (Hcap Hmore), Hthree in Hsum; unfold max_fixes in Hsum; lia|].
  assert (Hin : In (EvWrite "ai_fix_report.json" (DocReport report))
                   (writes (trace st')))
    by (rewrite Hwr; left; reflexivity).
  apply filter_In in Hin. exact (proj1 Hin).
Defined.

(* ================================================================== *)
(** ** Errors outside the handler, and the empty scan *)

(** X13.  The extraction of the context is outside the [try] of the
    loop: when it raises for a violation, the error is not caught.  The
    loop stops there with that error, having printed the three lines
    about the violation and opened its file; no request is sent, no
    error line is printed, and the violations that follow are not
    processed. *)
Theorem context_error_aborts_loop
  (w : World) (total i : nat) (violation : Violation)
  (rest : list Violation) (e : exn) (st : State) :
  context_of w (v_file violation) (v_line violation) = inl e ->
  process_violations w total i (violation :: rest) st
  = (add_events
       [EvPrint (MsgProcessing (S i) total);
        EvPrint (MsgFile (v_file violation) (v_line violation));
        EvPrint (MsgType (v_type violation));
        EvOpenRead (v_file violation)] st,
     inl e).
Proof.
  intros Hctx. simpl process_violations.
  unfold process_violation, bind, print, emit.
  rewrite analyze_context_of, Hctx.
  unfold add_events. cbn. now rewrite <- !app_assoc.
Qed.

(** X14.  When the credential is set, the tree has no source file
    outside the skipped directories and the output files can be written,
    [main] opens no file and sends no request: it prints that it found 0
    violations, writes a report with 0 violations and 0 fixes and a
    description without sections, and returns. *)
Theorem no_source_files_empty_report (w : World) :
  key_missing (env_api_key w) = false ->
  scanned_paths (os_walk w ".") = [] ->
  can_write w "ai_fix_report.json" = true ->
  can_write w "pr_description.md" = true ->
  main w initial
  = (mkState [] [] 0
       [EvPrint MsgScanning;
        EvPrint (MsgFound 0);
        EvWrite "ai_fix_report.json" (DocReport (mkReport 0 0 [] []));
        EvWrite "pr_description.md" (DocPr (mkPr 0 0 0 []));
        EvPrint (MsgCompleted 0);
        EvPrint MsgReports],
     inr tt).
Proof.
  intros Hkey Hpaths Hw1 Hw2.
  assert (Hvs : scan_result w = inr []).
  { rewrite scan_result_read_all, Hpaths. reflexivity. }
  destruct (main_run_cases w [] initial Hkey Hvs) as (st3 & Hloop & Hmain).
  rewrite Hpaths in Hloop. simpl in Hloop. unfold ret in Hloop.
  inversion Hloop; subst st3. rewrite Hmain, Hw1, Hw2. reflexivity.
Qed.

(* ================================================================== *)
(** ** Lines that the patterns flag *)

Lemma lang_lit (s : string) : Re.lang (Re.lit s) s.
Proof.
  induction s as [|c s IH]; simpl; [constructor|].
  destruct s as [|c' s'].
  - constructor. apply Ascii.eqb_refl.
  - change (String c (String c' s'))
      with (String c "" ++ String c' s')%string.
    constructor; [|exact IH]. constructor. apply Ascii.eqb_refl.
Qed.

Lemma lang_star_space (ws : string) :
  all_space ws = true -> Re.lang (Re.Star Re.space) ws.
Proof.
  induction ws as [|c ws IH]; simpl; intros H; [constructor|].
  apply andb_prop in H. destruct H as [Hc Hws].
  change (String c ws) with (String c "" ++ ws)%string.
  constructor; [now constructor|now apply IH].
Qed.

(** A pattern is found in any line that holds one of its words. *)
Lemma search_word (r : Re.re) (pre word post : string) :
  Re.lang r word -> Re.search r (pre ++ word ++ post) = true.
Proof.
  intros H. apply ReFacts.search_spec. now exists pre, word, post.
Qed.

Lemma prefix_append (a post : string) : prefix a (a ++ post) = true.
Proof.
  induction a as [|c a IH]; simpl; [now destruct post|].
  destruct (ascii_dec c c); [exact IH|congruence].
Qed.

Lemma contains_word (a pre post : string) :
  Py.contains a (pre ++ a ++ post) = true.
Proof.
  induction pre as [|c pre IH]; simpl.
  - assert (H : forall s, prefix a s = true -> Py.contains a s = true).
    { intros s Hs. destruct s; cbn [Py.contains]; now rewrite Hs. }
    apply H, prefix_append.
  - rewrite IH. apply orb_true_r.
Qed.

Section Flags.

Variable w : World.

(** A line of a scanned file in which a pattern is found is flagged
    with the type of that pattern. *)
Lemma scan_flags (vs : list Violation) (path content line : string)
  (i : nat) (r : Re.re) (type : string) :
  scan_result w = inr vs ->
  scanned_file (os_walk w ".") path ->
  fs w path = Some content ->
  nth_error (Py.readlines content) i = Some line ->
  In (r, type) Patterns.patterns ->
  Re.search r line = true ->
  In (mkViolation path (Z.of_nat i + 1) type (Py.strip line)) vs.
Proof.
  intros Hvs Hp Hc Hline Hpt Hs.
  apply (proj1 (scan_result_ok w vs Hvs)). exists path, content.
  split; [exact Hp|]. split; [exact Hc|]. apply in_scan_lines.
  exists i, line, (r, type). now repeat split.
Qed.

(** X15.  In the result of a scan, every line of a scanned file that
    holds [//], any run of whitespace, one of [TODO], [FIXME] and [HACK]
    and a colon, wherever in the line, is flagged as ["todo_comment"]
    with its line number and its stripped text. *)
Theorem todo_markers_flagged
  (vs : list Violation) (path content : string) (i : nat)
  (pre ws marker post : string) :
  scan_result w = inr vs ->
  scanned_file (os_walk w ".") path ->
  fs w path = Some content ->
  nth_error (Py.readlines content) i
  = Some (pre ++ "//" ++ ws ++ marker ++ ":" ++ post)%string ->
  all_space ws = true ->
  marker = "TODO" \/ marker = "FIXME" \/ marker = "HACK" ->
  In (mkViolation path (Z.of_nat i + 1) "todo_comment"
        (Py.strip (pre ++ "//" ++ ws ++ marker ++ ":" ++ post)))
     vs.
Proof.
  intros Hvs Hp Hc Hline Hws Hm.
  apply (scan_flags vs path content _ i Patterns.todo_comment
                    "todo_comment" Hvs Hp Hc Hline).
  - simpl. tauto.
  - replace (pre ++ "//" ++ ws ++ marker ++ ":" ++ post)%string
      with (pre ++ ("//" ++ ws ++ marker ++ ":") ++ post)%string
      by (rewrite !ReFacts.append_assoc; reflexivity).
    apply search_word. unfold Patterns.todo_comment. simpl Re.seqs.
    constructor; [apply (lang_lit "//")|].
    constructor; [now apply lang_star_space|].
    constructor; [|apply (lang_lit ":")].
    simpl Re.alts.
    destruct Hm as [-> | [-> | ->]].
    + apply Re.L_alt_l. apply (lang_lit "TODO").
    + apply Re.L_alt_r, Re.L_alt_l. apply (lang_lit "FIXME").
    + apply Re.L_alt_r, Re.L_alt_r. apply (lang_lit "HACK").
Qed.

(** X16.  In the result of a scan, every line of a scanned file that
    holds the word [simplified], [Simplified] or [SIMPLIFIED] is flagged
    as ["simplified_implementation"], and every line that holds
    [Math.random()] is flagged as ["random_data_generation"], wherever
    in the line the text stands, in code or in a comment. *)
Theorem literal_markers_flagged
  (vs : list Violation) (path content : string) (i : nat)
  (pre word post : string) :
  scan_result w = inr vs ->
  scanned_file (os_walk w ".") path ->
  fs w path = Some content ->
  nth_error (Py.readlines content) i = Some (pre ++ word ++ post)%string ->
  (word = "simplified" \/ word = "Simplified" \/ word = "SIMPLIFIED" ->
   In (mkViolation path (Z.of_nat i + 1) "simplified_implementation"
         (Py.strip (pre ++ word ++ post))) vs) /\
  (word = "Math.random()" ->
   In (mkViolation path (Z.of_nat i + 1) "random_data_generation"
         (Py.strip (pre ++ word ++ post))) vs).
Proof.
  intros Hvs Hp Hc Hline. split; intros Hword.
  - apply (scan_flags vs path content _ i
             Patterns.simplified_implementation
             "simplified_implementation" Hvs Hp Hc Hline).
    + simpl. tauto.
    + apply search_word. unfold Patterns.simplified_implementation.
      simpl Re.alts. destruct Hword as [-> | [-> | ->]].
      * apply Re.L_alt_l. apply (lang_lit "simplified").
      * apply Re.L_alt_r, Re.L_alt_l. apply (lang_lit "Simplified").
      * apply Re.L_alt_r, Re.L_alt_r. apply (lang_lit "SIMPLIFIED").
  - subst word.
    apply (scan_flags vs path content _ i Patterns.random_data_generation
             "random_data_generation" Hvs Hp Hc Hline).
    + simpl. tauto.
    + apply search_word. apply (lang_lit "Math.random()").
Qed.

End Flags.

(** X17.  The test on directories is a test on substrings of the path.
    When the walk lists a directory whose path holds [node_modules],
    [.git] or [build] anywhere, as [.github] or [rebuild] do,
    [find_violations] does what it would do were that directory not
    listed: it opens the same files and returns the same violations or
    raises the same error.  The loop over such a directory alone opens
    no file and finds nothing, whatever its files hold. *)
Theorem directories_skipped_by_substring
  (w : World) (before after : list (string * list string * list string))
  (pre marker post : string) (ds files : list string) (st : State) :
  marker = "node_modules" \/ marker = ".git" \/ marker = "build" ->
  os_walk w "." = before ++ (pre ++ marker ++ post, ds, files)%string :: after ->
  find_violations w "." st = scan_dirs w (before ++ after) st /\
  scan_dirs w [((pre ++ marker ++ post)%string, ds, files)] st
  = (st, inr []).
Proof.
  intros Hm Hwalk.
  assert (Hs : skipped (pre ++ marker ++ post) = true).
  { unfold skipped. destruct Hm as [-> | [-> | ->]];
      rewrite contains_word; rewrite ?orb_true_r; reflexivity. }
  split.
  - unfold find_violations. rewrite Hwalk, !scan_dirs_read_all.
    assert (Hpaths :
              scanned_paths
                (before ++ (pre ++ marker ++ post, ds, files)%string :: after)
              = scanned_paths (before ++ after)).
    { unfold scanned_paths. rewrite !flat_map_app. simpl flat_map.
      now rewrite Hs. }
    now rewrite Hpaths.
  - simpl scan_dirs. rewrite Hs. reflexivity.
Qed.

(* ================================================================== *)
(** ** The two remaining idioms *)

Lemma lang_star_dot (s : string) :
  no_newline s = true -> Re.lang (Re.Star Re.dot) s.
Proof.
  induction s as [|c s IH]; simpl; intros H; [constructor|].
  apply andb_prop in H. destruct H as [Hc Hs].
  change (String c s) with (String c "" ++ s)%string.
  constructor; [now constructor|now apply IH].
Qed.

Lemma lang_plus_space (ws : string) :
  ws <> "" -> all_space ws = true -> Re.lang (Re.plus Re.space) ws.
Proof.
  destruct ws as [|c ws]; [congruence|]. simpl. intros _ H.
  apply andb_prop in H. destruct H as [Hc Hws].
  change (String c ws) with (String c "" ++ ws)%string.
  constructor; [now constructor|now apply lang_star_space].
Qed.

(** X18.  In the result of a scan, a line of a scanned file is flagged
    as ["not_implemented_error"] when it holds [throw], whitespace, and
    further on in the line [Error] and then [not implemented]; and as
    ["hardcoded_string"] when it holds [return], whitespace and one of
    the three names between double quotes. *)
Theorem error_and_string_idioms_flagged
  (w : World) (vs : list Violation) (path content line : string) (i : nat) :
  scan_result w = inr vs ->
  scanned_file (os_walk w ".") path ->
  fs w path = Some content ->
  nth_error (Py.readlines content) i = Some line ->
  (forall pre ws mid1 mid2 post,
     line = (pre ++ "throw" ++ ws ++ mid1 ++ "Error" ++ mid2
             ++ "not implemented" ++ post)%string ->
     ws <> "" -> all_space ws = true ->
     no_newline mid1 = true -> no_newline mid2 = true ->
     In (mkViolation path (Z.of_nat i + 1) "not_implemented_error"
                     (Py.strip line)) vs) /\
  (forall pre ws name post,
     line = (pre ++ "return" ++ ws ++ String Patterns.dquote name
             ++ String Patterns.dquote post)%string ->
     ws <> "" -> all_space ws = true ->
     name = "Contemporary" \/ name = "Neutral" \/ name = "2010s" ->
     In (mkViolation path (Z.of_nat i + 1) "hardcoded_string"
                     (Py.strip line)) vs).
Proof.
  intros Hvs Hp Hc Hline. split.
  - intros pre ws mid1 mid2 post -> Hne Hws H1 H2.
    apply (scan_flags w vs path content _ i Patterns.not_implemented_error
             "not_implemented_error" Hvs Hp Hc Hline).
    + simpl. tauto.
    + replace (pre ++ "throw" ++ ws ++ mid1 ++ "Error" ++ mid2
               ++ "not implemented" ++ post)%string
        with (pre ++ ("throw" ++ ws ++ mid1 ++ "Error" ++ mid2
                      ++ "not implemented") ++ post)%string
        by (rewrite !ReFacts.append_assoc; reflexivity).
      apply search_word. unfold Patterns.not_implemented_error.
      simpl Re.seqs.
      constructor; [apply (lang_lit "throw")|].
      constructor; [now apply lang_plus_space|].
      constructor; [now apply lang_star_dot|].
      constructor; [apply (lang_lit "Error")|].
      constructor; [now apply lang_star_dot|].
      apply (lang_lit "not implemented").
  - intros pre ws name post -> Hne Hws Hname.
    apply (scan_flags w vs path content _ i Patterns.hardcoded_string
             "hardcoded_string" Hvs Hp Hc Hline).
    + simpl. tauto.
    + replace (pre ++ "return" ++ ws ++ String Patterns.dquote name
               ++ String Patterns.dquote post)%string
        with (pre ++ ("return" ++ ws ++ String Patterns.dquote ""
                      ++ name ++ String Patterns.dquote "") ++ post)%string
        by (rewrite !ReFacts.append_assoc; reflexivity).
      apply search_word. unfold Patterns.hardcoded_string.
      simpl Re.seqs.
      constructor; [apply (lang_lit "return")|].
      constructor; [now apply lang_plus_space|].
      constructor; [constructor; apply Ascii.eqb_refl|].
      constructor; [|constructor; apply Ascii.eqb_refl].
      simpl Re.alts. destruct Hname as [-> | [-> | ->]].
      * apply Re.L_alt_l. apply (lang_lit "Contemporary").
      * apply Re.L_alt_r, Re.L_alt_l. apply (lang_lit "Neutral").
      * apply Re.L_alt_r, Re.L_alt_r. apply (lang_lit "2010s").
Qed.

(* ================================================================== *)
(** ** The turn of the loop that succeeds *)

(** No piece of [split('\n')] holds a newline. *)
Lemma split_nl_no_newline (s : string) :
  Forall (fun piece => no_newline piece = true) (Py.split_nl s).
Proof.
  induction s as [|c t IH]; simpl.
  - now repeat constructor.
  - destruct (Ascii.eqb c Py.newline) eqn:Hc.
    + constructor; [reflexivity|exact IH].
    + destruct (Py.split_nl t) as [|p0 ps];
        [now repeat constructor; simpl; rewrite Hc|].
      inversion IH as [|? ? Hp0 Hps]; subst.
      constructor; [|exact Hps]. simpl. now rewrite Hc, Hp0.
Qed.

(** A line of [readlines] is the piece of [split('\n')] of the same
    index, with its newline when it has one. *)
Lemma readlines_split_nth (s : string) (k : nat) (l : string) :
  nth_error (Py.readlines s) k = Some l ->
  exists piece,
    nth_error (Py.split_nl s) k = Some piece /\
    no_newline piece = true /\
    (l = (piece ++ Py.nl)%string \/ l = piece).
Proof.
  assert (Hmain : forall s k l,
            nth_error (Py.readlines s) k = Some l ->
            exists piece,
              nth_error (Py.split_nl s) k = Some piece /\
              (l = (piece ++ Py.nl)%string \/ l = piece)).
  { clear. intros s. induction s as [|c t IH]; intros k l; simpl.
    - destruct k; discriminate.
    - destruct (Ascii.eqb_spec c Py.newline) as [->|Hc].
      + destruct k as [|k]; simpl.
        * intros H. inversion H. exists "". split; [reflexivity|now left].
        * apply IH.
      + destruct (Py.readlines t) as [|l0 ls] eqn:Er.
        * assert (Ht : t = "").
          { destruct t as [|c' t']; [reflexivity|]. simpl in Er.
            destruct (Ascii.eqb c' Py.newline); [discriminate|].
            destruct (Py.readlines t'); discriminate. }
          subst t. simpl.
          destruct k as [|k]; simpl; [|destruct k; discriminate].
          intros H. inversion H. exists (String c "").
          split; [reflexivity|]. now right.
        * destruct (Py.split_nl t) as [|p0 ps] eqn:Es;
            [now apply PyFacts.split_nl_nonempty in Es|].
          destruct k as [|k]; simpl.
          -- intros H. inversion H; subst l.
             destruct (IH 0%nat l0 eq_refl) as (piece & Hp & Hl).
             simpl in Hp. inversion Hp; subst piece.
             exists (String c p0). split; [reflexivity|].
             destruct Hl as [-> | ->]; [now left|now right].
          -- intros H. apply (IH (S k) l H). }
  intros H. destruct (Hmain s k l H) as (piece & Hp & Hl).
  exists piece. split; [exact Hp|]. split; [|exact Hl].
  pose proof (split_nl_no_newline s) as Hall.
  rewrite Forall_forall in Hall. apply Hall.
  eapply nth_error_In. exact Hp.
Qed.

(** X19.  When the context of a violation found on a line of a readable
    file has been extracted and the service answers the request with a
    text, the turn of the loop ends normally with one fix appended to the
    list: the file and the line number of the violation, the line as it
    stands in the file, without its newline but with its indentation,
    and the text of the service.  The original recorded holds no newline
    and is the line itself when the line has none, the line less its
    final newline otherwise.  The success is printed and nothing is
    written. *)
Theorem service_answer_is_recorded
  (w : World) (total i : nat) (violation : Violation)
  (content line text : string) (k : nat) (context : Context) (st : State) :
  fs w (v_file violation) = Some content ->
  nth_error (Py.readlines content) k = Some line ->
  v_line violation = Z.of_nat k + 1 ->
  context_of w (v_file violation) (v_line violation) = inr context ->
  service w (requests st) (prompt_of context) = inr text ->
  exists original,
    no_newline original = true /\
    (line = (original ++ Py.nl)%string \/ line = original) /\
    process_violation w total i violation st
    = (mkState (fixer_violations st)
         (fixer_fixes st
          ++ [mkFix (v_file violation) (v_line violation) original text])
         (S (requests st))
         (trace (requested total i violation context st)
          ++ [EvOpenRead (v_file violation); EvPrint MsgFixOk]),
       inr tt) /\
    writes (trace (fst (process_violation w total i violation st)))
    = writes (trace st).
Proof.
  intros Hfs Hline Hk Hctx Hsvc.
  destruct (readlines_split_nth content k line Hline)
    as (original & Ho & Hnn & Hrel).
  assert (Hidx : Py.index (Py.split_nl content) (v_line violation - 1)
                 = Some original).
  { assert (Hlt : (k < List.length (Py.split_nl content))%nat)
      by (apply nth_error_Some; congruence).
    rewrite PyFacts.index_nth by lia.
    replace (Z.to_nat (v_line violation - 1)) with k by lia. exact Ho. }
  exists original. split; [exact Hnn|]. split; [exact Hrel|].
  rewrite (process_violation_run w total i violation context st Hctx).
  cbv zeta. rewrite Hsvc, Hfs, Hidx. split; [reflexivity|].
  cbn [fst trace]. unfold requested. cbn [trace].
  rewrite !writes_app. simpl. now rewrite !app_nil_r.
Qed.

(* ================================================================== *)
(** ** The further properties on small trees *)

Import Trees.

Lemma scan_reads_every_source_file_in_order_witness :
  scanned_paths (os_walk w_two ".")
  = ["./main.ts"; "./src/analyzer.cpp"; "./lib/rand.js"] /\
  find_violations w_two "." initial
  = (add_events
       (map EvOpenRead ["./main.ts"; "./src/analyzer.cpp"; "./lib/rand.js"])
       initial,
     inr (flat_map (violations_of w_two)
            ["./main.ts"; "./src/analyzer.cpp"; "./lib/rand.js"])).
Proof.
  split; [reflexivity|].
  apply (scan_reads_every_source_file_in_order w_two initial).
  intros p Hp. vm_compute in Hp.
  destruct Hp as [<- | [<- | [<- | []]]]; vm_compute; discriminate.
Defined.

Lemma scan_stops_at_first_unreadable_file_witness :
  scanned_paths (os_walk w_unreadable ".")
  = ["./src/analyzer.cpp"; "./src/locked.cpp"] /\
  fs w_unreadable "./src/locked.cpp" = None /\
  find_violations w_unreadable "." initial
  = (add_events
       (map EvOpenRead ["./src/analyzer.cpp"; "./src/locked.cpp"]) initial,
     inl (OSError "./src/locked.cpp")).
Proof.
  split; [reflexivity|]. split; [reflexivity|].
  apply (scan_stops_at_first_unreadable_file w_unreadable
           ["./src/analyzer.cpp"] [] "./src/locked.cpp" initial).
  - reflexivity.
  - intros q [<- | []]. vm_compute. discriminate.
  - reflexivity.
Defined.

Lemma scan_opens_only_source_files_witness :
  In (EvOpenRead "./src/analyzer.cpp")
     (trace (fst (find_violations w_analyzer "." initial))) /\
  exists root ds files file,
    In (root, ds, files) (os_walk w_analyzer ".") /\
    Py.contains "node_modules" root = false /\
    Py.contains ".git" root = false /\
    Py.contains "build" root = false /\
    In file files /\
    (Py.endswith file ".cpp" = true \/ Py.endswith file ".h" = true \/
     Py.endswith file ".js" = true \/ Py.endswith file ".ts" = true) /\
    "./src/analyzer.cpp" = Py.path_join root file.
Proof.
  assert (H : In (EvOpenRead "./src/analyzer.cpp")
                 (trace (fst (find_violations w_analyzer "." initial))))
    by (vm_compute; left; reflexivity).
  split; [exact H|].
  destruct (scan_opens_only_source_files w_analyzer initial
              "./src/analyzer.cpp" H) as [[] | Hex].
  exact Hex.
Defined.

Lemma file_violations_in_line_order_witness :
  fs w_two "./lib/rand.js" = Some rand_js /\
  StronglySorted (fun a b => v_line a <= v_line b)
                 (violations_of w_two "./lib/rand.js") /\
  Forall (fun v => v_file v = "./lib/rand.js" /\
                   1 <= v_line v
                   <= Z.of_nat (List.length (Py.readlines rand_js)))
         (violations_of w_two "./lib/rand.js").
Proof.
  split; [reflexivity|].
  apply (file_violations_in_line_order w_two "./lib/rand.js" rand_js).
  reflexivity.
Defined.

Lemma extract_function_name_closest_witness :
  3 <= Z.of_nat (List.length (Py.readlines rand_js)) /\
  extract_function_name (Py.readlines rand_js) 3
  = inr "function pick(xs) {".
Proof.
  assert (Hlen : 3 <= Z.of_nat (List.length (Py.readlines rand_js)))
    by (vm_compute; discriminate).
  split; [exact Hlen|].
  destruct (extract_function_name_closest (Py.readlines rand_js) 3 Hlen)
    as [(i & l & Hi & Hl & Hd & _ & Hres) | (Hnone & _)].
  - assert (Hcases : i = 1 \/ i = 2) by lia.
    destruct Hcases as [-> | ->]; vm_compute in Hl; inversion Hl; subst l.
    + exact Hres.
    + vm_compute in Hd. discriminate.
  - assert (Hdecl : Patterns.is_declaration ("function pick(xs) {" ++ Py.nl)
                    = false).
    { apply (Hnone 1); [vm_compute; split; [reflexivity|discriminate]|].
      vm_compute. reflexivity. }
    vm_compute in Hdecl. discriminate.
Defined.

Lemma context_window_contents_witness :
  fs w_numbered "./src/numbered.h" = Some (text_of numbered) /\
  1 <= 21 <= Z.of_nat (List.length (Py.readlines (text_of numbered))) /\
  exists context before target after,
    analyze_code_context w_numbered "./src/numbered.h" 21 initial
    = (add_events [EvOpenRead "./src/numbered.h"] initial, inr context) /\
    c_context context = Py.join (before ++ target :: after) /\
    List.length before = 19%nat /\
    List.length after = 4%nat.
Proof.
  assert (Hn : 1 <= 21
               <= Z.of_nat (List.length (Py.readlines (text_of numbered))))
    by (vm_compute; split; discriminate).
  split; [reflexivity|]. split; [exact Hn|].
  destruct (context_window_contents w_numbered "./src/numbered.h"
              (text_of numbered) 21 initial eq_refl Hn)
    as (context & pre & before & target & after & post & Hrun & _ & _
        & Hb & Ha & _ & _ & Hc & _).
  exists context, before, target, after.
  split; [exact Hrun|]. split; [exact Hc|].
  assert (Hlen : Z.of_nat (List.length (Py.readlines (text_of numbered)))
                 = 25) by (vm_compute; reflexivity).
  rewrite Hlen in Ha. split; lia.
Defined.

Lemma analyze_code_context_edges_witness :
  analyze_code_context w_unreadable "./src/locked.cpp" 1 initial
  = (add_events [EvOpenRead "./src/locked.cpp"] initial,
     inl (OSError "./src/locked.cpp")) /\
  analyze_code_context w_analyzer "./src/analyzer.cpp" 4 initial
  = (add_events [EvOpenRead "./src/analyzer.cpp"] initial, inl IndexError) /\
  analyze_code_context w_analyzer "./src/analyzer.cpp" 0 initial
  = (add_events [EvOpenRead "./src/analyzer.cpp"] initial,
     inr (mkContext "./src/analyzer.cpp" 0 analyzer_cpp
                    "Unknown function" "}")).
Proof.
  destruct (analyze_code_context_edges w_unreadable "./src/locked.cpp"
              initial) as (Hos & _ & _).
  destruct (analyze_code_context_edges w_analyzer "./src/analyzer.cpp"
              initial) as (_ & Hidx & Hzero).
  split; [apply Hos; reflexivity|]. split.
  - apply (Hidx analyzer_cpp); [reflexivity|vm_compute; reflexivity].
  - rewrite (Hzero analyzer_cpp); [vm_compute; reflexivity|reflexivity|].
    vm_compute. discriminate.
Defined.

Lemma output_write_failures_witness :
  scan_result w_readonly = inr todo_violations /\
  (snd (main w_readonly initial) = inl (OSError "ai_fix_report.json") /\
   fix_attempts (trace (fst (main w_readonly initial))) = 5%nat /\
   writes (trace (fst (main w_readonly initial))) = []) /\
  (snd (main w_half initial) = inl (OSError "pr_description.md") /\
   exists report,
     writes (trace (fst (main w_half initial)))
     = [EvWrite "ai_fix_report.json" (DocReport report)] /\
     violations_found report = 6%nat).
Proof.
  assert (Hr : scan_result w_readonly = inr todo_violations)
    by (vm_compute; reflexivity).
  assert (Hh : scan_result w_half = inr todo_violations)
    by (vm_compute; reflexivity).
  destruct (output_write_failures w_readonly todo_violations eq_refl Hr)
    as [Hreport _].
  destruct (output_write_failures w_half todo_violations eq_refl Hh)
    as [_ Hdescr].
  split; [exact Hr|]. split.
  - exact (Hreport eq_refl).
  - exact (Hdescr eq_refl eq_refl).
Defined.

Lemma every_request_is_accounted_for_witness :
  scan_result w_todo = inr todo_violations /\
  exists st' report pr,
    main w_todo initial = (st', inr tt) /\
    writes (trace st')
    = [EvWrite "ai_fix_report.json" (DocReport report);
       EvWrite "pr_description.md" (DocPr pr)] /\
    fixes_applied report = fixes_ok (trace st') /\
    (fixes_ok (trace st') + fixes_failed (trace st'))%nat
    = fix_attempts (trace st') /\
    fix_attempts (trace st') = 5%nat.
Proof.
  assert (Hvs : scan_result w_todo = inr todo_violations)
    by (vm_compute; reflexivity).
  split; [exact Hvs|].
  exact (every_request_is_accounted_for w_todo todo_violations
           eq_refl Hvs eq_refl eq_refl).
Defined.

Lemma description_counts_witness :
  scan_result w_todo = inr todo_violations /\
  exists st' report pr,
    main w_todo initial = (st', inr tt) /\
    writes (trace st')
    = [EvWrite "ai_fix_report.json" (DocReport report);
       EvWrite "pr_description.md" (DocPr pr)] /\
    violations_found report = 6%nat /\
    pr_violations_found pr = 0%nat /\
    pr_fixes_applied pr = fixes_applied report /\
    pr_changes pr = fixes_by_file (r_fixes report) /\
    pr_files_modified pr = List.length (pr_changes pr).
Proof.
  assert (Hvs : scan_result w_todo = inr todo_violations)
    by (vm_compute; reflexivity).
  split; [exact Hvs|].
  exact (description_counts w_todo todo_violations
           eq_refl Hvs eq_refl eq_refl).
Defined.

Lemma fixes_by_file_groups_witness :
  NoDup (map fst (fixes_by_file [fix_a1; fix_b7; fix_a9])) /\
  In ("a.cpp", [fix_a1; fix_a9]) (fixes_by_file [fix_a1; fix_b7; fix_a9]) /\
  List.length (fixes_by_file [fix_a1; fix_b7; fix_a9]) = 2%nat.
Proof.
  destruct (fixes_by_file_groups [fix_a1; fix_b7; fix_a9])
    as (Hnd & Hin & _ & Hlen).
  split; [exact Hnd|]. split; [|exact Hlen].
  apply Hin. split; [reflexivity|discriminate].
Defined.

Lemma context_error_aborts_loop_witness :
  context_of w_unreadable "./src/locked.cpp" 1
  = inl (OSError "./src/locked.cpp") /\
  process_violations w_unreadable 2 0
    [locked_violation; analyzer_violation] initial
  = (add_events
       [EvPrint (MsgProcessing 1 2);
        EvPrint (MsgFile "./src/locked.cpp" 1);
        EvPrint (MsgType "todo_comment");
        EvOpenRead "./src/locked.cpp"] initial,
     inl (OSError "./src/locked.cpp")).
Proof.
  assert (H : context_of w_unreadable (v_file locked_violation)
                         (v_line locked_violation)
              = inl (OSError "./src/locked.cpp")) by reflexivity.
  split; [exact H|].
  exact (context_error_aborts_loop w_unreadable 2 0 locked_violation
           [analyzer_violation] (OSError "./src/locked.cpp") initial H).
Defined.

Lemma no_source_files_empty_report_witness :
  scanned_paths (os_walk w_docs ".") = [] /\
  main w_docs initial
  = (mkState [] [] 0
       [EvPrint MsgScanning;
        EvPrint (MsgFound 0);
        EvWrite "ai_fix_report.json" (DocReport (mkReport 0 0 [] []));
        EvWrite "pr_description.md" (DocPr (mkPr 0 0 0 []));
        EvPrint (MsgCompleted 0);
        EvPrint MsgReports],
     inr tt).
Proof.
  split; [reflexivity|].
  exact (no_source_files_empty_report w_docs eq_refl eq_refl eq_refl
           eq_refl).
Defined.

Lemma todo_markers_flagged_witness :
  nth_error (Py.readlines main_ts) 0
  = Some ("" ++ "//" ++ " " ++ "FIXME" ++ ":" ++ " wire up" ++ Py.nl)%string /\
  exists vs,
    scan_result w_two = inr vs /\
    In (mkViolation "./main.ts" 1 "todo_comment" "// FIXME: wire up") vs.
Proof.
  assert (Hline : nth_error (Py.readlines main_ts) 0
                  = Some ("" ++ "//" ++ " " ++ "FIXME" ++ ":"
                          ++ " wire up" ++ Py.nl)%string)
    by (vm_compute; reflexivity).
  split; [exact Hline|].
  exists (flat_map (violations_of w_two) (scanned_paths (os_walk w_two "."))).
  assert (Hvs : scan_result w_two
                = inr (flat_map (violations_of w_two)
                         (scanned_paths (os_walk w_two "."))))
    by (vm_compute; reflexivity).
  assert (Hp : scanned_file (os_walk w_two ".") "./main.ts").
  { exists ".", ["src"; "lib"; "rebuild"], ["main.ts"], "main.ts".
    split; [left; reflexivity|]. split; [reflexivity|].
    split; [left; reflexivity|]. split; reflexivity. }
  assert (Hfs : fs w_two "./main.ts" = Some main_ts)
    by (vm_compute; reflexivity).
  pose proof (todo_markers_flagged w_two _ "./main.ts" main_ts 0
                "" " " "FIXME" (" wire up" ++ Py.nl) Hvs Hp Hfs Hline
                eq_refl (or_intror (or_introl eq_refl))) as H.
  split; [exact Hvs|]. vm_compute in H. vm_compute. exact H.
Defined.

Lemma literal_markers_flagged_witness :
  exists vs,
    scan_result w_two = inr vs /\
    In (mkViolation "./lib/rand.js" 1 "simplified_implementation"
                    "// simplified helpers") vs /\
    In (mkViolation "./lib/rand.js" 3 "random_data_generation"
                    "return xs[Math.random() * xs.length | 0];") vs.
Proof.
  exists (flat_map (violations_of w_two) (scanned_paths (os_walk w_two "."))).
  assert (Hvs : scan_result w_two
                = inr (flat_map (violations_of w_two)
                         (scanned_paths (os_walk w_two "."))))
    by (vm_compute; reflexivity).
  assert (Hp : scanned_file (os_walk w_two ".") "./lib/rand.js").
  { exists "./lib", [], ["rand.js"], "rand.js".
    split; [right; right; left; reflexivity|]. split; [reflexivity|].
    split; [left; reflexivity|]. split; reflexivity. }
  assert (Hfs : fs w_two "./lib/rand.js" = Some rand_js)
    by (vm_compute; reflexivity).
  assert (Hl1 : nth_error (Py.readlines rand_js) 0
                = Some ("// " ++ "simplified" ++ " helpers" ++ Py.nl)%string)
    by (vm_compute; reflexivity).
  assert (Hl3 : nth_error (Py.readlines rand_js) 2
                = Some ("  return xs[" ++ "Math.random()"
                        ++ " * xs.length | 0];" ++ Py.nl)%string)
    by (vm_compute; reflexivity).
  pose proof (proj1 (literal_markers_flagged w_two _ "./lib/rand.js"
                       rand_js 0 "// " "simplified" (" helpers" ++ Py.nl)
                       Hvs Hp Hfs Hl1) (or_introl eq_refl)) as H1.
  pose proof (proj2 (literal_markers_flagged w_two _ "./lib/rand.js"
                       rand_js 2 "  return xs[" "Math.random()"
                       (" * xs.length | 0];" ++ Py.nl)
                       Hvs Hp Hfs Hl3) eq_refl) as H3.
  split; [exact Hvs|]. vm_compute in H1, H3. vm_compute.
  split; [exact H1|exact H3].
Defined.

Lemma directories_skipped_by_substring_witness :
  os_walk w_docs "."
  = [(".", [".github"; "docs"], ["README.md"])]
    ++ ("./" ++ ".git" ++ "hub", [], ["hook.js"])%string
    :: [("./docs", [], ["guide.txt"])] /\
  fs w_docs "./.github/hook.js" = Some "// TODO: x" /\
  find_violations w_docs "." initial
  = scan_dirs w_docs
      ([(".", [".github"; "docs"], ["README.md"])]
       ++ [("./docs", [], ["guide.txt"])]) initial /\
  scan_dirs w_docs [("./.github", [], ["hook.js"])] initial
  = (initial, inr []).
Proof.
  assert (Hwalk : os_walk w_docs "."
                  = [(".", [".github"; "docs"], ["README.md"])]
                    ++ ("./" ++ ".git" ++ "hub", [], ["hook.js"])%string
                    :: [("./docs", [], ["guide.txt"])]) by reflexivity.
  split; [exact Hwalk|]. split; [reflexivity|].
  exact (directories_skipped_by_substring w_docs
           [(".", [".github"; "docs"], ["README.md"])]
           [("./docs", [], ["guide.txt"])]
           "./" ".git" "hub" [] ["hook.js"] initial
           (or_intror (or_introl eq_refl)) Hwalk).
Defined.

Lemma error_and_string_idioms_flagged_witness :
  exists vs,
    scan_result w_mood = inr vs /\
    In (mkViolation "./src/mood.js" 2 "not_implemented_error"
          "if (!t) throw new Error('mood: not implemented');") vs /\
    In (mkViolation "./src/mood.js" 3 "hardcoded_string"
          ("return " ++ quote ++ "Neutral" ++ quote ++ ";")) vs.
Proof.
  exists (flat_map (violations_of w_mood)
            (scanned_paths (os_walk w_mood "."))).
  assert (Hvs : scan_result w_mood
                = inr (flat_map (violations_of w_mood)
                         (scanned_paths (os_walk w_mood "."))))
    by (vm_compute; reflexivity).
  assert (Hp : scanned_file (os_walk w_mood ".") "./src/mood.js").
  { exists "./src", [], ["mood.js"], "mood.js".
    split; [right; left; reflexivity|]. split; [reflexivity|].
    split; [left; reflexivity|]. split; reflexivity. }
  assert (Hfs : fs w_mood "./src/mood.js" = Some mood_js)
    by (vm_compute; reflexivity).
  assert (Hl2 : nth_error (Py.readlines mood_js) 1
                = Some ("  if (!t) throw new Error('mood: not implemented');"
                        ++ Py.nl)%string)
    by (vm_compute; reflexivity).
  assert (Hl3 : nth_error (Py.readlines mood_js) 2
                = Some ("  return " ++ quote ++ "Neutral" ++ quote ++ ";"
                        ++ Py.nl)%string)
    by (vm_compute; reflexivity).
  pose proof (proj1 (error_and_string_idioms_flagged w_mood _
                       "./src/mood.js" mood_js _ 1 Hvs Hp Hfs Hl2)
                "  if (!t) " " " "new " "('mood: " ("');" ++ Py.nl)%string
                eq_refl) as H2.
  pose proof (proj2 (error_and_string_idioms_flagged w_mood _
                       "./src/mood.js" mood_js _ 2 Hvs Hp Hfs Hl3)
                "  " " " "Neutral" (";" ++ Py.nl)%string eq_refl) as H3.
  split; [exact Hvs|].
  assert (Hne : " "%string <> ""%string) by discriminate.
  specialize (H2 Hne eq_refl eq_refl eq_refl).
  specialize (H3 Hne eq_refl (or_intror (or_introl eq_refl))).
  vm_compute in H2, H3. vm_compute. split; [exact H2|exact H3].
Defined.

Lemma service_answer_is_recorded_witness :
  fs w_analyzer "./src/analyzer.cpp" = Some analyzer_cpp /\
  nth_error (Py.readlines analyzer_cpp) 1
  = Some ("  return 0.5f; // placeholder" ++ Py.nl)%string /\
  context_of w_analyzer "./src/analyzer.cpp" 2 = inr analyzer_context /\
  service w_analyzer 0 (prompt_of analyzer_context) = inr "return rms(t);" /\
  fixer_fixes (fst (process_violation w_analyzer 1 0 analyzer_violation
                                      initial))
  = [mkFix "./src/analyzer.cpp" 2 "  return 0.5f; // placeholder"
           "return rms(t);"] /\
  exists original,
    no_newline original = true /\
    (("  return 0.5f; // placeholder" ++ Py.nl)%string
     = (original ++ Py.nl)%string \/
     ("  return 0.5f; // placeholder" ++ Py.nl)%string = original) /\
    fixer_fixes (fst (process_violation w_analyzer 1 0 analyzer_violation
                                        initial))
    = [mkFix "./src/analyzer.cpp" 2 original "return rms(t);"].
Proof.
  assert (Hfs : fs w_analyzer (v_file analyzer_violation)
                = Some analyzer_cpp) by (vm_compute; reflexivity).
  assert (Hline : nth_error (Py.readlines analyzer_cpp) 1
                  = Some ("  return 0.5f; // placeholder" ++ Py.nl)%string)
    by (vm_compute; reflexivity).
  assert (Hctx : context_of w_analyzer (v_file analyzer_violation)
                            (v_line analyzer_violation)
                 = inr analyzer_context) by (vm_compute; reflexivity).
  assert (Hsvc : service w_analyzer (requests initial)
                         (prompt_of analyzer_context)
                 = inr "return rms(t);") by reflexivity.
  destruct (service_answer_is_recorded w_analyzer 1 0 analyzer_violation
              analyzer_cpp _ "return rms(t);" 1 analyzer_context initial
              Hfs Hline eq_refl Hctx Hsvc)
    as (original & Hnn & Hrel & Hrun & _).
  split; [exact Hfs|]. split; [exact Hline|]. split; [exact Hctx|].
  split; [exact Hsvc|]. split; [vm_compute; reflexivity|].
  exists original. split; [exact Hnn|]. split; [exact Hrel|].
  rewrite Hrun. reflexivity.
Defined.
